(** * EmpathAI: memory manager, prompt enhancer and chat back ends

    A shallow embedding of the Python sources

    - [app/memory/memory_manager.py]  (class [MemoryManager]),
    - [app/prompt/enhancer.py]        (class [PromptEnhancer]),
    - [fixed_backend.py], [ai_backend.py] (the [/chat] handlers),

    together with the properties of the design document that concern them.

    Conventions of the embedding.

    - A Python [str] is a Rocq [string]; a character stands for its code
      point, so the model covers texts whose code points are below 256.
      [lower], [strip] and [split] follow CPython on that range.
    - A Python [float] is a binary64 primitive float ([PrimFloat.float]);
      comparisons and products are the IEEE ones.
    - A [datetime] is an integer number of microseconds.  One value [now]
      of the process clock is read per operation: the successive
      [datetime.utcnow()] calls of one method are identified.  The server's
      [now()], which fills [created_at] and [updated_at] of an inserted row,
      is a clock of its own, carried by the session.
    - A SQLAlchemy session is the table [long_term_memories] it gives
      access to, as a list of rows in insertion order, with the flag that
      decides when pending changes become visible to queries and the clock
      of the server.  Logging and the free-form [metadata] column are left
      out; no property reads them.
    - A dictionary passed between functions is a record of the keys that
      are read; module-level dictionaries of the back ends are finite maps. *)

From Stdlib Require Import ZArith NArith List Bool Ascii String PrimFloat Lia.
From stdpp Require Import gmap strings list.

Set Warnings "-inexact-float".
Local Open Scope Z_scope.

(** ** Python text primitives *)

Module Text.

Definition nl : string := String (ascii_of_nat 10) "".
Definition dquote : string := String (ascii_of_nat 34) "".

Definition between (lo hi n : N) : bool := ((lo <=? n) && (n <=? hi))%N.

(** [str.isspace] on one character. *)
Definition isspace (c : ascii) : bool :=
  let n := N_of_ascii c in
  between 9 13 n || between 28 32 n || (n =? 133)%N || (n =? 160)%N.

(** [str.lower] on one character. *)
Definition lower_char (c : ascii) : ascii :=
  let n := N_of_ascii c in
  if between 65 90 n || between 192 214 n || between 216 222 n
  then ascii_of_N (n + 32) else c.

(** [str.upper] on one character.  Three code points below 256 have an
    upper case outside that range (181, 223, 255); they are left as they
    are here. *)
Definition upper_char (c : ascii) : ascii :=
  let n := N_of_ascii c in
  if between 97 122 n || between 224 246 n || between 248 254 n
  then ascii_of_N (n - 32) else c.

Fixpoint lower (s : string) : string :=
  match s with
  | EmptyString => EmptyString
  | String c s' => String (lower_char c) (lower s')
  end.

Fixpoint upper (s : string) : string :=
  match s with
  | EmptyString => EmptyString
  | String c s' => String (upper_char c) (upper s')
  end.

Fixpoint lstrip (s : string) : string :=
  match s with
  | EmptyString => EmptyString
  | String c s' => if isspace c then lstrip s' else s
  end.

Fixpoint rstrip (s : string) : string :=
  match s with
  | EmptyString => EmptyString
  | String c s' =>
      match rstrip s' with
      | EmptyString => if isspace c then EmptyString else String c EmptyString
      | r => String c r
      end
  end.

(** [s.strip()] *)
Definition strip (s : string) : string := rstrip (lstrip s).

(** [s.startswith(p)] *)
Definition startswith (s p : string) : bool := String.prefix p s.

(** [needle in hay] *)
Fixpoint contains (needle hay : string) : bool :=
  String.prefix needle hay ||
  match hay with
  | EmptyString => false
  | String _ hay' => contains needle hay'
  end.

(** [any(word in text for word in words)] *)
Definition any_in (words : list string) (text : string) : bool :=
  existsb (fun w => contains w text) words.

Definition push (c : ascii) (pieces : list string) : list string :=
  match pieces with
  | [] => [String c EmptyString]
  | p :: ps => String c p :: ps
  end.

(** [s.split(sep)] for a one-character separator. *)
Fixpoint split_char (sep : ascii) (s : string) : list string :=
  match s with
  | EmptyString => [EmptyString]
  | String c s' =>
      if Ascii.eqb c sep then EmptyString :: split_char sep s'
      else push c (split_char sep s')
  end.

Definition is_terminal (c : ascii) : bool :=
  Ascii.eqb c "." || Ascii.eqb c "!" || Ascii.eqb c "?".

Definition starts_terminal (s : string) : bool :=
  match s with
  | EmptyString => false
  | String c _ => is_terminal c
  end.

(** [re.split(r'[.!?]+', s)]: a maximal run of terminal marks is one
    separator. *)
Fixpoint re_split_terminals (s : string) : list string :=
  match s with
  | EmptyString => [EmptyString]
  | String c s' =>
      if is_terminal c then
        if starts_terminal s' then re_split_terminals s'
        else EmptyString :: re_split_terminals s'
      else push c (re_split_terminals s')
  end.

Definition starts_space (s : string) : bool :=
  match s with
  | EmptyString => true
  | String c _ => isspace c
  end.

(** [s.split()]: the maximal runs of non-space characters. *)
Fixpoint split_ws (s : string) : list string :=
  match s with
  | EmptyString => []
  | String c s' =>
      if isspace c then split_ws s'
      else if starts_space s' then String c EmptyString :: split_ws s'
      else push c (split_ws s')
  end.

(** [sep.join(pieces)] *)
Fixpoint join (sep : string) (pieces : list string) : string :=
  match pieces with
  | [] => EmptyString
  | [p] => p
  | p :: ps => p +:+ sep +:+ join sep ps
  end.

(** [s[:n]] *)
Definition slice_to (n : nat) (s : string) : string := String.substring 0 n s.

(** [l[-n:]] *)
Definition last_n {A} (n : nat) (l : list A) : list A :=
  drop (length l - n)%nat l.

Definition is_empty (s : string) : bool :=
  match s with EmptyString => true | _ => false end.

End Text.

(** One entry of a conversation history: a dictionary read with
    [msg.get("role")], [msg.get("content", "")] and
    [msg.get("sentiment", "neutral")]; [None] stands for an absent key. *)
Record HistoryEntry := {
  h_role : option string;
  h_content : option string;
  h_sentiment : option string
}.

(** [d.get(key, default)] *)
Definition get_or {A} (default : A) (value : option A) : A :=
  match value with
  | Some v => v
  | None => default
  end.

(** ** [hashlib.md5] *)

Module Hashlib.

Local Open Scope N_scope.

Definition add32 (a b : N) : N := (a + b) mod 0x100000000.

Definition rotl32 (x : N) (c : N) : N :=
  (N.lor (N.shiftl x c) (N.shiftr x (32 - c))) mod 0x100000000.

Definition not32 (x : N) : N := N.lxor x 0xffffffff.

Definition shift_table : list N :=
  [7; 12; 17; 22; 7; 12; 17; 22; 7; 12; 17; 22; 7; 12; 17; 22;
   5; 9; 14; 20; 5; 9; 14; 20; 5; 9; 14; 20; 5; 9; 14; 20;
   4; 11; 16; 23; 4; 11; 16; 23; 4; 11; 16; 23; 4; 11; 16; 23;
   6; 10; 15; 21; 6; 10; 15; 21; 6; 10; 15; 21; 6; 10; 15; 21].

Definition sine_table : list N :=
  [ 0xd76aa478; 0xe8c7b756; 0x242070db; 0xc1bdceee;
    0xf57c0faf; 0x4787c62a; 0xa8304613; 0xfd469501;
    0x698098d8; 0x8b44f7af; 0xffff5bb1; 0x895cd7be;
    0x6b901122; 0xfd987193; 0xa679438e; 0x49b40821;
    0xf61e2562; 0xc040b340; 0x265e5a51; 0xe9b6c7aa;
    0xd62f105d; 0x02441453; 0xd8a1e681; 0xe7d3fbc8;
    0x21e1cde6; 0xc33707d6; 0xf4d50d87; 0x455a14ed;
    0xa9e3e905; 0xfcefa3f8; 0x676f02d9; 0x8d2a4c8a;
    0xfffa3942; 0x8771f681; 0x6d9d6122; 0xfde5380c;
    0xa4beea44; 0x4bdecfa9; 0xf6bb4b60; 0xbebfbc70;
    0x289b7ec6; 0xeaa127fa; 0xd4ef3085; 0x04881d05;
    0xd9d4d039; 0xe6db99e5; 0x1fa27cf8; 0xc4ac5665;
    0xf4292244; 0x432aff97; 0xab9423a7; 0xfc93a039;
    0x655b59c3; 0x8f0ccc92; 0xffeff47d; 0x85845dd1;
    0x6fa87e4f; 0xfe2ce6e0; 0xa3014314; 0x4e0811a1;
    0xf7537e82; 0xbd3af235; 0x2ad7d2bb; 0xeb86d391 ].

(** [str.encode()]: UTF-8, for code points below 256. *)
Fixpoint encode (s : string) : list N :=
  match s with
  | EmptyString => []
  | String c s' =>
      let n := N_of_ascii c in
      if n <? 128 then n :: encode s'
      else N.lor 0xc0 (N.shiftr n 6) :: N.lor 0x80 (N.land n 0x3f) :: encode s'
  end.

Fixpoint le_bytes (count : nat) (x : N) : list N :=
  match count with
  | O => []
  | S k => x mod 256 :: le_bytes k (x / 256)
  end.

Fixpoint le_word (bytes : list N) : N :=
  match bytes with
  | [] => 0
  | b :: bytes' => b + 256 * le_word bytes'
  end.

Definition pad (message : list N) : list N :=
  let len := N.of_nat (length message) in
  let zeros := N.to_nat ((119 - len mod 64) mod 64) in
  message ++ [0x80] ++ repeat 0 zeros ++ le_bytes 8 (8 * len).

Fixpoint chunks (fuel : nat) (size : nat) (l : list N) : list (list N) :=
  match fuel, l with
  | _, [] => []
  | O, _ => []
  | S fuel', _ => firstn size l :: chunks fuel' size (skipn size l)
  end.

Definition words_of (block : list N) : list N :=
  map le_word (chunks 16 4 block).

Record State := { sa : N; sb : N; sc : N; sd : N }.

Definition round (m : list N) (st : State) (i : nat) : State :=
  let '{| sa := a; sb := b; sc := c; sd := d |} := st in
  let n := N.of_nat i in
  let '(f, g) :=
    if n <? 16 then (N.lor (N.land b c) (N.land (not32 b) d), n)
    else if n <? 32 then (N.lor (N.land d b) (N.land (not32 d) c), (5 * n + 1) mod 16)
    else if n <? 48 then (N.lxor (N.lxor b c) d, (3 * n + 5) mod 16)
    else (N.lxor c (N.lor b (not32 d)), (7 * n) mod 16) in
  let f' := add32 (add32 (add32 f a) (nth i sine_table 0)) (nth (N.to_nat g) m 0) in
  {| sa := d; sb := add32 b (rotl32 f' (nth i shift_table 0)); sc := b; sd := c |}.

Definition compress (st : State) (block : list N) : State :=
  let st' := fold_left (round (words_of block)) (seq 0 64) st in
  {| sa := add32 (sa st) (sa st'); sb := add32 (sb st) (sb st');
     sc := add32 (sc st) (sc st'); sd := add32 (sd st) (sd st') |}.

Definition hex_digit (n : N) : ascii :=
  if n <? 10 then ascii_of_N (48 + n) else ascii_of_N (87 + n).

Fixpoint hex (bytes : list N) : string :=
  match bytes with
  | [] => EmptyString
  | b :: bytes' => String (hex_digit (b / 16)) (String (hex_digit (b mod 16)) (hex bytes'))
  end.

(** [hashlib.md5(s.encode()).hexdigest()] *)
Definition md5_hexdigest (s : string) : string :=
  let message := pad (encode s) in
  let st := fold_left compress (chunks (length message) 64 message)
              {| sa := 0x67452301; sb := 0xefcdab89; sc := 0x98badcfe; sd := 0x10325476 |} in
  hex (le_bytes 4 (sa st) ++ le_bytes 4 (sb st) ++ le_bytes 4 (sc st) ++ le_bytes 4 (sd st)).

Local Close Scope N_scope.

End Hashlib.

Arguments Hashlib.md5_hexdigest : simpl never.

(** ** The memory manager *)

Module MemoryManager.

Inductive MemoryPriority := LOW | MEDIUM | HIGH | CRITICAL.

Record CategoryConfig := {
  keywords : list string;
  lifespan_days : Z;
  priority : MemoryPriority
}.

(** [_init_memory_categories]: the table, in the insertion order of the
    dictionary, which is the order in which Python iterates over it. *)
Definition memory_categories : list (string * CategoryConfig) :=
  [ ("preference",
     {| keywords := ["like"; "love"; "enjoy"; "favorite"; "prefer"; "hate";
                     "dislike"; "fond of"];
        lifespan_days := 365; priority := HIGH |});
    ("fact",
     {| keywords := ["am"; "'m"; "have"; "work"; "study"; "live"; "born";
                     "age"; "from"];
        lifespan_days := 730; priority := MEDIUM |});
    ("experience",
     {| keywords := ["went to"; "visited"; "experienced"; "happened"; "once"];
        lifespan_days := 180; priority := MEDIUM |});
    ("goal",
     {| keywords := ["want to"; "plan to"; "goal"; "aspire"; "dream";
                     "hope to"];
        lifespan_days := 90; priority := HIGH |});
    ("emotion",
     {| keywords := ["feel"; "felt"; "emotion"; "happy"; "sad"; "angry";
                     "excited"];
        lifespan_days := 30; priority := LOW |}) ].

(** *** Classifier *)

(** [_split_into_sentences] *)
Definition _split_into_sentences (text : string) : list string :=
  List.filter (fun s => negb (Text.is_empty s))
              (map Text.strip (Text.re_split_terminals text)).

(** One extracted memory: [(category, content, confidence)]. *)
Definition Extracted : Type := string * string * float.

(** The confidence assigned at a keyword match (lines 470-476). *)
Definition match_confidence (source sentence_lower : string) : float :=
  if String.eqb source "user" then
    if Text.startswith sentence_lower "i " || Text.contains "my " sentence_lower
    then 0.9%float else 0.6%float
  else 0.5%float.

(** The loop over the keywords of one category; the [break] leaves this
    loop only. *)
Fixpoint scan_keywords (category : string) (kws : list string)
    (source sentence : string) (memories : list Extracted) : list Extracted :=
  match kws with
  | [] => memories
  | keyword :: kws' =>
      if Text.contains keyword (Text.lower sentence) then
        memories ++ [(category, Text.strip sentence,
                      match_confidence source (Text.lower sentence))]
      else scan_keywords category kws' source sentence memories
  end.

(** The loop over [self.memory_categories.items()]. *)
Fixpoint scan_categories (table : list (string * CategoryConfig))
    (source sentence : string) (memories : list Extracted) : list Extracted :=
  match table with
  | [] => memories
  | (category, config) :: table' =>
      scan_categories table' source sentence
        (scan_keywords category (keywords config) source sentence memories)
  end.

(** The loop over the sentences. *)
Fixpoint scan_sentences (sentences : list string) (source : string)
    (memories : list Extracted) : list Extracted :=
  match sentences with
  | [] => memories
  | sentence :: sentences' =>
      scan_sentences sentences' source
        (scan_categories memory_categories source sentence memories)
  end.

Definition _analyze_text_for_memories (text source : string) : list Extracted :=
  scan_sentences (_split_into_sentences text) source [].

(** The classifier in closed form: the tuples of one sentence are one per
    category of the table with a keyword in the lowered sentence, in table
    order.  [analyze_closed_form] below relates it to the loops. *)
Definition category_matches (sentence : string)
    (entry : string * CategoryConfig) : bool :=
  Text.any_in (keywords (snd entry)) (Text.lower sentence).

Definition sentence_memories (table : list (string * CategoryConfig))
    (source sentence : string) : list Extracted :=
  map (fun entry => (fst entry, Text.strip sentence,
                     match_confidence source (Text.lower sentence)))
      (List.filter (category_matches sentence) table).

(** *** Rows, sessions and the in-process cache *)

(** [timedelta(days=n)] in microseconds. *)
Definition day : Z := 86400000000.
Definition timedelta_days (n : Z) : Z := n * day.

(** A row of [long_term_memories] (models.py), with the columns the
    manager reads or writes.  [id] is the primary key; a [uuid4] value is
    modelled as a number drawn from a supply kept with the session. *)
Record LongTermMemory := {
  id : nat;
  user_id : string;
  memory_type : string;
  category : string;
  content : string;
  memory_hash : string;
  embedding : option (list float);
  confidence : float;
  importance : float;
  source_conversation : option string;
  access_count : Z;
  last_accessed : option Z;
  is_active : bool;
  created_at : Z;
  updated_at : Z;
  expires_at : option Z
}.

(** The session: the rows of the table, the uuid supply, the
    [autoflush] flag the session factory was built with, and the clock of
    the database server.  Both factories of the repository
    (database/postgres.py, database/sqlite.py) use
    [sessionmaker(autocommit=False, autoflush=False, ...)].

    [server_now t] is what the server's [now()] reads when it fills the
    defaults of a row inserted by a call made when the process clock
    ([datetime.utcnow()]) reads [t]: the columns [created_at] and
    [updated_at] are declared [server_default=func.now()] (models.py, lines
    184-185), so an insert takes them from the server, not from the
    process. *)
Record Session := {
  rows : list LongTermMemory;
  uuid_supply : nat;
  autoflush : bool;
  server_now : Z -> Z
}.

(** An empty table on a server whose clock agrees with the process. *)
Definition SessionLocal : Session :=
  {| rows := []; uuid_supply := 0; autoflush := false;
     server_now := fun t => t |}.

Definition with_rows (db : Session) (l : list LongTermMemory) : Session :=
  {| rows := l; uuid_supply := uuid_supply db; autoflush := autoflush db;
     server_now := server_now db |}.

(** The dictionaries handed to callers: [_memory_to_dict] builds the
    first shape, the vector search the second. *)
Inductive MemoryDict :=
| OrmDict (d_id : nat) (d_content d_type d_category : string)
          (d_confidence d_importance : float) (d_created_at : Z)
          (d_access_count : Z) (d_source : option string)
| VectorDict (d_id : nat) (d_content d_type d_category : string)
             (d_confidence d_relevance_score : float).

Definition dict_id (d : MemoryDict) : nat :=
  match d with
  | OrmDict i _ _ _ _ _ _ _ _ => i
  | VectorDict i _ _ _ _ _ => i
  end.

Definition dict_content (d : MemoryDict) : string :=
  match d with
  | OrmDict _ c _ _ _ _ _ _ _ => c
  | VectorDict _ c _ _ _ _ => c
  end.

Definition dict_category (d : MemoryDict) : string :=
  match d with
  | OrmDict _ _ _ c _ _ _ _ _ => c
  | VectorDict _ _ _ c _ _ => c
  end.

Definition dict_confidence (d : MemoryDict) : float :=
  match d with
  | OrmDict _ _ _ _ c _ _ _ _ => c
  | VectorDict _ _ _ _ c _ => c
  end.

(** Entries of [self.memory_cache].  The source uses two key formats,
    [f"{user_id}:recent"] bound to a list of dictionaries and
    [f"{user_id}:{memory.id}"] bound to the description of one memory; a
    uuid is 36 characters long and never ends in "recent", so two keys are
    equal as strings exactly when they are equal here. *)
Inductive CacheKey :=
| RecentKey (user : string)
| MemoryKey (user : string) (mid : nat).

Global Instance CacheKey_eq_dec : EqDecision CacheKey.
Proof. solve_decision. Defined.

Inductive CacheEntry :=
| RecentEntry (user : string) (memories : list MemoryDict)
| MemoryEntry (user : string) (mid : nat)
              (c_content c_type c_category : string) (c_confidence : float)
              (c_timestamp : Z).

Definition entry_key (e : CacheEntry) : CacheKey :=
  match e with
  | RecentEntry u _ => RecentKey u
  | MemoryEntry u i _ _ _ _ _ => MemoryKey u i
  end.

(** A Python [dict] keeps insertion order: a list of entries in which
    assignment to a present key replaces the value where it stands. *)
Definition Cache : Type := list CacheEntry.

(** [self.memory_cache[key] = value] *)
Fixpoint cache_set (e : CacheEntry) (c : Cache) : Cache :=
  match c with
  | [] => [e]
  | e' :: c' =>
      if bool_decide (entry_key e' = entry_key e) then e :: c'
      else e' :: cache_set e c'
  end.

(** [self.memory_cache[f"{user_id}:recent"]], [None] when the key is
    absent. *)
Fixpoint cache_recent (user : string) (c : Cache) : option (list MemoryDict) :=
  match c with
  | [] => None
  | RecentEntry u l :: c' =>
      if String.eqb u user then Some l else cache_recent user c'
  | MemoryEntry _ _ _ _ _ _ _ :: c' => cache_recent user c'
  end.

(** [if len(cache) > 1000: del cache[next(iter(cache))]] *)
Definition cache_limit (c : Cache) : Cache :=
  if (1000 <? Z.of_nat (length c)) then tail c else c.

(** Exceptions that leave an operation. *)
Inductive Raised := IntegrityError | TypeError | AttributeError.

Inductive result (A : Type) :=
| Ok (a : A)
| Raise (e : Raised).
Arguments Ok {A} a.
Arguments Raise {A} e.

(** Python's [max(a, b)]: [b] replaces [a] only when [b > a]. *)
Definition py_max (a b : float) : float :=
  if PrimFloat.ltb a b then b else a.

Fixpoint alter_first {A} (p : A -> bool) (f : A -> A) (l : list A) : list A :=
  match l with
  | [] => []
  | x :: l' => if p x then f x :: l' else x :: alter_first p f l'
  end.

(** [_categorize_memory] *)
Fixpoint first_category (table : list (string * CategoryConfig))
    (content_lower : string) : option string :=
  match table with
  | [] => None
  | (cat, config) :: table' =>
      if Text.any_in (keywords config) content_lower then Some cat
      else first_category table' content_lower
  end.

Definition type_to_category (mtype : string) : string :=
  if existsb (String.eqb mtype)
       ["preference"; "fact"; "experience"; "goal"; "emotion"]
  then mtype else "general".

Definition _categorize_memory (text mtype : string) : string :=
  match first_category memory_categories (Text.lower text) with
  | Some cat => cat
  | None => type_to_category mtype
  end.

(** [self.memory_categories.get(category, {}).get("lifespan_days", 30)] *)
Fixpoint lookup_lifespan (table : list (string * CategoryConfig))
    (cat : string) : Z :=
  match table with
  | [] => 30
  | (c, config) :: table' =>
      if String.eqb c cat then lifespan_days config
      else lookup_lifespan table' cat
  end.

Definition lifespan_of (cat : string) : Z := lookup_lifespan memory_categories cat.

Section Operations.

(** [get_embedding]: the sentence embedding, an external function ([None]
    when there is no model, the text is too short or the encoder fails).
    The [embedding] column holds the JSON text of the vector; the model
    keeps the vector. *)
Variable get_embedding : string -> option (list float).

(** The environment of the retrieval: whether [self.embedding_model]
    is set, whether the session is bound to a PostgreSQL engine, the
    pgvector distance [embedding <=> :embedding] of a row ([None] for
    SQL NULL), whether the raw statement raises, and the SQL operator
    [ILIKE] (pattern first). *)
Variable embedding_model : bool.
Variable postgresql : bool.
Variable vector_distance : list float -> LongTermMemory -> option float.
Variable vector_search_raises : bool.
Variable ilike : string -> string -> bool.

(** [calculate_memory_hash] *)
Definition calculate_memory_hash (user text : string) : string :=
  Hashlib.md5_hexdigest (user +:+ ":" +:+ Text.strip (Text.lower text)).

Definition same_key (user hash : string) (m : LongTermMemory) : bool :=
  String.eqb (user_id m) user && String.eqb (memory_hash m) hash.

(** The update of the existing row (lines 227-230). *)
Definition merge (now : Z) (conf imp : float) (m : LongTermMemory)
    : LongTermMemory :=
  {| id := id m; user_id := user_id m; memory_type := memory_type m;
     category := category m; content := content m;
     memory_hash := memory_hash m; embedding := embedding m;
     confidence := py_max (confidence m) conf;
     importance := py_max (importance m) imp;
     source_conversation := source_conversation m;
     access_count :=
       if access_count m =? 0 then 1 else access_count m + 1;
     last_accessed := last_accessed m;
     is_active := is_active m;
     created_at := created_at m;
     updated_at := now;
     expires_at := expires_at m |}.

(** [not category]: [None] or the empty string. *)
Definition category_or_auto (cat : option string) (text mtype : string)
    : string :=
  match cat with
  | Some c => if Text.is_empty c then _categorize_memory text mtype else c
  | None => _categorize_memory text mtype
  end.

(** [store_memory].  The column [memory_hash] is declared
    [unique=True]: the insert of a second row with a hash already in
    the table raises at commit.  The constructor call passes
    [expires_at], computed from the process clock; [created_at] and
    [updated_at] are left to the server. *)
Definition store_memory (db : Session) (cache : Cache) (now : Z)
    (user mtype text : string) (conf : float)
    (source : option string) (cat : option string) (imp : float)
    : result (Session * Cache * LongTermMemory) :=
  let hash := calculate_memory_hash user text in
  match find (same_key user hash) (rows db) with
  | Some existing =>
      Ok (with_rows db (alter_first (same_key user hash) (merge now conf imp) (rows db)),
          cache, merge now conf imp existing)
  | None =>
      let cat' := category_or_auto cat text mtype in
      let memory :=
        {| id := uuid_supply db; user_id := user; memory_type := mtype;
           category := cat'; content := text; memory_hash := hash;
           embedding := get_embedding text;
           confidence := conf; importance := imp;
           source_conversation := source;
           access_count := 1; last_accessed := None;
           is_active := true;
           created_at := server_now db now;
           updated_at := server_now db now;
           expires_at := Some (now + timedelta_days (lifespan_of cat')) |} in
      if existsb (fun m => String.eqb (memory_hash m) hash) (rows db)
      then Raise IntegrityError
      else
        Ok ({| rows := rows db ++ [memory];
               uuid_supply := S (uuid_supply db);
               autoflush := autoflush db;
               server_now := server_now db |},
            cache_limit
              (cache_set (MemoryEntry user (id memory) text mtype cat' conf now)
                 cache),
            memory)
  end.

(** *** Extraction *)

(** The list [memories_to_store] (lines 430-440). *)
Definition memories_to_store (user_message ai_response : string)
    : list Extracted :=
  _analyze_text_for_memories user_message "user" ++
  map (fun '(mtype, text, conf) => (mtype, text, (conf * 0.8)%float))
      (_analyze_text_for_memories ai_response "ai").

(** The loop of lines 444-450. *)
Fixpoint store_unique (db : Session) (cache : Cache) (now : Z)
    (user : string) (conversation : option string)
    (todo : list Extracted) (stored_count : Z)
    : result (Session * Cache * Z) :=
  match todo with
  | [] => Ok (db, cache, stored_count)
  | (mtype, text, conf) :: todo' =>
      if PrimFloat.ltb 0.4 conf then
        match store_memory db cache now user mtype text conf
                conversation None 0.5 with
        | Ok (db', cache', _) =>
            store_unique db' cache' now user conversation todo'
              (stored_count + 1)
        | Raise e => Raise e
        end
      else store_unique db cache now user conversation todo' stored_count
  end.

Definition extract_and_store_memories (db : Session) (cache : Cache)
    (now : Z) (user user_message ai_response : string)
    (conversation : option string) : result (Session * Cache * Z) :=
  store_unique db cache now user conversation
    (memories_to_store user_message ai_response) 0.

(** *** Retrieval *)

(** [_memory_to_dict] *)
Definition _memory_to_dict (m : LongTermMemory) : MemoryDict :=
  OrmDict (id m) (content m) (memory_type m) (category m) (confidence m)
          (importance m) (created_at m) (access_count m)
          (source_conversation m).

Definition unexpired (now : Z) (m : LongTermMemory) : bool :=
  match expires_at m with
  | None => true
  | Some e => now <? e
  end.

(** [base_query]: the eligibility filter of lines 317-325. *)
Definition eligible (user : string) (min_confidence : float) (now : Z)
    (m : LongTermMemory) : bool :=
  String.eqb (user_id m) user && is_active m &&
  PrimFloat.leb min_confidence (confidence m) && unexpired now m.

Definition base_query (db : Session) (user : string)
    (min_confidence : float) (now : Z) : list LongTermMemory :=
  List.filter (eligible user min_confidence now) (rows db).

(** [ORDER BY]: a stable insertion sort; [before y x] says that [y]
    sorts strictly before [x].  (SQL leaves the order of ties open.) *)
Fixpoint insert_by {A} (before : A -> A -> bool) (x : A) (l : list A)
    : list A :=
  match l with
  | [] => [x]
  | y :: l' => if before y x then y :: insert_by before x l' else x :: l
  end.

Definition order_by {A} (before : A -> A -> bool) (l : list A) : list A :=
  fold_right (insert_by before) [] l.

Definition desc_float (a b : float) : comparison :=
  match PrimFloat.compare a b with
  | FGt => Lt
  | FLt => Gt
  | _ => Eq
  end.

Definition desc_Z (a b : Z) : comparison := Z.compare b a.

Definition then_by (c1 c2 : comparison) : comparison :=
  match c1 with Eq => c2 | _ => c1 end.

Definition is_before (c : comparison) : bool :=
  match c with Lt => true | _ => false end.

(** [desc(importance), desc(confidence), desc(access_count)] *)
Definition keyword_order (y x : LongTermMemory) : bool :=
  is_before (then_by (desc_float (importance y) (importance x))
            (then_by (desc_float (confidence y) (confidence x))
                     (desc_Z (access_count y) (access_count x)))).

(** [desc(importance), desc(confidence)] *)
Definition simple_order (y x : LongTermMemory) : bool :=
  is_before (then_by (desc_float (importance y) (importance x))
                     (desc_float (confidence y) (confidence x))).

(** [desc(importance), desc(updated_at), desc(confidence)] *)
Definition recency_order (y x : LongTermMemory) : bool :=
  is_before (then_by (desc_float (importance y) (importance x))
            (then_by (desc_Z (updated_at y) (updated_at x))
                     (desc_float (confidence y) (confidence x)))).

(** [ORDER BY distance]: ascending, NULL last. *)
Definition distance_order (q : list float) (y x : LongTermMemory) : bool :=
  match vector_distance q y, vector_distance q x with
  | Some dy, Some dx => PrimFloat.ltb dy dx
  | Some _, None => true
  | _, _ => false
  end.

(** The raw pgvector statement (lines 337-350): its [WHERE] clause has
    no condition on [expires_at]. *)
Definition vector_rows (db : Session) (user : string)
    (min_confidence : float) (q : list float) (limit : nat)
    : list LongTermMemory :=
  take limit
    (order_by (distance_order q)
       (List.filter
          (fun m => String.eqb (user_id m) user && is_active m &&
                    PrimFloat.leb min_confidence (confidence m))
          (rows db))).

(** The comprehension of lines 352-362; [float(None)] raises. *)
Fixpoint vector_dicts (q : list float) (l : list LongTermMemory)
    : option (list MemoryDict) :=
  match l with
  | [] => Some []
  | m :: l' =>
      match vector_distance q m, vector_dicts q l' with
      | Some d, Some ds =>
          Some (VectorDict (id m) (content m) (memory_type m) (category m)
                           (confidence m) (1.0 - d)%float :: ds)
      | _, _ => None
      end
  end.

Definition keyword_search (db : Session) (user query : string)
    (min_confidence : float) (now : Z) (limit : nat) : list MemoryDict :=
  let pattern := "%" +:+ query +:+ "%" in
  map _memory_to_dict
    (take limit
       (order_by keyword_order
          (List.filter
             (fun m => ilike pattern (content m) ||
                       ilike pattern (category m) ||
                       ilike pattern (memory_type m))
             (base_query db user min_confidence now)))).

Definition simple_search (db : Session) (user : string)
    (min_confidence : float) (now : Z) (limit : nat) : list MemoryDict :=
  map _memory_to_dict
    (take limit (order_by simple_order (base_query db user min_confidence now))).

Definition recent_search (db : Session) (user : string)
    (min_confidence : float) (now : Z) (limit : nat) : list MemoryDict :=
  map _memory_to_dict
    (take limit (order_by recency_order (base_query db user min_confidence now))).

(** The [try] block of lines 330-387: [None] stands for an exception
    caught by the [except] clause. *)
Definition semantic_search (db : Session) (user query : string)
    (min_confidence : float) (now : Z) (limit : nat)
    : option (list MemoryDict) :=
  let found :=
    match get_embedding query with
    | Some (_ :: _ as q) =>
        if postgresql then
          if vector_search_raises then None
          else vector_dicts q (vector_rows db user min_confidence q limit)
        else Some []
    | _ => Some []
    end in
  match found with
  | None => None
  | Some [] => Some (keyword_search db user query min_confidence now limit)
  | Some memories => Some memories
  end.

(** One step of the loop of lines 398-403.  The [UPDATE] also runs the
    [onupdate=func.now()] default of [updated_at]. *)
Definition touch (now : Z) (m : LongTermMemory) : LongTermMemory :=
  {| id := id m; user_id := user_id m; memory_type := memory_type m;
     category := category m; content := content m;
     memory_hash := memory_hash m; embedding := embedding m;
     confidence := confidence m; importance := importance m;
     source_conversation := source_conversation m;
     access_count := access_count m + 1;
     last_accessed := Some now;
     is_active := is_active m;
     created_at := created_at m;
     updated_at := now;
     expires_at := expires_at m |}.

Definition has_id (i : nat) (m : LongTermMemory) : bool := Nat.eqb (id m) i.

Fixpoint update_access (now : Z) (memories : list MemoryDict)
    (l : list LongTermMemory) : list LongTermMemory :=
  match memories with
  | [] => l
  | d :: memories' =>
      update_access now memories' (alter_first (has_id (dict_id d)) (touch now) l)
  end.

(** [not query]: [None] or the empty string. *)
Definition no_query (query : option string) : bool :=
  match query with
  | None => true
  | Some q => Text.is_empty q
  end.

(** [get_relevant_memories].  [limit] is a natural number. *)
Definition get_relevant_memories (db : Session) (cache : Cache) (now : Z)
    (user : string) (query : option string) (limit : nat)
    (min_confidence : float) : Session * Cache * list MemoryDict :=
  match (if no_query query then cache_recent user cache else None) with
  | Some cached => (db, cache, cached)
  | None =>
      let memories :=
        match query with
        | Some q =>
            if negb (Text.is_empty q) && embedding_model then
              match semantic_search db user q min_confidence now limit with
              | Some memories => memories
              | None => simple_search db user min_confidence now limit
              end
            else recent_search db user min_confidence now limit
        | None => recent_search db user min_confidence now limit
        end in
      let db' := with_rows db (update_access now memories (rows db)) in
      let cache' :=
        if no_query query then cache_set (RecentEntry user memories) cache
        else cache in
      (db', cache', memories)
  end.

(** *** Maintenance *)

Definition archive (now : Z) (m : LongTermMemory) : LongTermMemory :=
  {| id := id m; user_id := user_id m; memory_type := memory_type m;
     category := category m; content := content m;
     memory_hash := memory_hash m; embedding := embedding m;
     confidence := confidence m; importance := importance m;
     source_conversation := source_conversation m;
     access_count := access_count m;
     last_accessed := last_accessed m;
     is_active := false;
     created_at := created_at m;
     updated_at := now;
     expires_at := expires_at m |}.

(** The filter of the first query (lines 704-708). *)
Definition old_low_confidence (cutoff_date : Z) (m : LongTermMemory) : bool :=
  (updated_at m <? cutoff_date) && PrimFloat.ltb (confidence m) 0.3 &&
  is_active m.

(** The first loop (lines 711-716) on one object of the session. *)
Definition archive_if_old (cutoff_date now : Z) (m : LongTermMemory)
    : LongTermMemory :=
  if old_low_confidence cutoff_date m then archive now m else m.

(** The filter of the second query (lines 719-722); a NULL
    [expires_at] does not compare. *)
Definition expired_active (now : Z) (m : LongTermMemory) : bool :=
  match expires_at m with
  | Some e => (e <? now) && is_active m
  | None => false
  end.

(** [cleanup_old_memories].  The first loop changes the objects held by
    the session and nothing is written before [db.commit()] at the end.
    The second query is evaluated by the database: with [autoflush] on,
    the session first writes the pending changes, so the query sees the
    rows as archived; with [autoflush] off it sees them as they were
    before the loop.  In both cases the objects it returns are the ones
    the session already holds, and [db.delete] removes them. *)
Definition cleanup_old_memories (db : Session) (now : Z) (days_old : Z)
    : Session * (Z * Z) :=
  let cutoff_date := now - timedelta_days days_old in
  let old_memories := List.filter (old_low_confidence cutoff_date) (rows db) in
  let held := map (archive_if_old cutoff_date now) (rows db) in
  let archived_count := Z.of_nat (length old_memories) in
  let queried := if autoflush db then held else rows db in
  let expired_memories := List.filter (expired_active now) queried in
  let kept :=
    map snd
      (List.filter (fun '(q, _) => negb (expired_active now q))
                   (combine queried held)) in
  let deleted_count := Z.of_nat (length expired_memories) in
  (with_rows db kept, (archived_count, deleted_count)).

End Operations.

(** *** Persona settings *)

(** A row of [persona_settings], with the columns the manager reads and
    sets.  The class [PersonaSettings] of models.py (lines 199-248) has no
    attribute [personality_traits] and none called [learning_preferences]. *)
Record PersonaSettings := {
  persona_user_id : string;
  preferred_tone : string;
  communication_style : string;
  topics_of_interest : list string;
  dislikes : list string;
  trust_level : Z
}.

Definition is_persona_of (user : string) (s : PersonaSettings) : bool :=
  String.eqb (persona_user_id s) user.

(** [get_persona_settings]: the stored row.  For a user without a row the
    method goes on to build one (lines 495-531) and raises before anything
    is added to the session.  With a row for "system_default", the copy
    reads [default_settings.personality_traits], an attribute the class
    does not have ([AttributeError]); without one, the constructor is
    called with the keywords [personality_traits] and
    [learning_preferences], which the declarative constructor rejects
    ([TypeError]). *)
Definition get_persona_settings (table : list PersonaSettings) (user : string)
    : result PersonaSettings :=
  match find (is_persona_of user) table with
  | Some settings => Ok settings
  | None =>
      match find (is_persona_of "system_default") table with
      | Some _ => Raise AttributeError
      | None => Raise TypeError
      end
  end.

Definition topic_keywords : list (string * list string) :=
  [ ("technology", ["code"; "program"; "computer"; "tech"; "software"; "ai";
                    "machine learning"]);
    ("art", ["art"; "paint"; "draw"; "design"; "creative"; "music"; "photo"]);
    ("sports", ["sport"; "game"; "team"; "play"; "exercise"; "fitness"]);
    ("science", ["science"; "research"; "discover"; "experiment"; "theory"]);
    ("business", ["business"; "work"; "job"; "career"; "company"; "market"]) ].

Definition emotional_words : list string :=
  ["love"; "hate"; "excited"; "angry"; "happy"; "sad"].
Definition casual_words : list string := ["hey"; "yo"; "lol"; "haha"; "omg"].
Definition formal_words : list string :=
  ["please"; "thank you"; "sincerely"; "regards"].

(** [sum(1 for word in words if word in text)] *)
Definition count_in (words : list string) (text : string) : Z :=
  Z.of_nat (length (List.filter (fun w => Text.contains w text) words)).

(** [topic in topics] *)
Definition mentions (topics : list string) (topic : string) : bool :=
  existsb (String.eqb topic) topics.

(** The loop of lines 558-562. *)
Fixpoint detect_topics (table : list (string * list string))
    (all_messages_lower : string) (known : list string) : list string :=
  match table with
  | [] => []
  | (topic, kws) :: table' =>
      if Text.any_in kws all_messages_lower && negb (mentions known topic)
      then topic :: detect_topics table' all_messages_lower known
      else detect_topics table' all_messages_lower known
  end.

Section Persona.

(** [list(set(l))]: Python fixes neither the order in which a set is
    iterated nor keeps it between runs; the function is a parameter, of
    which the properties assume only that it enumerates the elements of
    its argument. *)
Variable list_of_set : list string -> list string.

(** The settings as the pass leaves them in the table, and as the object
    it returns reads after [db.commit()].

    Topics (lines 564-567): [extend] changes the list held by the object in
    place, which the session does not see; the assignment that follows
    records that same, already extended, list as the value to compare with
    at flush time.  The column is written only when [list(set(...))]
    differs from the extended list; when it is equal (the set comes out in
    the order of the list), nothing is written for the column and the
    commit, which expires the object, brings the stored topics back. *)
Definition adapt (settings : PersonaSettings) (history : list HistoryEntry)
    : PersonaSettings :=
  let all_messages :=
    Text.join " " (map (fun msg => get_or "" (h_content msg)) history) in
  let all_messages_lower := Text.lower all_messages in
  let detected_topics :=
    detect_topics topic_keywords all_messages_lower (topics_of_interest settings) in
  let topics :=
    match detected_topics with
    | [] => topics_of_interest settings
    | _ =>
        let extended := topics_of_interest settings ++ detected_topics in
        if List.list_eq_dec String.string_dec (list_of_set extended) extended
        then topics_of_interest settings
        else list_of_set extended
    end in
  let emotional_count := count_in emotional_words all_messages_lower in
  let casual_count := count_in casual_words all_messages_lower in
  let formal_count := count_in formal_words all_messages_lower in
  let tone :=
    if (formal_count <? casual_count) && (2 <? casual_count) then "casual"
    else if (casual_count <? formal_count) && (2 <? formal_count) then "formal"
    else if 3 <? emotional_count then "empathetic"
    else preferred_tone settings in
  let conversation_count := Z.of_nat (length history) in
  let trust :=
    if 20 <? conversation_count then Z.min 100 (trust_level settings + 10)
    else trust_level settings in
  {| persona_user_id := persona_user_id settings;
     preferred_tone := tone;
     communication_style := communication_style settings;
     topics_of_interest := topics;
     dislikes := dislikes settings;
     trust_level := trust |}.

(** [update_persona_from_conversation]: the settings object is changed in
    place and committed; an exception of [get_persona_settings] leaves the
    method before anything is changed. *)
Definition update_persona_from_conversation (table : list PersonaSettings)
    (user : string) (conversation_history : list HistoryEntry)
    : result (list PersonaSettings * PersonaSettings) :=
  match get_persona_settings table user with
  | Ok settings =>
      let settings' := adapt settings conversation_history in
      Ok (alter_first (is_persona_of user) (fun _ => settings') table, settings')
  | Raise e => Raise e
  end.

End Persona.

End MemoryManager.

(** ** The prompt enhancer *)

Module PromptEnhancer.

(** The persona dictionary, each value given by the text [format] inserts
    for it; [None] stands for an absent key. *)
Record Persona := {
  name : option string;
  age : option string;
  background : option string;
  personality_traits : option (list string);
  preferred_tone : option string;
  communication_style : option string;
  formality_level : option string;
  friendliness : option string;
  curiosity : option string;
  humor_level : option string
}.

Definition lines (l : list string) : string := Text.join Text.nl l.

(** [self.persona_template.format(...)] (lines 7-30 and 37-48). *)
Definition persona_section (persona : Persona) : string :=
  lines
    [ "";
      "You are " +:+ get_or "Alex" (name persona) +:+ ", a " +:+
        get_or "28" (age persona) +:+ "-year-old " +:+
        get_or "digital artist from Portland" (background persona) +:+ ". ";
      "You are having a natural conversation with a friend.";
      "";
      "PERSONALITY TRAITS:";
      Text.join ", "
        (get_or ["friendly"; "creative"; "curious"] (personality_traits persona));
      "";
      "CONVERSATION STYLE:";
      "- Tone: " +:+ get_or "casual" (preferred_tone persona);
      "- Communication style: " +:+ get_or "balanced" (communication_style persona);
      "- Formality: " +:+ get_or "3" (formality_level persona) +:+ "/5";
      "- Friendliness: " +:+ get_or "7" (friendliness persona) +:+ "/10";
      "- Curiosity: " +:+ get_or "6" (curiosity persona) +:+ "/10";
      "- Humor: " +:+ get_or "5" (humor_level persona) +:+ "/10";
      "";
      "IMPORTANT RULES:";
      "1. You are HUMAN - NEVER mention being an AI, assistant, or language model";
      "2. Be consistent with your background and personality";
      "3. Reference past conversations naturally";
      "4. Adapt your tone to match the user's emotion";
      "5. Share personal experiences when relevant";
      "6. Ask thoughtful questions";
      "7. Never invent false information about yourself";
      "        " ].

(** [categories[category].append(content)], creating the list at the
    first memory of a category. *)
Fixpoint group_add (category item : string) (groups : list (string * list string))
    : list (string * list string) :=
  match groups with
  | [] => [(category, [item])]
  | (c, items) :: groups' =>
      if String.eqb c category then (c, items ++ [item]) :: groups'
      else (c, items) :: group_add category item groups'
  end.

Definition group_memories (memories : list MemoryManager.MemoryDict)
    : list (string * list string) :=
  fold_left
    (fun groups memory =>
       group_add (MemoryManager.dict_category memory)
                 (MemoryManager.dict_content memory) groups)
    memories [].

(** The memory section (lines 51-64): one bullet per memory, made of the
    content alone. *)
Definition memory_section (memories : list MemoryManager.MemoryDict) : string :=
  match memories with
  | [] => ""
  | _ =>
      fold_left
        (fun section '(category, items) =>
           fold_left
             (fun section item => section +:+ "- " +:+ item +:+ Text.nl)
             (take 3 items)
             (section +:+ Text.nl +:+ Text.upper category +:+ ":" +:+ Text.nl))
        (group_memories memories)
        (Text.nl +:+ Text.nl +:+ "WHAT YOU KNOW ABOUT THE USER:" +:+ Text.nl)
  end.

(** The history section (lines 67-72). *)
Definition history_section (history : list HistoryEntry) : string :=
  match history with
  | [] => ""
  | _ =>
      fold_left
        (fun section msg =>
           let speaker :=
             match h_role msg with
             | Some r => if String.eqb r "user" then "USER" else "YOU"
             | None => "YOU"
             end in
           section +:+ speaker +:+ ": " +:+ get_or "" (h_content msg) +:+ Text.nl)
        (Text.last_n 6 history)
        (Text.nl +:+ Text.nl +:+ "RECENT CONVERSATION:" +:+ Text.nl)
  end.

(** [_detect_context] *)
Definition _detect_context (message : string) : string :=
  let message_lower := Text.lower message in
  if Text.any_in ["stress"; "anxious"; "worried"] message_lower then "stressed"
  else if Text.any_in ["happy"; "excited"; "joy"] message_lower then "happy"
  else if Text.any_in ["sad"; "depressed"; "lonely"] message_lower then "sad"
  else if Text.any_in ["angry"; "frustrated"; "mad"] message_lower then "angry"
  else "neutral".

Definition count_of (value : string) (l : list string) : Z :=
  Z.of_nat (length (List.filter (String.eqb value) l)).

(** [_calculate_mood] *)
Definition _calculate_mood (history : list HistoryEntry) : string :=
  match history with
  | [] => "neutral"
  | _ =>
      let sentiments :=
        map (fun msg => get_or "neutral" (h_sentiment msg)) (Text.last_n 5 history) in
      let positive := count_of "positive" sentiments in
      let negative := count_of "negative" sentiments in
      if negative * 2 <? positive then "positive"
      else if positive * 2 <? negative then "negative"
      else "balanced"
  end.

(** The context section (lines 75-85); [time_of_day] is the text of
    [datetime.now().strftime('%I:%M %p')]. *)
Definition context_section (time_of_day user_message : string)
    (persona : Persona) (history : list HistoryEntry) : string :=
  lines
    [ "";
      "CURRENT SITUATION:";
      "- User emotion: " +:+ _detect_context user_message;
      "- Time of day: " +:+ time_of_day;
      "- Conversation mood: " +:+
        match history with [] => "neutral" | _ => _calculate_mood history end;
      "";
      "CURRENT MESSAGE FROM USER:";
      Text.dquote +:+ user_message +:+ Text.dquote;
      "";
      "YOUR RESPONSE (as " +:+ get_or "Alex" (name persona) +:+ "):";
      "        " ].

(** [full_prompt] before the length test (line 88). *)
Definition full_prompt (time_of_day user_message : string)
    (memories : list MemoryManager.MemoryDict) (persona : Persona)
    (history : list HistoryEntry) : string :=
  persona_section persona +:+ memory_section memories +:+
  history_section history +:+ context_section time_of_day user_message persona history.

(** The loop of [_compress_prompt] (lines 131-140). *)
Fixpoint compress_lines (rest : list string) (memory_section_started : bool)
    (compressed : list string) : list string :=
  match rest with
  | [] => compressed
  | line :: rest' =>
      if Text.contains "WHAT YOU KNOW ABOUT THE USER:" line then
        compress_lines rest' true (compressed ++ [line])
      else if memory_section_started && Text.startswith (Text.strip line) "-" then
        if Text.contains "(confidence: 0.8" line || Text.contains "(confidence: 0.9" line
        then compress_lines rest' memory_section_started (compressed ++ [line])
        else compress_lines rest' memory_section_started compressed
      else compress_lines rest' memory_section_started (compressed ++ [line])
  end.

(** [_compress_prompt] *)
Definition _compress_prompt (prompt : string) : string :=
  lines (compress_lines (Text.split_char (ascii_of_nat 10) prompt) false []).

(** [build_prompt] *)
Definition build_prompt (time_of_day user_message : string)
    (memories : list MemoryManager.MemoryDict) (persona : Persona)
    (history : list HistoryEntry) : string :=
  let full := full_prompt time_of_day user_message memories persona history in
  if 3000 <? Z.of_nat (length (Text.split_ws full)) then _compress_prompt full
  else full.

(** [line in prompt.split("\n")] *)
Definition has_line (line prompt : string) : bool :=
  existsb (String.eqb line) (Text.split_char (ascii_of_nat 10) prompt).

Definition default_persona : Persona :=
  {| name := None; age := None; background := None; personality_traits := None;
     preferred_tone := None; communication_style := None; formality_level := None;
     friendliness := None; curiosity := None; humor_level := None |}.

End PromptEnhancer.

(** ** The chat back ends *)

(** What the two handlers share: the request and response models and the
    external calls. *)
Module Api.

(** The outcome of [groq_client.chat.completions.create(...)]: the text of
    the first choice, or an exception (timeout, rejection by the provider). *)
Inductive Completion :=
| Completed (content : string)
| Failed.

(** The clock as the handlers read it: [datetime.now().isoformat()] and the
    text of [datetime.now().timestamp()]. *)
Record Clock := {
  isoformat : string;
  timestamp_text : string
}.

Record ChatRequest := {
  user_id : string;
  message : string;
  session_id : option string
}.

Record ChatResponse := {
  response : string;
  response_user_id : string;
  emotion_detected : string;
  memories_used : Z;
  tone : string;
  model_used : string;
  response_session_id : string;
  timestamp : string
}.

(** [request.session_id or default] *)
Definition session_or (request : ChatRequest) (default : string) : string :=
  match session_id request with
  | Some s => if Text.is_empty s then default else s
  | None => default
  end.

(** [len(request.message.split()) > 3] *)
Definition more_than_three_words (text : string) : bool :=
  3 <? Z.of_nat (length (Text.split_ws text)).

End Api.

Module FixedBackend.

Import Api.

Record UserRecord := {
  created_at : string;
  conversations : Z;
  last_active : string
}.

Record MemoryRecord := {
  content : string;
  type : string;
  memory_timestamp : string
}.

(** The two module-level dictionaries. *)
Record State := {
  users_db : gmap string UserRecord;
  memories_db : gmap string (list MemoryRecord)
}.

Definition detect (text_lower : string) : string * string :=
  if Text.any_in ["happy"; "joy"; "love"; "great"] text_lower
  then ("joy", "cheerful")
  else if Text.any_in ["sad"; "upset"; "angry"; "bad"] text_lower
  then ("sadness", "empathetic")
  else ("neutral", "friendly").

(** The prompt of lines 113-125. *)
Definition prompt (memories : list MemoryRecord) (emotion tone : string)
    (request : ChatRequest) : string :=
  let memory_text :=
    match memories with
    | [] => ""
    | _ =>
        "What I know about you:" +:+ Text.nl +:+
        Text.join Text.nl
          (map (fun m => "- " +:+ Text.slice_to 50 (content m) +:+ "...")
               (Text.last_n 3 memories))
    end in
  "You are Alex, a friendly digital artist from Portland." +:+ Text.nl +:+
  Text.nl +:+ memory_text +:+ Text.nl +:+ Text.nl +:+
  "The user is feeling " +:+ emotion +:+ ". Respond in a " +:+ tone +:+
  " tone." +:+ Text.nl +:+ Text.nl +:+
  "User: " +:+ message request +:+ Text.nl +:+ Text.nl +:+ "Alex:".

(** [chat]: the whole body is inside one [try]; an exception raised by the
    generation call is caught by the handler's [except] clause, after the
    user was initialised and before anything else was written. *)
Definition chat (groq : string -> Completion) (clock : Clock) (st : State)
    (request : ChatRequest) : State * ChatResponse :=
  let user := user_id request in
  let users :=
    match users_db st !! user with
    | Some _ => users_db st
    | None =>
        <[user := {| created_at := isoformat clock; conversations := 0;
                     last_active := isoformat clock |}]> (users_db st)
    end in
  let memories := default [] (memories_db st !! user) in
  let '(emotion, tone) := detect (Text.lower (message request)) in
  match groq (prompt memories emotion tone request) with
  | Completed response_text =>
      let stored :=
        if more_than_three_words (message request) then
          memories ++ [{| content := Text.slice_to 100 (message request);
                          type := "conversation";
                          memory_timestamp := isoformat clock |}]
        else memories in
      let users' :=
        alter (fun u => {| created_at := created_at u;
                           conversations := conversations u + 1;
                           last_active := isoformat clock |}) user users in
      ({| users_db := users'; memories_db := <[user := stored]> (memories_db st) |},
       {| response := response_text;
          response_user_id := user;
          emotion_detected := emotion;
          memories_used :=
            Z.of_nat (length (match memories_db st !! user with
                              | Some _ => stored
                              | None => []
                              end));
          tone := tone;
          model_used := "llama-3.1-8b-instant";
          response_session_id :=
            session_or request ("session_" +:+ timestamp_text clock);
          timestamp := isoformat clock |})
  | Failed =>
      ({| users_db := users; memories_db := memories_db st |},
       {| response := "I'm here to chat with you! Tell me about your day.";
          response_user_id := user;
          emotion_detected := "neutral";
          memories_used := 0;
          tone := "friendly";
          model_used := "fallback";
          response_session_id := session_or request "session_fallback";
          timestamp := isoformat clock |})
  end.

End FixedBackend.

Module AiBackend.

Import Api.

(** [detect_emotion] *)
Definition detect_emotion (text : string) : string :=
  let text_lower := Text.lower text in
  if Text.any_in ["happy"; "joy"; "love"; "great"; "excited"; "wonderful"] text_lower
  then "joy"
  else if Text.any_in ["sad"; "upset"; "angry"; "bad"; "terrible"; "depressed"] text_lower
  then "sadness"
  else if Text.any_in ["scared"; "afraid"; "anxious"; "worried"] text_lower
  then "fear"
  else "neutral".

(** [determine_tone] *)
Definition determine_tone (emotion : string) : string :=
  if String.eqb emotion "joy" then "cheerful and enthusiastic"
  else if String.eqb emotion "sadness" then "empathetic and supportive"
  else if String.eqb emotion "fear" then "reassuring and gentle"
  else if String.eqb emotion "neutral" then "friendly and curious"
  else "friendly".

(** The prompt of lines 134-151. *)
Definition prompt (memories : list string) (emotion tone : string)
    (request : ChatRequest) : string :=
  let memory_context :=
    match memories with
    | [] => ""
    | _ =>
        fold_left (fun context mem => context +:+ "- " +:+ mem +:+ Text.nl)
          (Text.last_n 3 memories)
          ("Here's what I remember about you:" +:+ Text.nl)
    end in
  "You are Alex, a 28-year-old digital artist from Portland who loves hiking, anime, and photography."
  +:+ Text.nl +:+ Text.nl +:+
  "IMPORTANT: Never mention that you're an AI, assistant, or language model. You have your own personality."
  +:+ Text.nl +:+ Text.nl +:+ memory_context +:+ Text.nl +:+ Text.nl +:+
  "The user is feeling " +:+ emotion +:+ ". Respond in a " +:+ tone +:+
  " tone." +:+ Text.nl +:+ Text.nl +:+
  "User: " +:+ Text.dquote +:+ message request +:+ Text.dquote +:+ Text.nl +:+
  Text.nl +:+ "Alex (you):".

(** [chat].  [groq_client] is [None] when no API key is configured.  The
    generation call has a [try] of its own; the memory is stored after it,
    and only for a message of more than three words: the [append] and the
    cut to the last 20 entries are both inside that branch (lines 177-182).
    [memories] is the list object held in [user_memories]: the [append]
    shows in [len(memories)], the later truncation builds a new list. *)
Definition chat (groq_client : option (string -> Completion)) (clock : Clock)
    (user_memories : gmap string (list string)) (request : ChatRequest)
    : gmap string (list string) * ChatResponse :=
  let user := user_id request in
  let memories := default [] (user_memories !! user) in
  let emotion := detect_emotion (message request) in
  let tone := determine_tone emotion in
  let '(ai_response, model) :=
    match groq_client with
    | Some groq =>
        match groq (prompt memories emotion tone request) with
        | Completed text => (Text.strip text, "llama-3.1-8b-instant")
        | Failed =>
            ("I'd love to chat more about that! As a digital artist, I find conversations like this inspiring.",
             "fallback")
        end
    | None =>
        ("I'm here to chat! Tell me more about yourself. I'm Alex, a digital artist from Portland.",
         "local_fallback")
    end in
  let appended := memories ++ [Text.slice_to 100 (message request) +:+ "..."] in
  let stored :=
    if more_than_three_words (message request) then
      if 20 <? Z.of_nat (length appended) then Text.last_n 20 appended
      else appended
    else memories in
  (<[user := stored]> user_memories,
   {| response := ai_response;
      response_user_id := user;
      emotion_detected := emotion;
      memories_used :=
        Z.of_nat (length (if more_than_three_words (message request)
                          then appended else memories));
      tone := tone;
      model_used := model;
      response_session_id :=
        session_or request ("session_" +:+ timestamp_text clock);
      timestamp := isoformat clock |}).

End AiBackend.

(** ** A concrete environment for runs

    The manager when the embedding model failed to load
    ([self.embedding_model = None], so [get_embedding] returns [None]) on
    an engine other than PostgreSQL: the vector statement is never issued.
    The runs below pass no query, so [ILIKE] is not evaluated either. *)
Definition no_embedding_model (text : string) : option (list float) := None.

Definition no_vector_distance (q : list float) (m : MemoryManager.LongTermMemory)
    : option float := None.

Definition unused_ilike (pattern text : string) : bool := false.

Definition get_relevant_memories_plain :=
  MemoryManager.get_relevant_memories no_embedding_model false false
    no_vector_distance false unused_ilike.


(** A prompt above the ceiling: a message of 3001 words and one memory of
    confidence 0.9, as [get_relevant_memories] returns it. *)
Definition long_message : string := Text.join " " (repeat "hello" 3001).

Definition hiking_memory : MemoryManager.MemoryDict :=
  MemoryManager.OrmDict 0 "I love hiking" "preference" "preference"
    0.9%float 0.5%float 0 1 None.

(** ** Predicates used to state the retrieval properties *)

(** [l'] is drawn from [l]: its rows are rows of [l], and distinct ids in
    [l] give distinct ids in [l']. *)
Definition drawn (l' l : list MemoryManager.LongTermMemory) : Prop :=
  incl l' l /\ (List.NoDup (map MemoryManager.id l) -> List.NoDup (map MemoryManager.id l')).

(** The result of a search: dictionaries of at most [limit] rows drawn
    from the table. *)
Definition selection (l : list MemoryManager.LongTermMemory) (limit : nat)
    (memories : list MemoryManager.MemoryDict) : Prop :=
  exists sel,
    map MemoryManager.dict_id memories = map MemoryManager.id sel /\
    (length sel <= limit)%nat /\ drawn sel l.

(** ** Predicates used to state further properties *)

(** [all(P(c) for c in s)] *)
Fixpoint all_chars (P : ascii -> bool) (s : string) : bool :=
  match s with
  | EmptyString => true
  | String c s' => P c && all_chars P s'
  end.

(** The five categories of the table, and the six values a row's category
    can take. *)
Definition table_categories : list string :=
  ["preference"; "fact"; "experience"; "goal"; "emotion"].

Definition row_categories : list string := table_categories ++ ["general"].

(** The table keeps its keys: primary keys are distinct and were drawn
    from the supply, and no two rows share a hash (the [unique=True]
    constraint of [memory_hash]). *)
Definition well_keyed (db : MemoryManager.Session) : Prop :=
  List.NoDup (map MemoryManager.id (MemoryManager.rows db)) /\
  Forall (fun m => (MemoryManager.id m < MemoryManager.uuid_supply db)%nat)
         (MemoryManager.rows db) /\
  List.NoDup (map MemoryManager.memory_hash (MemoryManager.rows db)).

(** The columns a read leaves alone: everything but the access count, the
    last-accessed time and the update time. *)
Definition stable_columns (m : MemoryManager.LongTermMemory) :=
  (MemoryManager.id m, MemoryManager.user_id m, MemoryManager.memory_type m,
   MemoryManager.category m, MemoryManager.content m,
   MemoryManager.memory_hash m, MemoryManager.embedding m,
   MemoryManager.confidence m, MemoryManager.importance m,
   MemoryManager.source_conversation m, MemoryManager.is_active m,
   MemoryManager.created_at m, MemoryManager.expires_at m).

(** What is asked of the row behind an entry that a read returns. *)
Definition backed_by (postgresql : bool) (db : MemoryManager.Session)
    (user : string) (threshold : float) (now : Z)
    (d : MemoryManager.MemoryDict) : Prop :=
  exists m,
    In m (MemoryManager.rows db) /\ MemoryManager.user_id m = user /\
    MemoryManager.is_active m = true /\
    PrimFloat.leb threshold (MemoryManager.confidence m) = true /\
    (postgresql = false -> MemoryManager.unexpired now m = true) /\
    MemoryManager.dict_id d = MemoryManager.id m /\
    MemoryManager.dict_content d = MemoryManager.content m /\
    MemoryManager.dict_category d = MemoryManager.category m /\
    MemoryManager.dict_confidence d = MemoryManager.confidence m.

(** The store of [ai_backend] within its bounds: at most 20 entries for a
    user, each of at most 103 characters. *)
Definition bounded_store (user_memories : gmap string (list string)) : Prop :=
  forall user memories,
    user_memories !! user = Some memories ->
    (length memories <= 20)%nat /\
    Forall (fun entry => (String.length entry <= 103)%nat) memories.

(** The two dictionaries of [fixed_backend] agree: no counter of
    conversations is negative, and whoever has a list of memories is a
    registered user, with at least as many conversations counted as
    memories kept, none of them longer than 100 characters. *)
Definition consistent (st : FixedBackend.State) : Prop :=
  (forall user u,
     FixedBackend.users_db st !! user = Some u ->
     0 <= FixedBackend.conversations u) /\
  (forall user memories,
     FixedBackend.memories_db st !! user = Some memories ->
     Forall (fun m => (String.length (FixedBackend.content m) <= 100)%nat)
            memories /\
     exists u,
       FixedBackend.users_db st !! user = Some u /\
       Z.of_nat (length memories) <= FixedBackend.conversations u).

(** * Properties *)

Import MemoryManager.

(** ** Sanity checks of the embedding on concrete inputs *)

Example lower_mixed : Text.lower "I Love My DOG" = "i love my dog".
Proof. reflexivity. Qed.

Example strip_both : Text.strip "  a b  " = "a b".
Proof. reflexivity. Qed.

Example re_split_runs :
  Text.re_split_terminals "a..b" = ["a"; "b"] /\
  Text.re_split_terminals ".a" = [""; "a"] /\
  Text.re_split_terminals "a." = ["a"; ""] /\
  Text.re_split_terminals "..." = [""; ""] /\
  Text.re_split_terminals "" = [""].
Proof. repeat apply conj; reflexivity. Qed.

Example split_ws_words :
  Text.split_ws "  a  bc " = ["a"; "bc"] /\ Text.split_ws "" = [].
Proof. split; reflexivity. Qed.

Example split_char_lines :
  Text.split_char "/" "a//b" = ["a"; ""; "b"] /\ Text.split_char "/" "" = [""].
Proof. split; reflexivity. Qed.

(** Digests as [hashlib] prints them. *)
Example md5_vectors :
  Hashlib.md5_hexdigest "" = "d41d8cd98f00b204e9800998ecf8427e" /\
  Hashlib.md5_hexdigest "alice:i love hiking and photography"
    = "294fb2ce7da76ceb82f04ddb28c79e3b" /\
  Hashlib.md5_hexdigest
    "12345678901234567890123456789012345678901234567890123456"
    = "49f193adce178490e34d1b3a4ec0064c".
Proof. repeat apply conj; vm_compute; reflexivity. Qed.

(** The first scenario of the design document. *)
Example analyze_hiking :
  _analyze_text_for_memories "I love hiking and photography." "user"
  = [("preference", "I love hiking and photography", 0.9%float)].
Proof. reflexivity. Qed.

(** Runs an operation that returns [Ok (db, cache, m)] and hands the three
    components to the continuation. *)
Ltac run_store t k :=
  let r := eval vm_compute in t in
  lazymatch r with
  | Ok (?d, ?c, ?m) => k d c m
  end.

(** Two memories of one user, written at times 0 and 1. *)
Ltac two_memories k :=
  run_store
    (store_memory no_embedding_model SessionLocal [] 0
       "alice" "preference" "I love hiking" 0.9%float None None 0.5%float)
    ltac:(fun d1 c1 m1 =>
  run_store
    (store_memory no_embedding_model d1 c1 1
       "alice" "fact" "I work from home" 0.9%float None None 0.5%float)
    ltac:(fun d2 c2 m2 => k d2 c2)).


(** ** Classifier *)

Lemma scan_keywords_closed category kws source sentence memories :
  scan_keywords category kws source sentence memories =
  memories ++
  (if Text.any_in kws (Text.lower sentence)
   then [(category, Text.strip sentence,
          match_confidence source (Text.lower sentence))]
   else []).
Proof.
  induction kws as [|keyword kws IH]; simpl.
  - now rewrite app_nil_r.
  - destruct (Text.contains keyword (Text.lower sentence)); simpl; auto.
Qed.

Lemma scan_categories_closed table source sentence memories :
  scan_categories table source sentence memories =
  memories ++ sentence_memories table source sentence.
Proof.
  revert memories.
  induction table as [|[category config] table IH]; intros memories; simpl.
  - now rewrite app_nil_r.
  - rewrite IH, scan_keywords_closed, <- app_assoc. f_equal.
    unfold sentence_memories, category_matches; simpl.
    destruct (Text.any_in (keywords config) (Text.lower sentence)); reflexivity.
Qed.

Lemma scan_sentences_closed sentences source memories :
  scan_sentences sentences source memories =
  memories ++ flat_map (sentence_memories memory_categories source) sentences.
Proof.
  revert memories.
  induction sentences as [|sentence sentences IH]; intros memories;
    cbn [scan_sentences flat_map].
  - now rewrite app_nil_r.
  - now rewrite IH, scan_categories_closed, <- app_assoc.
Qed.

Lemma analyze_closed_form text source :
  _analyze_text_for_memories text source =
  flat_map (sentence_memories memory_categories source)
           (_split_into_sentences text).
Proof. unfold _analyze_text_for_memories. now rewrite scan_sentences_closed. Qed.

Lemma sentence_memories_length table source sentence :
  (length (sentence_memories table source sentence) <= length table)%nat.
Proof.
  unfold sentence_memories. rewrite length_map. apply List.filter_length_le.
Qed.

Lemma flat_map_length_bound {A B} (f : A -> list B) (n : nat) (l : list A) :
  (forall x, (length (f x) <= n)%nat) ->
  (length (flat_map f l) <= n * length l)%nat.
Proof.
  intros Hf. induction l as [|x l IH]; simpl.
  - lia.
  - rewrite length_app. specialize (Hf x). lia.
Qed.

Lemma in_analyze_inv text source category text' conf :
  In (category, text', conf) (_analyze_text_for_memories text source) ->
  exists sentence,
    In sentence (_split_into_sentences text) /\
    text' = Text.strip sentence /\
    conf = match_confidence source (Text.lower sentence).
Proof.
  rewrite analyze_closed_form, in_flat_map.
  intros (sentence & Hs & Hin). exists sentence. split; [exact Hs|].
  unfold sentence_memories in Hin. apply in_map_iff in Hin.
  destruct Hin as (entry & Heq & _). now inversion Heq.
Qed.

(** C2 (amended).  For every text and source, the classifier emits, for
    each sentence in turn, one tuple for every category of the table that
    has a keyword in the lowered sentence, in table order: the [break]
    ends the scan of the keywords of the current category only.  Hence at
    most one tuple per sentence and category, at most five per sentence. *)
Theorem analyze_one_tuple_per_matching_category (text source : string) :
  _analyze_text_for_memories text source =
    flat_map
      (fun sentence =>
         map (fun entry => (fst entry, Text.strip sentence,
                            match_confidence source (Text.lower sentence)))
             (List.filter
                (fun entry => Text.any_in (keywords (snd entry)) (Text.lower sentence))
                memory_categories))
      (_split_into_sentences text)
  /\ (length (_analyze_text_for_memories text source)
      <= 5 * length (_split_into_sentences text))%nat.
Proof.
  split.
  - apply analyze_closed_form.
  - rewrite analyze_closed_form.
    apply flat_map_length_bound. intros sentence.
    apply (sentence_memories_length memory_categories).
Qed.

(** C2, counterexample: a single sentence with a trigger keyword of
    [preference] ("love") and one of [emotion] ("feel") yields two tuples. *)
Lemma one_sentence_two_categories_two_tuples :
  _split_into_sentences "I love hiking and feel happy."
    = ["I love hiking and feel happy"] /\
  _analyze_text_for_memories "I love hiking and feel happy." "user"
    = [("preference", "I love hiking and feel happy", 0.9%float);
       ("emotion", "I love hiking and feel happy", 0.9%float)].
Proof. split; reflexivity. Qed.

(** C5 (amended).  Every tuple the classifier emits comes from a sentence
    of the text and carries: for a user text, 0.9 when the lowered sentence
    starts with "i " or contains "my " anywhere, and 0.6 otherwise; for any
    other source a flat 0.5.  The caller multiplies the confidence of the
    tuples of the generated reply by 0.8. *)
Theorem confidence_of_extracted
    (text source category text' : string) (conf : float)
    (user_message ai_response : string) :
  In (category, text', conf) (_analyze_text_for_memories text source) ->
  (exists sentence,
      In sentence (_split_into_sentences text) /\
      text' = Text.strip sentence /\
      conf = if String.eqb source "user" then
               if Text.startswith (Text.lower sentence) "i "
                  || Text.contains "my " (Text.lower sentence)
               then 0.9%float else 0.6%float
             else 0.5%float)
  /\ memories_to_store user_message ai_response =
       _analyze_text_for_memories user_message "user" ++
       map (fun '(c, t, k) => (c, t, (k * 0.8)%float))
           (_analyze_text_for_memories ai_response "ai").
Proof.
  intros Hin. split; [|reflexivity].
  destruct (in_analyze_inv _ _ _ _ _ Hin) as (sentence & Hs & Ht & Hc).
  exists sentence. repeat split; assumption.
Qed.

Lemma confidence_of_extracted_witness :
  In ("fact", "We work from home", 0.6%float)
     (_analyze_text_for_memories "We work from home." "user") /\
  ((exists sentence,
      In sentence (_split_into_sentences "We work from home.") /\
      "We work from home" = Text.strip sentence /\
      0.6%float = if String.eqb "user" "user" then
               if Text.startswith (Text.lower sentence) "i "
                  || Text.contains "my " (Text.lower sentence)
               then 0.9%float else 0.6%float
             else 0.5%float)
   /\ memories_to_store "We work from home." "Nice." =
       _analyze_text_for_memories "We work from home." "user" ++
       map (fun '(c, t, k) => (c, t, (k * 0.8)%float))
           (_analyze_text_for_memories "Nice." "ai")).
Proof.
  assert (H : In ("fact", "We work from home", 0.6%float)
                 (_analyze_text_for_memories "We work from home." "user"))
    by (left; reflexivity).
  split; [exact H|].
  exact (confidence_of_extracted "We work from home." "user" "fact"
           "We work from home" 0.6%float "We work from home." "Nice." H).
Defined.

(** C5, counterexample: a user sentence that does not start with a
    first-person subject but has "my " in the middle gets 0.9, not 0.6. *)
Lemma my_in_the_middle_gets_high_confidence :
  Text.startswith (Text.lower "They love my dog") "i " = false /\
  _analyze_text_for_memories "They love my dog" "user"
    = [("preference", "They love my dog", 0.9%float)].
Proof. split; reflexivity. Qed.

(** ** Store *)

Lemma find_none_filter {A} (p : A -> bool) (l : list A) :
  find p l = None -> List.filter p l = [].
Proof.
  induction l as [|x l IH]; simpl; [reflexivity|].
  destruct (p x); [discriminate|exact IH].
Qed.

Lemma alter_first_length {A} (p : A -> bool) (f : A -> A) (l : list A) :
  length (alter_first p f l) = length l.
Proof.
  induction l as [|x l IH]; simpl; [reflexivity|].
  destruct (p x); simpl; congruence.
Qed.

Lemma filter_alter_first {A} (p : A -> bool) (f : A -> A) (l : list A) x :
  (forall y, p (f y) = p y) ->
  find p l = Some x ->
  exists before after,
    l = before ++ x :: after /\
    List.filter p before = [] /\
    alter_first p f l = before ++ f x :: after.
Proof.
  intros Hpf. induction l as [|y l IH]; simpl; [discriminate|].
  destruct (p y) eqn:Hy.
  - intros [= ->]. exists [], l. auto.
  - intros Hfind. destruct (IH Hfind) as (before & after & -> & Hb & Ha).
    exists (y :: before), after. simpl. rewrite Hy, Ha. auto.
Qed.

Lemma same_key_merge now conf imp user hash m :
  same_key user hash (merge now conf imp m) = same_key user hash m.
Proof. reflexivity. Qed.

Lemma merge_access_count now conf imp m :
  access_count (merge now conf imp m) = access_count m + 1.
Proof.
  simpl. destruct (Z.eqb_spec (access_count m) 0) as [->|]; reflexivity.
Qed.

Section StoreProperties.

Variable get_embedding : string -> option (list float).

(** What a call that finds no row for the key does. *)
Lemma store_memory_insert db cache now user mtype text conf source cat imp r :
  find (same_key user (calculate_memory_hash user text)) (rows db) = None ->
  store_memory get_embedding db cache now user mtype text conf source cat imp = Ok r ->
  exists m,
    r = ({| rows := rows db ++ [m]; uuid_supply := S (uuid_supply db);
            autoflush := autoflush db; server_now := server_now db |},
         cache_limit
           (cache_set (MemoryEntry user (uuid_supply db) text mtype
                         (category_or_auto cat text mtype) conf now) cache),
         m) /\
    id m = uuid_supply db /\ user_id m = user /\
    memory_hash m = calculate_memory_hash user text /\
    category m = category_or_auto cat text mtype /\
    confidence m = conf /\ importance m = imp /\ access_count m = 1 /\
    is_active m = true /\ created_at m = server_now db now /\
    updated_at m = server_now db now /\
    expires_at m = Some (now + timedelta_days (lifespan_of (category m))).
Proof.
  intros Hnone. unfold store_memory. rewrite Hnone.
  destruct (existsb _ _); [discriminate|].
  intros [= <-]. eexists. split; [reflexivity|]. simpl. repeat split.
Qed.

(** What a call that finds a row for the key does. *)
Lemma store_memory_merge db cache now user mtype text conf source cat imp existing :
  find (same_key user (calculate_memory_hash user text)) (rows db) = Some existing ->
  store_memory get_embedding db cache now user mtype text conf source cat imp =
  Ok (with_rows db
        (alter_first (same_key user (calculate_memory_hash user text))
                     (merge now conf imp) (rows db)),
      cache, merge now conf imp existing).
Proof. intros Hsome. unfold store_memory. now rewrite Hsome. Qed.

(** After a successful call the key has a row, and it is the one returned. *)
Lemma store_memory_then_found db cache now user mtype text conf source cat imp
    db' cache' m :
  store_memory get_embedding db cache now user mtype text conf source cat imp
    = Ok (db', cache', m) ->
  find (same_key user (calculate_memory_hash user text)) (rows db') = Some m.
Proof.
  set (hash := calculate_memory_hash user text).
  destruct (find (same_key user hash) (rows db)) as [existing|] eqn:Hfind.
  - rewrite (store_memory_merge _ _ _ _ _ _ _ _ _ _ existing Hfind).
    intros [= <- <- <-]. simpl. fold hash.
    destruct (filter_alter_first _ (merge now conf imp) _ _
                (same_key_merge now conf imp user hash) Hfind)
      as (before & after & Hrows & Hb & ->).
    apply find_some in Hfind. destruct Hfind as [_ Hkey].
    clear Hrows. induction before as [|y before IH]; simpl.
    + now rewrite same_key_merge, Hkey.
    + simpl in Hb. destruct (same_key user hash y); [discriminate|]. now apply IH.
  - intros Hstore.
    destruct (store_memory_insert _ _ _ _ _ _ _ _ _ _ _ Hfind Hstore)
      as (m' & [= -> -> ->] & _ & Hu & Hh & _).
    simpl. clear Hstore.
    assert (Hkey : same_key user hash m' = true).
    { unfold same_key. rewrite Hu, Hh. fold hash. now rewrite !String.eqb_refl. }
    induction (rows db) as [|y l IH]; simpl in *.
    + now rewrite Hkey.
    + destruct (same_key user hash y); [discriminate|]. now apply IH.
Qed.

End StoreProperties.

Lemma alter_first_last {A} (p : A -> bool) (f : A -> A) (l : list A) x :
  find p l = None -> p x = true ->
  alter_first p f (l ++ [x]) = l ++ [f x].
Proof.
  intros Hnone Hx. induction l as [|y l IH]; simpl in *.
  - now rewrite Hx.
  - destruct (p y); [discriminate|]. now rewrite IH.
Qed.

Lemma same_normal_form_same_hash user text1 text2 :
  Text.strip (Text.lower text1) = Text.strip (Text.lower text2) ->
  calculate_memory_hash user text1 = calculate_memory_hash user text2.
Proof. unfold calculate_memory_hash. now intros ->. Qed.

(** C1 (amended).  Take two successive [store_memory] calls for one user
    whose contents have the same lowered, stripped form, the first of which
    returns.  Then the second call returns too, and it merges into the
    record the first call returned instead of inserting a row: the table
    keeps its length, the record keeps its id and its active flag,
    confidence and importance become the max of the stored and the new
    value, and the access count grows by one.  When the key had no row
    before the first call, that call inserts an active row with access
    count 1, so afterwards the key has exactly one row, it is active, and
    its access count is 2.  (The lookup does not test [is_active]: a write
    to an archived record merges into it and leaves it archived.) *)
Theorem upsert_twice_merges
    (get_embedding : string -> option (list float))
    (db : Session) (cache : Cache) (now1 now2 : Z)
    (user mtype1 mtype2 text1 text2 : string) (conf1 conf2 : float)
    (source1 source2 cat1 cat2 : option string) (imp1 imp2 : float)
    (db1 : Session) (cache1 : Cache) (m1 : LongTermMemory) :
  Text.strip (Text.lower text1) = Text.strip (Text.lower text2) ->
  store_memory get_embedding db cache now1 user mtype1 text1 conf1 source1 cat1 imp1
    = Ok (db1, cache1, m1) ->
  exists db2 m2,
    store_memory get_embedding db1 cache1 now2 user mtype2 text2 conf2 source2 cat2 imp2
      = Ok (db2, cache1, m2) /\
    length (rows db2) = length (rows db1) /\
    id m2 = id m1 /\
    is_active m2 = is_active m1 /\
    confidence m2 = py_max (confidence m1) conf2 /\
    importance m2 = py_max (importance m1) imp2 /\
    access_count m2 = access_count m1 + 1 /\
    (find (same_key user (calculate_memory_hash user text1)) (rows db) = None ->
     List.filter (same_key user (calculate_memory_hash user text1)) (rows db2) = [m2] /\
     is_active m2 = true /\
     access_count m1 = 1 /\ access_count m2 = 2 /\
     confidence m2 = py_max conf1 conf2 /\
     importance m2 = py_max imp1 imp2).
Proof.
  intros Hnorm Hfirst.
  pose proof (same_normal_form_same_hash user _ _ Hnorm) as Hhash.
  pose proof (store_memory_then_found _ _ _ _ _ _ _ _ _ _ _ _ _ _ Hfirst) as Hfound.
  rewrite Hhash in Hfound.
  exists (with_rows db1
            (alter_first (same_key user (calculate_memory_hash user text2))
                         (merge now2 conf2 imp2) (rows db1))),
         (merge now2 conf2 imp2 m1).
  split; [now apply store_memory_merge|].
  split; [simpl; apply alter_first_length|].
  do 4 (split; [reflexivity|]).
  split; [apply merge_access_count|].
  intros Hnone.
  destruct (store_memory_insert _ _ _ _ _ _ _ _ _ _ _ _ Hnone Hfirst)
    as (m & [= -> -> ->] & _ & Hu & Hh & _ & Hc & Hi & Ha & Hact & _).
  rewrite Hhash in Hnone. rewrite Hhash. simpl.
  assert (Hkey : same_key user (calculate_memory_hash user text2) m = true).
  { apply find_some in Hfound. tauto. }
  rewrite (alter_first_last _ _ _ _ Hnone Hkey).
  rewrite List.filter_app, (find_none_filter _ _ Hnone).
  cbn [List.filter app]. rewrite same_key_merge, Hkey.
  cbn [is_active confidence importance access_count merge].
  rewrite Hc, Hi, Ha, Hact.
  repeat split; reflexivity.
Qed.

Lemma upsert_twice_merges_witness :
  Text.strip (Text.lower "I love hiking and photography")
    = Text.strip (Text.lower "  i LOVE hiking and photography ") /\
  exists db1 cache1 m1 db2 m2,
    store_memory no_embedding_model SessionLocal [] 0
      "alice" "preference" "I love hiking and photography" 0.9%float None None 0.5%float
      = Ok (db1, cache1, m1) /\
    store_memory no_embedding_model db1 cache1 10
      "alice" "preference" "  i LOVE hiking and photography " 0.6%float None None 0.7%float
      = Ok (db2, cache1, m2) /\
    List.filter (same_key "alice"
                   (calculate_memory_hash "alice" "I love hiking and photography"))
                (rows db2) = [m2] /\
    is_active m2 = true /\ access_count m2 = 2 /\
    confidence m2 = 0.9%float /\ importance m2 = 0.7%float.
Proof.
  split; [reflexivity|].
  let r := eval vm_compute in
    (store_memory no_embedding_model SessionLocal [] 0
       "alice" "preference" "I love hiking and photography" 0.9%float None None 0.5%float) in
  lazymatch r with
  | Ok (?d, ?c, ?m) =>
      assert (H1 : store_memory no_embedding_model SessionLocal [] 0
                     "alice" "preference" "I love hiking and photography"
                     0.9%float None None 0.5%float = Ok (d, c, m))
        by (vm_compute; reflexivity);
      exists d, c, m;
      destruct (upsert_twice_merges no_embedding_model SessionLocal [] 0 10
                  "alice" "preference" "preference"
                  "I love hiking and photography" "  i LOVE hiking and photography "
                  0.9%float 0.6%float None None None None 0.5%float 0.7%float
                  d c m eq_refl H1)
        as (db2 & m2 & H2 & _ & _ & _ & _ & _ & _ & Hfresh)
  end.
  destruct (Hfresh eq_refl) as (Hone & Hact & _ & Hacc & Hconf & Himp).
  exists db2, m2. repeat split; assumption.
Defined.

(** C1, counterexample: a record written with confidence 0.2 is archived
    by the sweep a hundred days later; two further writes of the same
    normalised content merge into the archived record, which stays
    inactive, so the key has one row and no active record. *)
Lemma upsert_into_archived_record_leaves_none_active :
  exists db1 cache1 m1 db2 db3 m3 db4 m4,
    store_memory no_embedding_model SessionLocal [] 0
      "alice" "fact" "I work from home" 0.2%float None None 0.5%float
      = Ok (db1, cache1, m1) /\
    cleanup_old_memories db1 (timedelta_days 100) 90 = (db2, (1, 0)) /\
    Text.strip (Text.lower "I work from home")
      = Text.strip (Text.lower " i WORK from home  ") /\
    store_memory no_embedding_model db2 cache1 (timedelta_days 100)
      "alice" "fact" "I work from home" 0.9%float None None 0.5%float
      = Ok (db3, cache1, m3) /\
    store_memory no_embedding_model db3 cache1 (timedelta_days 100)
      "alice" "fact" " i WORK from home  " 0.9%float None None 0.5%float
      = Ok (db4, cache1, m4) /\
    length (rows db4) = 1%nat /\
    List.filter is_active (rows db4) = [] /\
    is_active m4 = false.
Proof.
  run_store
    (store_memory no_embedding_model SessionLocal [] 0
       "alice" "fact" "I work from home" 0.2%float None None 0.5%float)
    ltac:(fun d1 c1 m1 =>
  let r := eval vm_compute in (cleanup_old_memories d1 (timedelta_days 100) 90) in
  lazymatch r with
  | (?d2, _) =>
  run_store
    (store_memory no_embedding_model d2 c1 (timedelta_days 100)
       "alice" "fact" "I work from home" 0.9%float None None 0.5%float)
    ltac:(fun d3 c3 m3 =>
  run_store
    (store_memory no_embedding_model d3 c3 (timedelta_days 100)
       "alice" "fact" " i WORK from home  " 0.9%float None None 0.5%float)
    ltac:(fun d4 c4 m4 => exists d1, c1, m1, d2, d3, m3, d4, m4))
  end).
  repeat apply conj; vm_compute; reflexivity.
Qed.



(** ** Extraction *)

Lemma assistant_confidence text :
  Forall (fun t : Extracted => snd t = 0.5%float)
         (_analyze_text_for_memories text "ai").
Proof.
  apply List.Forall_forall. intros [[category text'] conf] Hin.
  destruct (in_analyze_inv _ _ _ _ _ Hin) as (sentence & _ & _ & ->).
  reflexivity.
Qed.

Section ExtractionProperties.

Variable get_embedding : string -> option (list float).

Lemma store_unique_rejected db cache now user conversation todo n :
  Forall (fun t : Extracted => PrimFloat.ltb 0.4 (snd t) = false) todo ->
  store_unique get_embedding db cache now user conversation todo n
    = Ok (db, cache, n).
Proof.
  induction 1 as [|[[mtype text] conf] todo Hgate _ IH]; simpl.
  - reflexivity.
  - simpl in Hgate. now rewrite Hgate.
Qed.

Lemma store_unique_app_rejected db cache now user conversation todo rejected n :
  Forall (fun t : Extracted => PrimFloat.ltb 0.4 (snd t) = false) rejected ->
  store_unique get_embedding db cache now user conversation (todo ++ rejected) n
  = store_unique get_embedding db cache now user conversation todo n.
Proof.
  intros Hrej. revert db cache n.
  induction todo as [|[[mtype text] conf] todo IH]; intros db cache n; simpl.
  - now apply store_unique_rejected.
  - destruct (PrimFloat.ltb 0.4 conf); [|apply IH].
    destruct (store_memory _ _ _ _ _ _ _ _ _ _ _) as [[[db' cache'] m]|e];
      [apply IH|reflexivity].
Qed.

(** C10.  Nothing derived from the generated reply is ever stored: each
    tuple of the reply has confidence exactly 0.5, the caller scales it to
    0.5 * 0.8, which is the float 0.4, and the gate [confidence > 0.4] is
    strict.  The extract-and-store pass therefore does what storing the
    tuples of the user message alone does, whatever the reply. *)
Theorem assistant_reply_is_never_stored
    (db : Session) (cache : Cache) (now : Z)
    (user user_message ai_response : string) (conversation : option string) :
  Forall (fun t : Extracted => snd t = 0.5%float)
         (_analyze_text_for_memories ai_response "ai") /\
  (0.5 * 0.8)%float = 0.4%float /\
  PrimFloat.ltb 0.4 (0.5 * 0.8) = false /\
  extract_and_store_memories get_embedding db cache now user
      user_message ai_response conversation
  = store_unique get_embedding db cache now user conversation
      (_analyze_text_for_memories user_message "user") 0.
Proof.
  split; [apply assistant_confidence|].
  split; [reflexivity|]. split; [reflexivity|].
  unfold extract_and_store_memories, memories_to_store.
  apply store_unique_app_rejected.
  apply List.Forall_map.
  eapply List.Forall_impl; [|apply assistant_confidence].
  intros [[mtype text] conf]; simpl. intros ->. reflexivity.
Qed.

End ExtractionProperties.

(** ** Retrieval *)

Lemma drawn_refl l : drawn l l.
Proof. split; [apply incl_refl|auto]. Qed.

Lemma drawn_filter p l' l : drawn l' l -> drawn (List.filter p l') l.
Proof.
  intros [Hincl Hnd]. split.
  - intros x Hx. apply Hincl. apply filter_In in Hx. tauto.
  - intros H. specialize (Hnd H). clear -Hnd.
    induction l' as [|x l' IH]; simpl; [constructor|].
    simpl in Hnd. apply List.NoDup_cons_iff in Hnd. destruct Hnd as [Hx Hnd].
    destruct (p x); simpl; [|auto].
    constructor; [|auto].
    intros Hin. apply Hx. apply in_map_iff in Hin.
    destruct Hin as (y & Hy & Hin). apply filter_In in Hin.
    apply in_map_iff. exists y. tauto.
Qed.

Lemma insert_by_perm {A} (before : A -> A -> bool) x l :
  Permutation (insert_by before x l) (x :: l).
Proof.
  induction l as [|y l IH]; simpl; [reflexivity|].
  destruct (before y x); [|reflexivity].
  rewrite IH. apply perm_swap.
Qed.

Lemma order_by_perm {A} (before : A -> A -> bool) l :
  Permutation (order_by before l) l.
Proof.
  induction l as [|x l IH]; simpl; [reflexivity|].
  unfold order_by in *. simpl. rewrite insert_by_perm. now constructor.
Qed.

Lemma drawn_order_by before l' l : drawn l' l -> drawn (order_by before l') l.
Proof.
  intros [Hincl Hnd]. pose proof (order_by_perm before l') as Hperm. split.
  - intros x Hx. apply Hincl. eapply Permutation_in; eauto.
  - intros H. eapply Permutation_NoDup; [|apply (Hnd H)].
    apply Permutation_map. now symmetry.
Qed.

Lemma drawn_take n l' l : drawn l' l -> drawn (take n l') l.
Proof.
  intros [Hincl Hnd]. split.
  - intros x Hx. apply Hincl.
    rewrite <- (firstn_skipn n l'). apply in_or_app. now left.
  - intros H. specialize (Hnd H).
    rewrite <- (firstn_skipn n l'), map_app in Hnd.
    now apply List.NoDup_app_remove_r in Hnd.
Qed.

Lemma selection_orm l' l limit :
  drawn l' l -> selection l limit (map _memory_to_dict (take limit l')).
Proof.
  intros Hd. exists (take limit l'). split; [|split].
  - rewrite map_map. reflexivity.
  - apply firstn_le_length.
  - now apply drawn_take.
Qed.

Lemma selection_length l limit memories :
  selection l limit memories -> (length memories <= limit)%nat.
Proof.
  intros (sel & Hids & Hlen & _).
  apply (f_equal (@length nat)) in Hids. rewrite !length_map in Hids. lia.
Qed.

Lemma alter_first_ids p now l :
  map id (alter_first p (touch now) l) = map id l.
Proof.
  induction l as [|x l IH]; simpl; [reflexivity|].
  destruct (p x); simpl; congruence.
Qed.

Lemma alter_first_keeps {A} (p : A -> bool) f l x :
  In x l -> p x = false -> In x (alter_first p f l).
Proof.
  intros Hin Hp. induction l as [|y l IH]; simpl in *; [contradiction|].
  destruct Hin as [->|Hin].
  - rewrite Hp. now left.
  - destruct (p y); simpl; auto.
Qed.

Lemma alter_first_touches now l m :
  List.NoDup (map id l) -> In m l ->
  In (touch now m) (alter_first (has_id (id m)) (touch now) l).
Proof.
  induction l as [|y l IH]; simpl; [contradiction|].
  intros Hnd Hin. apply List.NoDup_cons_iff in Hnd. destruct Hnd as [Hy Hnd].
  unfold has_id at 1. destruct (Nat.eqb_spec (id y) (id m)) as [Heq|Hne].
  - destruct Hin as [->|Hin]; [now left|].
    exfalso. apply Hy. rewrite Heq. now apply in_map.
  - destruct Hin as [->|Hin]; [congruence|]. right. now apply IH.
Qed.

Lemma update_access_ids now memories l :
  map id (update_access now memories l) = map id l.
Proof.
  revert l. induction memories as [|d memories IH]; intros l; simpl.
  - reflexivity.
  - now rewrite IH, alter_first_ids.
Qed.

Lemma update_access_keeps now memories l x :
  In x l -> ~ In (id x) (map dict_id memories) ->
  In x (update_access now memories l).
Proof.
  revert l. induction memories as [|d memories IH]; intros l Hin Hid; simpl.
  - exact Hin.
  - apply IH.
    + apply alter_first_keeps; [exact Hin|].
      unfold has_id. apply Nat.eqb_neq. intros Heq. apply Hid. now left.
    + intros H. apply Hid. now right.
Qed.

Lemma update_access_touches now memories l d m :
  List.NoDup (map id l) -> List.NoDup (map dict_id memories) ->
  In d memories -> In m l -> id m = dict_id d ->
  In (touch now m) (update_access now memories l).
Proof.
  revert l. induction memories as [|d' memories IH]; intros l Hl Hds Hd Hm Hid;
    simpl in *; [contradiction|].
  apply List.NoDup_cons_iff in Hds. destruct Hds as [Hd' Hds].
  destruct Hd as [->|Hd].
  - apply update_access_keeps.
    + rewrite <- Hid. now apply alter_first_touches.
    + simpl. now rewrite Hid.
  - apply IH; auto.
    + now rewrite alter_first_ids.
    + apply alter_first_keeps; [exact Hm|].
      unfold has_id. apply Nat.eqb_neq. intros Heq. apply Hd'.
      rewrite <- Heq, Hid. now apply in_map.
Qed.

Section RetrievalProperties.

Variable get_embedding : string -> option (list float).
Variable embedding_model : bool.
Variable postgresql : bool.
Variable vector_distance : list float -> LongTermMemory -> option float.
Variable vector_search_raises : bool.
Variable ilike : string -> string -> bool.

Lemma base_query_drawn db user threshold now :
  drawn (base_query db user threshold now) (rows db).
Proof. apply drawn_filter, drawn_refl. Qed.

Lemma recent_search_selection db user threshold now limit :
  selection (rows db) limit (recent_search db user threshold now limit).
Proof. apply selection_orm, drawn_order_by, base_query_drawn. Qed.

Lemma simple_search_selection db user threshold now limit :
  selection (rows db) limit (simple_search db user threshold now limit).
Proof. apply selection_orm, drawn_order_by, base_query_drawn. Qed.

Lemma keyword_search_selection db user query threshold now limit :
  selection (rows db) limit (keyword_search ilike db user query threshold now limit).
Proof. apply selection_orm, drawn_order_by, drawn_filter, base_query_drawn. Qed.

Lemma vector_dicts_ids q l ds :
  vector_dicts vector_distance q l = Some ds -> map dict_id ds = map id l.
Proof.
  revert ds. induction l as [|m l IH]; intros ds; simpl.
  - now intros [= <-].
  - destruct (vector_distance q m); [|discriminate].
    destruct (vector_dicts vector_distance q l) as [ds'|]; [|discriminate].
    intros [= <-]. simpl. now rewrite (IH ds').
Qed.

Lemma semantic_search_selection db user query threshold now limit memories :
  semantic_search get_embedding postgresql vector_distance vector_search_raises
    ilike db user query threshold now limit = Some memories ->
  selection (rows db) limit memories.
Proof.
  unfold semantic_search.
  set (found := match get_embedding query with
                | Some (_ :: _ as q) => _
                | _ => _
                end).
  assert (Hfound : forall ds, found = Some ds -> selection (rows db) limit ds).
  { subst found. intros ds.
    destruct (get_embedding query) as [[|x q]|];
      try (intros [= <-]; exists []; simpl; repeat split;
           [lia|apply incl_nil_l|constructor]).
    destruct postgresql;
      [|intros [= <-]; exists []; simpl; repeat split;
        [lia|apply incl_nil_l|constructor]].
    destruct vector_search_raises; [discriminate|].
    intros Hds. apply vector_dicts_ids in Hds.
    eexists. split; [exact Hds|].
    split; [apply firstn_le_length|].
    apply drawn_take, drawn_order_by, drawn_filter, drawn_refl. }
  destruct found as [[|d ds]|]; [| |discriminate].
  - intros [= <-]. apply keyword_search_selection.
  - intros [= <-]. now apply Hfound.
Qed.

(** C7 (amended).  When the call is served from the cache (no query and
    an entry [user:recent] present), the cached list is returned as it is,
    whatever [limit], and neither the table nor the cache changes.  On
    every other path (semantic, keyword fallback, fallback after an
    exception, ranking without a query) the result has at most [limit]
    entries, and for each returned entry the row with that id has had its
    access count incremented and its last-accessed time set to [now]. *)
Theorem retrieval_capped_and_counted
    (db : Session) (cache : Cache) (now : Z) (user : string)
    (query : option string) (limit : nat) (threshold : float)
    (db' : Session) (cache' : Cache) (memories : list MemoryDict) :
  List.NoDup (map id (rows db)) ->
  get_relevant_memories get_embedding embedding_model postgresql vector_distance
    vector_search_raises ilike db cache now user query limit threshold
    = (db', cache', memories) ->
  match (if no_query query then cache_recent user cache else None) with
  | Some cached => memories = cached /\ db' = db /\ cache' = cache
  | None =>
      (length memories <= limit)%nat /\
      forall d, In d memories ->
        exists m m',
          In m (rows db) /\ In m' (rows db') /\
          id m = dict_id d /\ id m' = dict_id d /\
          access_count m' = access_count m + 1 /\
          last_accessed m' = Some now
  end.
Proof.
  intros Hkey. unfold get_relevant_memories.
  destruct (if no_query query then cache_recent user cache else None)
    as [cached|].
  { intros [= <- <- <-]. auto. }
  set (found := match query with Some q => _ | None => _ end).
  assert (Hsel : selection (rows db) limit found).
  { subst found. destruct query as [q|]; [|apply recent_search_selection].
    destruct (negb (Text.is_empty q) && embedding_model);
      [|apply recent_search_selection].
    destruct (semantic_search _ _ _ _ _ _ _ _ _ _ _) as [ds|] eqn:Hsem.
    - eapply semantic_search_selection; eauto.
    - apply simple_search_selection. }
  intros [= <- <- <-].
  split; [eapply selection_length; eauto|].
  destruct Hsel as (sel & Hids & _ & Hincl & Hnd).
  intros d Hd.
  assert (Hin : In (dict_id d) (map id sel)).
  { rewrite <- Hids. now apply in_map. }
  apply in_map_iff in Hin. destruct Hin as (m & Hm & Hmsel).
  exists m, (touch now m). simpl.
  repeat split; auto.
  apply (update_access_touches now found (rows db) d m); auto.
  rewrite Hids. auto.
Qed.

End RetrievalProperties.

Lemma retrieval_capped_and_counted_witness :
  exists db cache db' cache' memories,
    List.NoDup (map id (rows db)) /\
    get_relevant_memories_plain db cache 50 "alice" None 1 0.3%float
      = (db', cache', memories) /\
    (length memories <= 1)%nat /\
    forall d, In d memories ->
      exists m m',
        In m (rows db) /\ In m' (rows db') /\
        id m = dict_id d /\ id m' = dict_id d /\
        access_count m' = access_count m + 1 /\
        last_accessed m' = Some 50.
Proof.
  two_memories ltac:(fun d c =>
    let r := eval vm_compute in
      (get_relevant_memories_plain d c 50 "alice" None 1 0.3%float) in
    lazymatch r with
    | (?d', ?c', ?l) =>
        exists d, c, d', c', l;
        assert (Hkey : List.NoDup (map id (rows d)))
          by (repeat constructor; simpl; intuition discriminate);
        assert (Hrun : get_relevant_memories_plain d c 50 "alice" None 1 0.3%float
                       = (d', c', l))
          by (vm_compute; reflexivity);
        split; [exact Hkey|]; split; [exact Hrun|];
        exact (retrieval_capped_and_counted no_embedding_model false false
                 no_vector_distance false unused_ilike
                 d c 50 "alice" None 1 0.3%float d' c' l Hkey Hrun)
    end).
Defined.

(** C7, counterexample: a read without a query and with limit 5 returns
    the two memories of the user and caches the list; the next read, with
    limit 1, is served from the cache: it returns both entries again and
    leaves every row as it was (no access count incremented, no
    last-accessed time set). *)
Lemma cached_read_exceeds_limit_and_touches_nothing :
  exists db cache db1 cache1 first,
    get_relevant_memories_plain db cache 50 "alice" None 5 0.3%float
      = (db1, cache1, first) /\
    length first = 2%nat /\
    get_relevant_memories_plain db1 cache1 60 "alice" None 1 0.3%float
      = (db1, cache1, first) /\
    map access_count (rows db1) = [2; 2] /\
    map last_accessed (rows db1) = [Some 50; Some 50].
Proof.
  two_memories ltac:(fun d c =>
    let r := eval vm_compute in
      (get_relevant_memories_plain d c 50 "alice" None 5 0.3%float) in
    lazymatch r with
    | (?d', ?c', ?l) => exists d, c, d', c', l
    end).
  repeat apply conj; vm_compute; reflexivity.
Qed.

(** ** Maintenance *)

Lemma kept_of_queried {A B} (p : A -> bool) (f : A -> B) (l : list A) :
  map snd (List.filter (fun '(q, _) => p q) (combine l (map f l)))
  = map f (List.filter p l).
Proof.
  induction l as [|x l IH]; simpl; [reflexivity|].
  destruct (p x); simpl; congruence.
Qed.

Lemma kept_of_held {A} (p : A -> bool) (l : list A) :
  map snd (List.filter (fun '(q, _) => p q) (combine l l)) = List.filter p l.
Proof.
  induction l as [|x l IH]; simpl; [reflexivity|].
  destruct (p x); simpl; congruence.
Qed.



(** ** Persona adaptation *)

Lemma alter_first_found {A} (p : A -> bool) (f : A -> A) l x :
  find p l = Some x -> In (f x) (alter_first p f l).
Proof.
  induction l as [|y l IH]; simpl; [discriminate|].
  destruct (p y).
  - intros [= ->]. now left.
  - intros H. right. auto.
Qed.

Lemma alter_first_Forall {A} (P : A -> Prop) (p : A -> bool) (y : A) l :
  Forall P l -> P y -> Forall P (alter_first p (fun _ => y) l).
Proof.
  intros Hl Hy. induction Hl as [|x l Hx Hl IH]; simpl; [constructor|].
  destruct (p x); constructor; auto.
Qed.

Lemma get_persona_settings_ok table user settings :
  get_persona_settings table user = Ok settings <->
  find (is_persona_of user) table = Some settings.
Proof.
  unfold get_persona_settings.
  destruct (find (is_persona_of user) table) as [found|].
  - split; congruence.
  - destruct (find _ table); split; discriminate.
Qed.

Lemma find_alter_first {A} (p : A -> bool) (f : A -> A) l x :
  find p l = Some x -> p (f x) = true ->
  find p (alter_first p f l) = Some (f x).
Proof.
  intros Hfind Hp. induction l as [|y l IH]; simpl in *; [discriminate|].
  destruct (p y) eqn:Hy.
  - injection Hfind as ->. simpl. now rewrite Hp.
  - simpl. rewrite Hy. auto.
Qed.

(** What a pass that does not raise did. *)
Lemma update_persona_ok list_of_set table user history table' settings' :
  update_persona_from_conversation list_of_set table user history
    = Ok (table', settings') ->
  exists settings,
    find (is_persona_of user) table = Some settings /\
    settings' = adapt list_of_set settings history /\
    table' = alter_first (is_persona_of user) (fun _ => settings') table /\
    is_persona_of user settings' = true.
Proof.
  unfold update_persona_from_conversation.
  destruct (get_persona_settings table user) as [settings|e] eqn:Hget;
    [|discriminate].
  intros [= <- <-]. apply get_persona_settings_ok in Hget.
  exists settings. repeat split; auto.
  apply find_some in Hget. destruct Hget as [_ Howner]. exact Howner.
Qed.

Lemma adapt_trust list_of_set settings history :
  trust_level (adapt list_of_set settings history)
  = if 20 <? Z.of_nat (length history)
    then Z.min 100 (trust_level settings + 10)
    else trust_level settings.
Proof. reflexivity. Qed.

Lemma adapt_topics list_of_set settings history topic :
  (forall l x, In x (list_of_set l) <-> In x l) ->
  In topic (topics_of_interest settings) ->
  In topic (topics_of_interest (adapt list_of_set settings history)).
Proof.
  intros Hset Hin. unfold adapt. cbn [topics_of_interest].
  destruct (detect_topics _ _ _); [exact Hin|].
  destruct (List.list_eq_dec _ _ _); [exact Hin|].
  apply Hset. apply in_or_app. now left.
Qed.

(** C6 (amended).  For a user with a stored row, the adaptation pass
    returns, and the settings it returns are the row then stored for the
    user.  The trust level becomes [min(100, level + 10)] when the history
    has more than 20 entries and is left as it was otherwise: it is never
    decreased when it was at most 100.  Every topic of interest present
    before is present afterwards, [list(set(...))] being taken to
    enumerate the elements of its argument.  For a user without a row the
    pass raises, and nothing is written. *)
Theorem persona_adaptation_is_monotone
    (list_of_set : list string -> list string)
    (table : list PersonaSettings) (user : string)
    (history : list HistoryEntry) :
  (forall l x, In x (list_of_set l) <-> In x l) ->
  match find (is_persona_of user) table with
  | Some settings =>
      exists table' settings',
        update_persona_from_conversation list_of_set table user history
          = Ok (table', settings') /\
        find (is_persona_of user) table' = Some settings' /\
        trust_level settings'
          = (if 20 <? Z.of_nat (length history)
             then Z.min 100 (trust_level settings + 10)
             else trust_level settings) /\
        (trust_level settings <= 100 ->
         trust_level settings <= trust_level settings' <= 100) /\
        (forall topic,
            In topic (topics_of_interest settings) ->
            In topic (topics_of_interest settings'))
  | None =>
      exists e,
        update_persona_from_conversation list_of_set table user history
          = Raise e
  end.
Proof.
  intros Hset. unfold update_persona_from_conversation, get_persona_settings.
  destruct (find (is_persona_of user) table) as [settings|] eqn:Hfind.
  - eexists _, _. split; [reflexivity|].
    assert (Howner : is_persona_of user (adapt list_of_set settings history) = true)
      by (apply find_some in Hfind; destruct Hfind as [_ Howner]; exact Howner).
    split; [exact (find_alter_first _ (fun _ => adapt list_of_set settings history)
                     _ _ Hfind Howner)|].
    split; [apply adapt_trust|].
    split; [|intros topic; now apply adapt_topics].
    rewrite adapt_trust.
    destruct (Z.ltb_spec 20 (Z.of_nat (length history))); lia.
  - destruct (find (is_persona_of "system_default") table); eexists; reflexivity.
Qed.

(** A stored user with trust 95 and a history of 21 messages about code. *)
Lemma persona_adaptation_is_monotone_witness :
  (forall l x, In x (List.nodup String.string_dec l) <-> In x l) /\
  exists table' settings',
    update_persona_from_conversation (List.nodup String.string_dec)
      [ {| persona_user_id := "alice"; preferred_tone := "casual";
           communication_style := "balanced"; topics_of_interest := ["life"];
           dislikes := []; trust_level := 95 |} ]
      "alice"
      (repeat {| h_role := Some "user"; h_content := Some "I write code";
                 h_sentiment := None |} 21)
    = Ok (table', settings') /\
    trust_level settings' = 100 /\
    In "life" (topics_of_interest settings').
Proof.
  assert (Hset : forall l x, In x (List.nodup String.string_dec l) <-> In x l)
    by (intros l x; apply List.nodup_In).
  split; [exact Hset|].
  pose proof (persona_adaptation_is_monotone (List.nodup String.string_dec)
    [ {| persona_user_id := "alice"; preferred_tone := "casual";
         communication_style := "balanced"; topics_of_interest := ["life"];
         dislikes := []; trust_level := 95 |} ]
    "alice"
    (repeat {| h_role := Some "user"; h_content := Some "I write code";
               h_sentiment := None |} 21) Hset) as H.
  cbn [find is_persona_of persona_user_id String.eqb Ascii.eqb Bool.eqb] in H.
  destruct H as (table' & settings' & Hrun & _ & Htrust & _ & Htopics).
  exists table', settings'. split; [exact Hrun|].
  split; [rewrite Htrust; reflexivity|].
  apply Htopics. now left.
Defined.

(** The detected topic is stored when [list(set(...))] comes out in
    another order than the extended list, and lost when it comes out in
    the same order. *)
Example detected_topic_needs_a_changed_list :
  let table :=
    [ {| persona_user_id := "alice"; preferred_tone := "casual";
         communication_style := "balanced"; topics_of_interest := ["life"];
         dislikes := []; trust_level := 50 |} ] in
  let history :=
    [ {| h_role := Some "user"; h_content := Some "I write code";
         h_sentiment := None |} ] in
  update_persona_from_conversation (List.nodup String.string_dec)
    table "alice" history
  = Ok (table, {| persona_user_id := "alice"; preferred_tone := "casual";
                  communication_style := "balanced";
                  topics_of_interest := ["life"];
                  dislikes := []; trust_level := 50 |}) /\
  option_map (fun r => topics_of_interest (snd r))
    (match update_persona_from_conversation
             (fun l => rev (List.nodup String.string_dec l))
             table "alice" history with
     | Ok r => Some r
     | Raise _ => None
     end)
  = Some ["technology"; "life"].
Proof. split; vm_compute; reflexivity. Qed.

(** C6, counterexample.  A stored trust level above 100 is lowered by the
    pass: from 150 to 100, on a history of 21 messages. *)
Lemma trust_above_range_is_lowered :
  exists table' settings',
    update_persona_from_conversation (List.nodup String.string_dec)
      [ {| persona_user_id := "alice"; preferred_tone := "casual";
           communication_style := "balanced"; topics_of_interest := ["life"];
           dislikes := []; trust_level := 150 |} ]
      "alice"
      (repeat {| h_role := Some "user"; h_content := Some "I write code";
                 h_sentiment := None |} 21)
    = Ok (table', settings') /\
    trust_level settings' = 100 /\
    map trust_level table' = [100] /\
    100 < 150.
Proof.
  eexists _, _. split; [reflexivity|].
  repeat apply conj; vm_compute; reflexivity.
Qed.

(** ** Prompt compression *)

(** C9, the code at a failing input.  The prompt built for a message of
    3001 words with one memory of confidence 0.9 is above the ceiling, so
    the compression pass runs.  The memory section writes the bullet as
    the content alone ("- I love hiking"), without the marker
    "(confidence: 0.9" the pass looks for, so the pass drops the bullet of
    this high-confidence memory; it also drops the three bullets of the
    context section, which are no memory lines.  The headers stay. *)
Theorem compression_drops_high_confidence_memory :
  (3000 <? Z.of_nat (length (Text.split_ws
      (PromptEnhancer.full_prompt "10:00 AM" long_message [hiking_memory]
         PromptEnhancer.default_persona [])))) = true /\
  MemoryManager.dict_confidence hiking_memory = 0.9%float /\
  PromptEnhancer.has_line "- I love hiking"
    (PromptEnhancer.full_prompt "10:00 AM" long_message [hiking_memory]
       PromptEnhancer.default_persona []) = true /\
  PromptEnhancer.has_line "- I love hiking"
    (PromptEnhancer.build_prompt "10:00 AM" long_message [hiking_memory]
       PromptEnhancer.default_persona []) = false /\
  PromptEnhancer.has_line "- User emotion: neutral"
    (PromptEnhancer.full_prompt "10:00 AM" long_message [hiking_memory]
       PromptEnhancer.default_persona []) = true /\
  PromptEnhancer.has_line "- User emotion: neutral"
    (PromptEnhancer.build_prompt "10:00 AM" long_message [hiking_memory]
       PromptEnhancer.default_persona []) = false /\
  PromptEnhancer.has_line "- Time of day: 10:00 AM"
    (PromptEnhancer.build_prompt "10:00 AM" long_message [hiking_memory]
       PromptEnhancer.default_persona []) = false /\
  PromptEnhancer.has_line "WHAT YOU KNOW ABOUT THE USER:"
    (PromptEnhancer.build_prompt "10:00 AM" long_message [hiking_memory]
       PromptEnhancer.default_persona []) = true /\
  PromptEnhancer.has_line "PREFERENCE:"
    (PromptEnhancer.build_prompt "10:00 AM" long_message [hiking_memory]
       PromptEnhancer.default_persona []) = true /\
  PromptEnhancer.has_line "- Tone: casual"
    (PromptEnhancer.build_prompt "10:00 AM" long_message [hiking_memory]
       PromptEnhancer.default_persona []) = true.
Proof. repeat apply conj; vm_compute; reflexivity. Qed.

(** After the header, the pass keeps exactly the lines that repeat the
    header, do not start with a dash, or carry one of the two markers. *)
Lemma compress_lines_after_header rest compressed :
  PromptEnhancer.compress_lines rest true compressed
  = compressed ++
    List.filter
      (fun line =>
         Text.contains "WHAT YOU KNOW ABOUT THE USER:" line
         || negb (Text.startswith (Text.strip line) "-")
         || Text.contains "(confidence: 0.8" line
         || Text.contains "(confidence: 0.9" line)
      rest.
Proof.
  revert compressed.
  induction rest as [|line rest IH]; intros compressed;
    cbn [PromptEnhancer.compress_lines List.filter].
  - now rewrite app_nil_r.
  - destruct (Text.contains "WHAT YOU KNOW ABOUT THE USER:" line);
      [rewrite IH, <- app_assoc; reflexivity|].
    destruct (Text.startswith (Text.strip line) "-"); cbn [andb orb negb].
    + destruct (Text.contains "(confidence: 0.8" line); cbn [orb];
        [rewrite IH, <- app_assoc; reflexivity|].
      destruct (Text.contains "(confidence: 0.9" line);
        [rewrite IH, <- app_assoc; reflexivity|apply IH].
    + rewrite IH, <- app_assoc. reflexivity.
Qed.

Lemma compress_drops_unmarked_bullet line rest compressed :
  Text.contains "WHAT YOU KNOW ABOUT THE USER:" line = false ->
  Text.startswith (Text.strip line) "-" = true ->
  Text.contains "(confidence: 0.8" line = false ->
  Text.contains "(confidence: 0.9" line = false ->
  PromptEnhancer.compress_lines (line :: rest) true compressed
  = PromptEnhancer.compress_lines rest true compressed.
Proof.
  intros Hhead Hdash H8 H9. cbn [PromptEnhancer.compress_lines].
  now rewrite Hhead, Hdash, H8, H9.
Qed.

(** ** Chat handlers *)

(** C4 (amended).  When the generation call fails, both handlers return a
    normal response: the reply is the handler's fixed fallback text and
    [model_used] is "fallback".  In [ai_backend] the failure is caught
    around the call alone, and the turn goes on to store the user's
    message when it has more than three words (its first 100 characters
    followed by "...", the list cut to its last 20 entries); a shorter
    message is not stored.  No assistant message is stored. *)
Theorem generation_failure_falls_back
    (groq : string -> Api.Completion) (clock : Api.Clock)
    (request : Api.ChatRequest)
    (st : FixedBackend.State) (user_memories : gmap string (list string)) :
  groq (FixedBackend.prompt
          (default [] (FixedBackend.memories_db st !! Api.user_id request))
          (fst (FixedBackend.detect (Text.lower (Api.message request))))
          (snd (FixedBackend.detect (Text.lower (Api.message request))))
          request) = Api.Failed ->
  groq (AiBackend.prompt
          (default [] (user_memories !! Api.user_id request))
          (AiBackend.detect_emotion (Api.message request))
          (AiBackend.determine_tone (AiBackend.detect_emotion (Api.message request)))
          request) = Api.Failed ->
  (Api.response (snd (FixedBackend.chat groq clock st request))
     = "I'm here to chat with you! Tell me about your day." /\
   Api.model_used (snd (FixedBackend.chat groq clock st request)) = "fallback") /\
  (Api.response (snd (AiBackend.chat (Some groq) clock user_memories request))
     = "I'd love to chat more about that! As a digital artist, I find conversations like this inspiring." /\
   Api.model_used (snd (AiBackend.chat (Some groq) clock user_memories request))
     = "fallback" /\
   fst (AiBackend.chat (Some groq) clock user_memories request)
     !! Api.user_id request
   = Some
       (let memories := default [] (user_memories !! Api.user_id request) in
        if Api.more_than_three_words (Api.message request) then
          let appended :=
            memories ++ [Text.slice_to 100 (Api.message request) +:+ "..."] in
          if 20 <? Z.of_nat (length appended) then Text.last_n 20 appended
          else appended
        else memories)).
Proof.
  intros Hfixed Hai. split.
  - unfold FixedBackend.chat.
    destruct (FixedBackend.detect (Text.lower (Api.message request)))
      as [emotion tone] eqn:Hdetect.
    cbn [fst snd] in Hfixed. rewrite Hfixed. split; reflexivity.
  - unfold AiBackend.chat. rewrite Hai. cbn [fst snd Api.response Api.model_used].
    split; [reflexivity|]. split; [reflexivity|].
    rewrite lookup_insert_eq.
    destruct (Api.more_than_three_words (Api.message request)); reflexivity.
Qed.

Lemma generation_failure_falls_back_witness :
  (Api.response
     (snd (FixedBackend.chat (fun _ => Api.Failed)
             {| Api.isoformat := "2026-01-01T10:00:00";
                Api.timestamp_text := "1767261600.0" |}
             {| FixedBackend.users_db := ∅; FixedBackend.memories_db := ∅ |}
             {| Api.user_id := "alice";
                Api.message := "I really love hiking in the mountains";
                Api.session_id := None |}))
   = "I'm here to chat with you! Tell me about your day.") /\
  fst (AiBackend.chat (Some (fun _ => Api.Failed))
         {| Api.isoformat := "2026-01-01T10:00:00";
            Api.timestamp_text := "1767261600.0" |}
         ∅
         {| Api.user_id := "alice";
            Api.message := "I really love hiking in the mountains";
            Api.session_id := None |})
    !! "alice"
  = Some ["I really love hiking in the mountains..."].
Proof.
  destruct (generation_failure_falls_back (fun _ => Api.Failed)
              {| Api.isoformat := "2026-01-01T10:00:00";
                 Api.timestamp_text := "1767261600.0" |}
              {| Api.user_id := "alice";
                 Api.message := "I really love hiking in the mountains";
                 Api.session_id := None |}
              {| FixedBackend.users_db := ∅; FixedBackend.memories_db := ∅ |}
              ∅ eq_refl eq_refl)
    as ((Hresponse & _) & (_ & _ & Hstored)).
  split; [exact Hresponse|].
  refine (eq_trans Hstored _). vm_compute. reflexivity.
Defined.

(** C4, counterexample: in [ai_backend], a failed turn whose message has
    three words or fewer answers with the fallback and stores nothing:
    the user's message is not persisted. *)
Lemma short_message_is_not_persisted_on_failure :
  Api.model_used
    (snd (AiBackend.chat (Some (fun _ => Api.Failed))
            {| Api.isoformat := "2026-01-01T10:00:00";
               Api.timestamp_text := "1767261600.0" |}
            ∅
            {| Api.user_id := "alice"; Api.message := "I love hiking";
               Api.session_id := None |}))
  = "fallback" /\
  fst (AiBackend.chat (Some (fun _ => Api.Failed))
         {| Api.isoformat := "2026-01-01T10:00:00";
            Api.timestamp_text := "1767261600.0" |}
         ∅
         {| Api.user_id := "alice"; Api.message := "I love hiking";
            Api.session_id := None |})
    !! "alice"
  = Some [].
Proof. split; vm_compute; reflexivity. Qed.

(** The cut to 20 entries belongs to the branch that stores: a list of 25
    entries is left at 25 by a turn whose message is short. *)
Example short_message_leaves_a_long_list :
  length <$>
    (fst (AiBackend.chat None
            {| Api.isoformat := "2026-01-01T10:00:00";
               Api.timestamp_text := "1767261600.0" |}
            (<["alice" := repeat "I really love hiking a lot..." 25]> ∅)
            {| Api.user_id := "alice"; Api.message := "hi";
               Api.session_id := None |})
       !! "alice")
  = Some 25%nat.
Proof. vm_compute. reflexivity. Qed.

(** In [fixed_backend] the failure is caught by the handler's only
    [except] clause, before the memory is written: the failed turn leaves
    [memories_db] as it was. *)
Lemma fixed_backend_failure_stores_nothing
    (groq : string -> Api.Completion) (clock : Api.Clock)
    (request : Api.ChatRequest) (st : FixedBackend.State) :
  groq (FixedBackend.prompt
          (default [] (FixedBackend.memories_db st !! Api.user_id request))
          (fst (FixedBackend.detect (Text.lower (Api.message request))))
          (snd (FixedBackend.detect (Text.lower (Api.message request))))
          request) = Api.Failed ->
  FixedBackend.memories_db (fst (FixedBackend.chat groq clock st request))
  = FixedBackend.memories_db st.
Proof.
  intros Hfixed. unfold FixedBackend.chat.
  destruct (FixedBackend.detect (Text.lower (Api.message request)))
    as [emotion tone] eqn:Hdetect.
  cbn [fst snd] in Hfixed. now rewrite Hfixed.
Qed.

(** * Further properties of the modelled code *)

(** ** Text normalisation *)

Lemma lower_char_idempotent c : Text.lower_char (Text.lower_char c) = Text.lower_char c.
Proof. destruct c as [[] [] [] [] [] [] [] []]; reflexivity. Qed.

Lemma isspace_lower_char c : Text.isspace (Text.lower_char c) = Text.isspace c.
Proof. destruct c as [[] [] [] [] [] [] [] []]; reflexivity. Qed.

Lemma lower_idempotent s : Text.lower (Text.lower s) = Text.lower s.
Proof.
  induction s as [|c s IH]; simpl; [reflexivity|].
  now rewrite lower_char_idempotent, IH.
Qed.

Lemma lower_lstrip s : Text.lower (Text.lstrip s) = Text.lstrip (Text.lower s).
Proof.
  induction s as [|c s IH]; simpl; [reflexivity|].
  rewrite isspace_lower_char. destruct (Text.isspace c); [exact IH|reflexivity].
Qed.

Lemma lower_rstrip s : Text.lower (Text.rstrip s) = Text.rstrip (Text.lower s).
Proof.
  induction s as [|c s IH]; simpl; [reflexivity|].
  rewrite <- IH, isspace_lower_char.
  destruct (Text.rstrip s); simpl; [destruct (Text.isspace c)|]; reflexivity.
Qed.

Lemma lower_strip s : Text.lower (Text.strip s) = Text.strip (Text.lower s).
Proof. unfold Text.strip. now rewrite lower_rstrip, lower_lstrip. Qed.

Lemma rstrip_cons c s :
  Text.rstrip (String c s) =
  if Text.is_empty (Text.rstrip s) && Text.isspace c then EmptyString
  else String c (Text.rstrip s).
Proof.
  simpl. destruct (Text.rstrip s); simpl; [destruct (Text.isspace c)|]; reflexivity.
Qed.

Lemma rstrip_idempotent s : Text.rstrip (Text.rstrip s) = Text.rstrip s.
Proof.
  induction s as [|c s IH]; [reflexivity|].
  rewrite (rstrip_cons c s).
  destruct (Text.is_empty (Text.rstrip s) && Text.isspace c) eqn:Hc; [reflexivity|].
  rewrite (rstrip_cons c (Text.rstrip s)), IH, Hc. reflexivity.
Qed.

Lemma rstrip_cons_nonspace c s :
  Text.isspace c = false ->
  Text.rstrip (String c s) = String c (Text.rstrip s).
Proof. intros Hc. simpl. rewrite Hc. now destruct (Text.rstrip s). Qed.

Lemma lstrip_head s :
  Text.lstrip s = EmptyString \/
  exists c s', Text.lstrip s = String c s' /\ Text.isspace c = false.
Proof.
  induction s as [|c s IH]; simpl; [now left|].
  destruct (Text.isspace c) eqn:Hc; [exact IH|]. right. eauto.
Qed.

Lemma strip_idempotent s : Text.strip (Text.strip s) = Text.strip s.
Proof.
  unfold Text.strip.
  destruct (lstrip_head s) as [->|(c & s' & -> & Hc)]; [reflexivity|].
  rewrite (rstrip_cons_nonspace _ _ Hc). cbn [Text.lstrip]. rewrite Hc.
  now rewrite (rstrip_cons_nonspace _ _ Hc), rstrip_idempotent.
Qed.

(** X1.  The deduplication key ignores case and surrounding white space:
    a content, its stripped form, its lowered form and its normal form
    (lowered, then stripped) all have the same hash for a user. *)
Theorem memory_hash_ignores_case_and_margins (user text : string) :
  calculate_memory_hash user (Text.strip text) = calculate_memory_hash user text /\
  calculate_memory_hash user (Text.lower text) = calculate_memory_hash user text /\
  calculate_memory_hash user (Text.strip (Text.lower text))
    = calculate_memory_hash user text.
Proof.
  unfold calculate_memory_hash. repeat split.
  - now rewrite lower_strip, strip_idempotent.
  - now rewrite lower_idempotent.
  - now rewrite lower_strip, lower_idempotent, strip_idempotent.
Qed.

(** ** Sentences and tuples *)

Lemma all_chars_lstrip P s : all_chars P s = true -> all_chars P (Text.lstrip s) = true.
Proof.
  induction s as [|c s IH]; simpl; [auto|].
  intros H. apply andb_prop in H. destruct H as [Hc Hs].
  destruct (Text.isspace c); [auto|]. simpl. now rewrite Hc, Hs.
Qed.

Lemma all_chars_rstrip P s : all_chars P s = true -> all_chars P (Text.rstrip s) = true.
Proof.
  induction s as [|c s IH]; [auto|].
  cbn [all_chars]. intros H. apply andb_prop in H. destruct H as [Hc Hs].
  rewrite rstrip_cons.
  destruct (Text.is_empty (Text.rstrip s) && Text.isspace c); [reflexivity|].
  cbn [all_chars]. now rewrite Hc, IH.
Qed.

Lemma all_chars_strip P s : all_chars P s = true -> all_chars P (Text.strip s) = true.
Proof. intros H. now apply all_chars_rstrip, all_chars_lstrip. Qed.

Lemma all_chars_push P c pieces :
  P c = true -> Forall (fun p => all_chars P p = true) pieces ->
  Forall (fun p => all_chars P p = true) (Text.push c pieces).
Proof.
  intros Hc Hp. destruct Hp as [|p pieces Hp Hps]; simpl.
  - constructor; [simpl; now rewrite Hc|constructor].
  - constructor; [simpl; now rewrite Hc, Hp|exact Hps].
Qed.

(** The pieces between terminal marks keep the other characters of the
    text. *)
Lemma re_split_terminals_pieces P s :
  all_chars (fun c => Text.is_terminal c || P c) s = true ->
  Forall (fun p => all_chars P p = true) (Text.re_split_terminals s).
Proof.
  intros Hs. induction s as [|c s IH]; simpl.
  - constructor; [reflexivity|constructor].
  - simpl in Hs. apply andb_prop in Hs. destruct Hs as [Hc Hs].
    specialize (IH Hs).
    destruct (Text.is_terminal c) eqn:Ht.
    + destruct (Text.starts_terminal s); [exact IH|].
      constructor; [reflexivity|exact IH].
    + apply all_chars_push; [exact Hc|exact IH].
Qed.

Lemma all_chars_true s : all_chars (fun _ => true) s = true.
Proof. induction s; simpl; auto. Qed.

Lemma all_chars_impl (P Q : ascii -> bool) s :
  (forall c, P c = true -> Q c = true) ->
  all_chars P s = true -> all_chars Q s = true.
Proof.
  intros HPQ. induction s as [|c s IH]; simpl; [auto|].
  intros H. apply andb_prop in H. destruct H as [Hc Hs].
  now rewrite (HPQ c Hc), IH.
Qed.

Lemma re_split_terminals_no_terminal s :
  Forall (fun p => all_chars (fun c => negb (Text.is_terminal c)) p = true)
         (Text.re_split_terminals s).
Proof.
  apply re_split_terminals_pieces.
  apply (all_chars_impl (fun _ => true)); [|apply all_chars_true].
  intros c _. now destruct (Text.is_terminal c).
Qed.

Lemma in_split_into_sentences text sentence :
  In sentence (_split_into_sentences text) <->
  exists piece,
    In piece (Text.re_split_terminals text) /\
    sentence = Text.strip piece /\ sentence <> EmptyString.
Proof.
  unfold _split_into_sentences. rewrite filter_In, in_map_iff. split.
  - intros [(piece & <- & Hp) Hne]. exists piece. repeat split; auto.
    intros Heq. rewrite Heq in Hne. discriminate.
  - intros (piece & Hp & -> & Hne). split; [eauto|].
    destruct (Text.strip piece); [congruence|reflexivity].
Qed.

(** X2.  Every sentence handed to the classifier is non-empty, has no
    white space at either end (stripping it again changes nothing) and
    contains none of the terminal marks '.', '!' and '?'. *)
Theorem sentences_are_trimmed_and_unpunctuated (text : string) :
  Forall (fun sentence =>
            sentence <> EmptyString /\
            Text.strip sentence = sentence /\
            all_chars (fun c => negb (Text.is_terminal c)) sentence = true)
         (_split_into_sentences text).
Proof.
  apply List.Forall_forall. intros sentence Hin.
  apply in_split_into_sentences in Hin.
  destruct Hin as (piece & Hp & -> & Hne).
  split; [exact Hne|]. split; [apply strip_idempotent|].
  apply all_chars_strip.
  pose proof (re_split_terminals_no_terminal text) as Hall.
  apply (proj1 (List.Forall_forall _ _) Hall). exact Hp.
Qed.

Lemma lstrip_blank s :
  all_chars Text.isspace s = true -> Text.lstrip s = EmptyString.
Proof.
  induction s as [|c s IH]; simpl; [auto|].
  intros H. apply andb_prop in H. destruct H as [Hc Hs]. now rewrite Hc, IH.
Qed.

Lemma split_blank_text text :
  all_chars (fun c => Text.is_terminal c || Text.isspace c) text = true ->
  _split_into_sentences text = [].
Proof.
  intros Hblank.
  assert (Hpieces : Forall (fun p => all_chars Text.isspace p = true)
                           (Text.re_split_terminals text)).
  { apply re_split_terminals_pieces. exact Hblank. }
  unfold _split_into_sentences.
  induction Hpieces as [|p pieces Hp _ IH]; simpl; [reflexivity|].
  unfold Text.strip at 1. now rewrite (lstrip_blank p Hp).
Qed.

Section BlankInput.

Variable get_embedding : string -> option (list float).

(** X3.  A message made only of white space and terminal marks (the empty
    message included) has no sentence: the classifier emits nothing for
    it, and the extract-and-store pass returns 0 and leaves the table and
    the cache as they were, whatever the generated reply. *)
Theorem blank_message_stores_nothing
    (db : Session) (cache : Cache) (now : Z)
    (user user_message ai_response source : string)
    (conversation : option string) :
  all_chars (fun c => Text.is_terminal c || Text.isspace c) user_message = true ->
  _split_into_sentences user_message = [] /\
  _analyze_text_for_memories user_message source = [] /\
  extract_and_store_memories get_embedding db cache now user
    user_message ai_response conversation = Ok (db, cache, 0).
Proof.
  intros Hblank. pose proof (split_blank_text _ Hblank) as Hnone.
  assert (Hempty : forall src, _analyze_text_for_memories user_message src = []).
  { intros src. rewrite analyze_closed_form, Hnone. reflexivity. }
  split; [exact Hnone|]. split; [apply Hempty|].
  unfold extract_and_store_memories, memories_to_store.
  rewrite Hempty. cbn [app].
  apply store_unique_rejected.
  apply List.Forall_map.
  eapply List.Forall_impl; [|apply assistant_confidence].
  intros [[mtype text] conf]; simpl. intros ->. reflexivity.
Qed.

End BlankInput.

Lemma blank_message_stores_nothing_witness :
  all_chars (fun c => Text.is_terminal c || Text.isspace c) " ...  ?! " = true /\
  _analyze_text_for_memories " ...  ?! " "user" = [] /\
  extract_and_store_memories no_embedding_model SessionLocal [] 5 "alice"
    " ...  ?! " "I love that. I am happy for you!" None
  = Ok (SessionLocal, [], 0).
Proof.
  assert (H : all_chars (fun c => Text.is_terminal c || Text.isspace c) " ...  ?! "
              = true) by reflexivity.
  split; [exact H|].
  exact (proj2 (blank_message_stores_nothing no_embedding_model SessionLocal [] 5
                  "alice" " ...  ?! " "I love that. I am happy for you!" "user"
                  None H)).
Defined.

Lemma match_confidence_values source sentence_lower :
  In (match_confidence source sentence_lower) [0.9%float; 0.6%float; 0.5%float].
Proof.
  unfold match_confidence.
  destruct (String.eqb source "user"); [|simpl; tauto].
  destruct (_ || _); simpl; tauto.
Qed.

(** X4.  Every tuple the classifier emits has one of the five categories
    of the table, one of the sentences of the text as content, and one of
    the confidences 0.9, 0.6 and 0.5. *)
Theorem extracted_tuples_are_well_formed (text source : string) :
  Forall (fun t : Extracted =>
            In (fst (fst t)) table_categories /\
            In (snd (fst t)) (_split_into_sentences text) /\
            In (snd t) [0.9%float; 0.6%float; 0.5%float])
         (_analyze_text_for_memories text source).
Proof.
  apply List.Forall_forall. intros [[category text'] conf] Hin. simpl.
  pose proof Hin as Hin'.
  rewrite analyze_closed_form, in_flat_map in Hin.
  destruct Hin as (sentence & Hs & Hin).
  unfold sentence_memories in Hin. apply in_map_iff in Hin.
  destruct Hin as (entry & [= <- <- <-] & Hentry).
  apply filter_In in Hentry. destruct Hentry as [Hentry _].
  pose proof (sentences_are_trimmed_and_unpunctuated text) as Hall.
  pose proof (proj1 (List.Forall_forall _ _) Hall sentence Hs) as (_ & Hstrip & _).
  split; [|split].
  - unfold memory_categories in Hentry. simpl in Hentry.
    unfold table_categories. simpl.
    repeat (destruct Hentry as [<-|Hentry]; [simpl; tauto|]). contradiction.
  - now rewrite Hstrip.
  - apply match_confidence_values.
Qed.

(** ** Categories *)

Lemma first_category_in table text cat :
  first_category table text = Some cat -> In cat (map fst table).
Proof.
  induction table as [|[c config] table IH]; simpl; [discriminate|].
  destruct (Text.any_in (keywords config) text).
  - intros [= ->]. now left.
  - intros H. right. auto.
Qed.

Lemma first_category_some table text entry :
  In entry table -> Text.any_in (keywords (snd entry)) text = true ->
  exists cat, first_category table text = Some cat.
Proof.
  induction table as [|[c config] table IH]; simpl; [contradiction|].
  intros Hin Hmatch.
  destruct (Text.any_in (keywords config) text) eqn:Hc; [eauto|].
  destruct Hin as [<-|Hin]; [simpl in Hmatch; congruence|auto].
Qed.

Lemma lifespan_of_values cat :
  In (lifespan_of cat) [365; 730; 180; 90; 30].
Proof.
  unfold lifespan_of, memory_categories. cbn [lookup_lifespan lifespan_days].
  repeat match goal with
         | |- context [String.eqb ?a cat] => destruct (String.eqb a cat)
         end; simpl; tauto.
Qed.

(** X5.  [_categorize_memory] always answers with one of six categories
    (the five of the table, or "general"), so the lifespan looked up for a
    row that it categorises is one of 365, 730, 180, 90 and 30 days; and
    any category at all, known or not, has a lifespan of at least 30 days. *)
Theorem categorize_memory_range (text mtype cat : string) :
  In (_categorize_memory text mtype) row_categories /\
  In (lifespan_of (_categorize_memory text mtype)) [365; 730; 180; 90; 30] /\
  30 <= lifespan_of cat.
Proof.
  split; [|split].
  - unfold _categorize_memory.
    destruct (first_category memory_categories (Text.lower text)) as [c|] eqn:Hc.
    + apply first_category_in in Hc. unfold row_categories, table_categories.
      simpl in *. tauto.
    + unfold type_to_category.
      destruct (existsb _ _) eqn:He; [|unfold row_categories; simpl; tauto].
      apply existsb_exists in He. destruct He as (c & Hc' & Heq).
      apply String.eqb_eq in Heq. subst c.
      unfold row_categories, table_categories. simpl in *. tauto.
  - apply lifespan_of_values.
  - pose proof (lifespan_of_values cat) as H. simpl in H.
    destruct H as [H|[H|[H|[H|[H|[]]]]]]; lia.
Qed.

(** X6.  The category stored with an extracted tuple is decided by the
    keywords alone: the content of every tuple contains a keyword of the
    table, so [_categorize_memory] gives it the first category of the
    table with a keyword in it, whatever memory type the tuple carries. *)
Theorem extracted_tuple_category
    (text source category content : string) (conf : float) :
  In (category, content, conf) (_analyze_text_for_memories text source) ->
  exists first,
    first_category memory_categories (Text.lower content) = Some first /\
    In first table_categories /\
    forall mtype, _categorize_memory content mtype = first.
Proof.
  intros Hin.
  rewrite analyze_closed_form, in_flat_map in Hin.
  destruct Hin as (sentence & Hs & Hin).
  unfold sentence_memories in Hin. apply in_map_iff in Hin.
  destruct Hin as (entry & [= <- <- <-] & Hentry).
  apply filter_In in Hentry. destruct Hentry as [Hentry Hmatch].
  pose proof (sentences_are_trimmed_and_unpunctuated text) as Hall.
  pose proof (proj1 (List.Forall_forall _ _) Hall sentence Hs) as (_ & Hstrip & _).
  rewrite Hstrip. unfold category_matches in Hmatch.
  destruct (first_category_some _ _ _ Hentry Hmatch) as (first & Hfirst).
  exists first. split; [exact Hfirst|]. split.
  - apply first_category_in in Hfirst. exact Hfirst.
  - intros mtype. unfold _categorize_memory. now rewrite Hfirst.
Qed.

Lemma extracted_tuple_category_witness :
  In ("emotion", "I love hiking and feel happy", 0.9%float)
     (_analyze_text_for_memories "I love hiking and feel happy." "user") /\
  exists first,
    first_category memory_categories (Text.lower "I love hiking and feel happy")
      = Some first /\
    In first table_categories /\
    forall mtype, _categorize_memory "I love hiking and feel happy" mtype = first.
Proof.
  assert (H : In ("emotion", "I love hiking and feel happy", 0.9%float)
                 (_analyze_text_for_memories "I love hiking and feel happy." "user"))
    by (right; left; reflexivity).
  split; [exact H|].
  exact (extracted_tuple_category "I love hiking and feel happy." "user" "emotion"
           "I love hiking and feel happy" 0.9%float H).
Defined.

(** ** Keys and isolation *)

Lemma map_alter_first {A B} (f : A -> B) (p : A -> bool) (g : A -> A) l :
  (forall x, f (g x) = f x) -> map f (alter_first p g l) = map f l.
Proof.
  intros Hfg. induction l as [|x l IH]; simpl; [reflexivity|].
  destruct (p x); simpl; [now rewrite Hfg|now rewrite IH].
Qed.

Lemma Forall_alter_first {A} (P : A -> Prop) (p : A -> bool) (g : A -> A) l :
  (forall x, P x -> P (g x)) -> Forall P l -> Forall P (alter_first p g l).
Proof.
  intros Hg Hl. induction Hl as [|x l Hx Hl IH]; simpl; [constructor|].
  destruct (p x); constructor; auto.
Qed.

Lemma in_alter_first {A} (p : A -> bool) (g : A -> A) l x y :
  find p l = Some x -> In y (alter_first p g l) -> y = g x \/ In y l.
Proof.
  induction l as [|z l IH]; simpl; [discriminate|].
  destruct (p z).
  - intros [= ->] [<-|Hin]; auto.
  - intros Hfind [<-|Hin]; [auto|]. destruct (IH Hfind Hin); auto.
Qed.

Lemma map_update_access {B} (f : LongTermMemory -> B) now memories l :
  (forall m, f (touch now m) = f m) ->
  map f (update_access now memories l) = map f l.
Proof.
  intros Hf. revert l. induction memories as [|d memories IH]; intros l; simpl.
  - reflexivity.
  - rewrite IH. now apply map_alter_first.
Qed.

Lemma Forall_update_access (P : LongTermMemory -> Prop) now memories l :
  (forall m, P m -> P (touch now m)) ->
  Forall P l -> Forall P (update_access now memories l).
Proof.
  intros HP. revert l. induction memories as [|d memories IH]; intros l Hl; simpl.
  - exact Hl.
  - apply IH. now apply Forall_alter_first.
Qed.

Lemma NoDup_map_filter {A B} (f : A -> B) (p : A -> bool) l :
  List.NoDup (map f l) -> List.NoDup (map f (List.filter p l)).
Proof.
  induction l as [|x l IH]; simpl; [auto|].
  intros Hnd. apply List.NoDup_cons_iff in Hnd. destruct Hnd as [Hx Hnd].
  destruct (p x); simpl; [|auto].
  constructor; [|auto].
  intros Hin. apply Hx. apply in_map_iff in Hin.
  destruct Hin as (y & Hy & Hin). apply filter_In in Hin.
  apply in_map_iff. exists y. tauto.
Qed.

Lemma Forall_filter {A} (P : A -> Prop) (p : A -> bool) l :
  Forall P l -> Forall P (List.filter p l).
Proof.
  intros Hl. induction Hl as [|x l Hx Hl IH]; simpl; [constructor|].
  destruct (p x); [constructor|]; auto.
Qed.

(** The rows the sweep leaves, in closed form. *)
Lemma cleanup_rows db now days_old :
  rows (fst (cleanup_old_memories db now days_old)) =
  if autoflush db then
    List.filter (fun m => negb (expired_active now m))
      (map (archive_if_old (now - timedelta_days days_old) now) (rows db))
  else
    map (archive_if_old (now - timedelta_days days_old) now)
      (List.filter (fun m => negb (expired_active now m)) (rows db)).
Proof.
  unfold cleanup_old_memories. cbn [fst rows with_rows].
  destruct (autoflush db).
  - apply (kept_of_held (fun m => negb (expired_active now m))).
  - apply (kept_of_queried (fun m => negb (expired_active now m))).
Qed.

Lemma archive_if_old_column {B} (f : LongTermMemory -> B) cutoff now :
  (forall m, f (archive now m) = f m) ->
  forall m, f (archive_if_old cutoff now m) = f m.
Proof.
  intros Hf m. unfold archive_if_old.
  destruct (old_low_confidence cutoff m); [apply Hf|reflexivity].
Qed.

Section KeyProperties.

Variable get_embedding : string -> option (list float).
Variable embedding_model : bool.
Variable postgresql : bool.
Variable vector_distance : list float -> LongTermMemory -> option float.
Variable vector_search_raises : bool.
Variable ilike : string -> string -> bool.

Lemma store_memory_keeps_keys db cache now user mtype text conf source cat imp
    db' cache' m :
  well_keyed db ->
  store_memory get_embedding db cache now user mtype text conf source cat imp
    = Ok (db', cache', m) ->
  well_keyed db'.
Proof.
  intros (Hid & Hsupply & Hhash).
  set (hash := calculate_memory_hash user text).
  destruct (find (same_key user hash) (rows db)) as [existing|] eqn:Hfind.
  - rewrite (store_memory_merge _ _ _ _ _ _ _ _ _ _ _ existing Hfind).
    intros [= <- <- <-]. unfold well_keyed. cbn [rows uuid_supply with_rows].
    rewrite !map_alter_first by reflexivity.
    split; [exact Hid|]. split; [|exact Hhash].
    apply Forall_alter_first; [|exact Hsupply]. intros x Hx. exact Hx.
  - unfold store_memory. fold hash. rewrite Hfind.
    destruct (existsb _ (rows db)) eqn:Hclash; [discriminate|].
    intros [= <- <- <-]. unfold well_keyed. cbn [rows uuid_supply].
    rewrite !map_app. cbn [map id memory_hash].
    pose proof (proj1 (List.Forall_forall _ _) Hsupply) as Hlt.
    split; [|split].
    + apply List.NoDup_app; [exact Hid|repeat constructor; simpl; tauto|].
      intros i Hi [<-|[]]. apply in_map_iff in Hi.
      destruct Hi as (r & Hr & Hin). specialize (Hlt r Hin).
      cbv beta in Hlt. simpl in Hr. lia.
    + apply List.Forall_app. split.
      * eapply List.Forall_impl; [|exact Hsupply]. intros r Hr. simpl in Hr. lia.
      * constructor; [simpl; lia|constructor].
    + apply List.NoDup_app; [exact Hhash|repeat constructor; simpl; tauto|].
      intros h Hh [<-|[]]. apply in_map_iff in Hh.
      destruct Hh as (r & Hr & Hin).
      assert (Hex : existsb (fun m0 => String.eqb (memory_hash m0) hash) (rows db) = true).
      { apply existsb_exists. exists r. split; [exact Hin|].
        rewrite Hr. apply String.eqb_refl. }
      congruence.
Qed.

(** X7.  Every operation of the manager on the memory table keeps its
    keys: if the primary keys are distinct and drawn from the supply and
    no two rows share a hash, the same holds after a write that returns,
    after a read, and after a sweep. *)
Theorem manager_keeps_keys
    (db : Session) (cache : Cache) (now : Z)
    (user mtype text : string) (conf : float)
    (source cat : option string) (imp : float)
    (query : option string) (limit : nat) (threshold : float) (days_old : Z) :
  well_keyed db ->
  match store_memory get_embedding db cache now user mtype text conf source cat imp with
  | Ok (db', _, _) => well_keyed db'
  | Raise _ => True
  end /\
  well_keyed
    (fst (fst (get_relevant_memories get_embedding embedding_model postgresql
                 vector_distance vector_search_raises ilike
                 db cache now user query limit threshold))) /\
  well_keyed (fst (cleanup_old_memories db now days_old)).
Proof.
  intros Hkeys. split; [|split].
  - destruct (store_memory _ _ _ _ _ _ _ _ _ _ _) as [[[db' cache'] m]|e] eqn:Hstore;
      [|exact I].
    eapply store_memory_keeps_keys; eauto.
  - unfold get_relevant_memories.
    destruct (if no_query query then cache_recent user cache else None);
      [exact Hkeys|].
    destruct Hkeys as (Hid & Hsupply & Hhash).
    unfold well_keyed. cbn [fst rows uuid_supply with_rows].
    rewrite !map_update_access by reflexivity.
    split; [exact Hid|]. split; [|exact Hhash].
    apply Forall_update_access; [|exact Hsupply]. intros x Hx. exact Hx.
  - destruct Hkeys as (Hid & Hsupply & Hhash).
    unfold well_keyed. rewrite cleanup_rows.
    assert (Hsame : uuid_supply (fst (cleanup_old_memories db now days_old))
                    = uuid_supply db) by reflexivity.
    rewrite Hsame. clear Hsame.
    set (shelve := archive_if_old (now - timedelta_days days_old) now).
    assert (Hcol_id : forall m, id (shelve m) = id m)
      by (apply archive_if_old_column; reflexivity).
    assert (Hcol_hash : forall m, memory_hash (shelve m) = memory_hash m)
      by (apply archive_if_old_column; reflexivity).
    destruct (autoflush db).
    + split; [|split].
      * apply NoDup_map_filter. rewrite map_map.
        rewrite (map_ext _ id Hcol_id). exact Hid.
      * apply Forall_filter. apply List.Forall_map.
        eapply List.Forall_impl; [|exact Hsupply].
        intros m Hm. simpl. now rewrite Hcol_id.
      * apply NoDup_map_filter. rewrite map_map.
        rewrite (map_ext _ memory_hash Hcol_hash). exact Hhash.
    + split; [|split].
      * rewrite map_map. rewrite (map_ext _ id Hcol_id).
        now apply NoDup_map_filter.
      * apply List.Forall_map. apply Forall_filter.
        eapply List.Forall_impl; [|exact Hsupply].
        intros m Hm. simpl. now rewrite Hcol_id.
      * rewrite map_map. rewrite (map_ext _ memory_hash Hcol_hash).
        now apply NoDup_map_filter.
Qed.

(** X8.  A write touches one record only: every row that does not carry
    the key of the write (the user and the hash of the content), rows of
    other users in particular, is in the table afterwards as it was; and
    every row of the table afterwards is either the record the call
    returns or a row that was there before. *)
Theorem store_memory_touches_one_record
    (db : Session) (cache : Cache) (now : Z)
    (user mtype text : string) (conf : float)
    (source cat : option string) (imp : float)
    (db' : Session) (cache' : Cache) (m : LongTermMemory) :
  store_memory get_embedding db cache now user mtype text conf source cat imp
    = Ok (db', cache', m) ->
  (forall r, In r (rows db) ->
             same_key user (calculate_memory_hash user text) r = false ->
             In r (rows db')) /\
  (forall r, In r (rows db) -> user_id r <> user -> In r (rows db')) /\
  (forall r, In r (rows db') -> r = m \/ In r (rows db)).
Proof.
  set (hash := calculate_memory_hash user text).
  intros Hstore.
  assert (Hkeep : forall r, In r (rows db) -> same_key user hash r = false ->
                            In r (rows db')).
  { destruct (find (same_key user hash) (rows db)) as [existing|] eqn:Hfind.
    - rewrite (store_memory_merge _ _ _ _ _ _ _ _ _ _ _ existing Hfind) in Hstore.
      injection Hstore as <- <- <-. intros r Hr Hkey. simpl.
      now apply alter_first_keeps.
    - destruct (store_memory_insert _ _ _ _ _ _ _ _ _ _ _ _ Hfind Hstore)
        as (m' & [= -> -> ->] & _).
      intros r Hr _. simpl. apply in_or_app. now left. }
  split; [exact Hkeep|]. split.
  - intros r Hr Huser. apply Hkeep; [exact Hr|].
    unfold same_key. destruct (String.eqb_spec (user_id r) user); [contradiction|].
    reflexivity.
  - destruct (find (same_key user hash) (rows db)) as [existing|] eqn:Hfind.
    + rewrite (store_memory_merge _ _ _ _ _ _ _ _ _ _ _ existing Hfind) in Hstore.
      injection Hstore as <- <- <-. intros r Hr. simpl in Hr.
      apply (in_alter_first _ _ _ _ _ Hfind Hr).
    + destruct (store_memory_insert _ _ _ _ _ _ _ _ _ _ _ _ Hfind Hstore)
        as (m' & [= -> -> ->] & _).
      intros r Hr. simpl in Hr. apply in_app_or in Hr.
      destruct Hr as [Hr|[<-|[]]]; auto.
Qed.

End KeyProperties.

Lemma manager_keeps_keys_witness :
  exists (db : Session) (cache : Cache),
    well_keyed db /\
    length (rows db) = 2%nat /\
    well_keyed
      (fst (fst (get_relevant_memories_plain db cache 50 "alice" None 1 0.3%float))) /\
    well_keyed (fst (cleanup_old_memories db 50 90)).
Proof.
  two_memories ltac:(fun d c =>
    exists d, c;
    assert (Hkeys : well_keyed d)
      by (vm_compute; repeat apply conj; repeat constructor;
          simpl; intuition discriminate);
    pose proof (manager_keeps_keys no_embedding_model false false
                  no_vector_distance false unused_ilike
                  d c 50 "alice" "fact" "I have a dog" 0.9%float None None
                  0.5%float None 1 0.3%float 90 Hkeys) as H).
  destruct H as (_ & Hread & Hsweep).
  split; [exact Hkeys|]. split; [reflexivity|]. split; [exact Hread|exact Hsweep].
Defined.

Lemma store_memory_touches_one_record_witness :
  exists (db : Session) (cache : Cache) db' cache' m,
    store_memory no_embedding_model db cache 7
      "bob" "fact" "I work from home" 0.9%float None None 0.5%float
      = Ok (db', cache', m) /\
    length (rows db) = 2%nat /\
    (forall r, In r (rows db) -> user_id r <> "bob" -> In r (rows db')) /\
    (forall r, In r (rows db') -> r = m \/ In r (rows db)).
Proof.
  two_memories ltac:(fun d c =>
    run_store
      (store_memory no_embedding_model d c 7
         "bob" "fact" "I work from home" 0.9%float None None 0.5%float)
      ltac:(fun d' c' m =>
        exists d, c, d', c', m;
        assert (Hrun : store_memory no_embedding_model d c 7
                         "bob" "fact" "I work from home" 0.9%float None None 0.5%float
                       = Ok (d', c', m))
          by (vm_compute; reflexivity);
        split; [exact Hrun|]; split; [reflexivity|];
        pose proof (store_memory_touches_one_record no_embedding_model
                      d c 7 "bob" "fact" "I work from home" 0.9%float None None
                      0.5%float d' c' m Hrun) as H)).
  destruct H as (_ & Hothers & Hnew). split; [exact Hothers|exact Hnew].
Defined.

(** ** What a read returns and what it leaves alone *)

Lemma in_take_order_by {A} (before : A -> A -> bool) n l x :
  In x (take n (order_by before l)) -> In x l.
Proof.
  intros Hin. apply (Permutation_in _ (order_by_perm before l)).
  rewrite <- (firstn_skipn n (order_by before l)). apply in_or_app. now left.
Qed.

Lemma vector_dicts_backed vector_distance q l ds :
  vector_dicts vector_distance q l = Some ds ->
  Forall (fun d => exists m, In m l /\ dict_id d = id m /\
                     dict_content d = content m /\
                     dict_category d = category m /\
                     dict_confidence d = confidence m) ds.
Proof.
  revert ds. induction l as [|m l IH]; intros ds; simpl.
  - intros [= <-]. constructor.
  - destruct (vector_distance q m); [|discriminate].
    destruct (vector_dicts vector_distance q l) as [ds'|]; [|discriminate].
    intros [= <-]. constructor.
    + exists m. simpl. auto.
    + eapply List.Forall_impl; [|apply IH; reflexivity].
      intros d (m' & Hin & H). exists m'. split; [now right|exact H].
Qed.

Section ReadProperties.

Variable get_embedding : string -> option (list float).
Variable embedding_model : bool.
Variable postgresql : bool.
Variable vector_distance : list float -> LongTermMemory -> option float.
Variable vector_search_raises : bool.
Variable ilike : string -> string -> bool.

Lemma eligible_backs pg db user threshold now (sel : list LongTermMemory) :
  (forall m, In m sel -> In m (base_query db user threshold now)) ->
  Forall (backed_by pg db user threshold now) (map _memory_to_dict sel).
Proof.
  intros Hsel. apply List.Forall_forall. intros d Hd.
  apply in_map_iff in Hd. destruct Hd as (m & <- & Hm).
  specialize (Hsel m Hm). unfold base_query in Hsel.
  apply filter_In in Hsel. destruct Hsel as [Hin Hel].
  unfold eligible in Hel.
  apply andb_prop in Hel. destruct Hel as [Hel Hexp].
  apply andb_prop in Hel. destruct Hel as [Hel Hconf].
  apply andb_prop in Hel. destruct Hel as [Huser Hact].
  apply String.eqb_eq in Huser.
  exists m. simpl. repeat split; auto.
Qed.

Lemma recent_search_backs pg db user threshold now limit :
  Forall (backed_by pg db user threshold now)
         (recent_search db user threshold now limit).
Proof. apply eligible_backs. intros m Hm. eapply in_take_order_by; eauto. Qed.

Lemma simple_search_backs pg db user threshold now limit :
  Forall (backed_by pg db user threshold now)
         (simple_search db user threshold now limit).
Proof. apply eligible_backs. intros m Hm. eapply in_take_order_by; eauto. Qed.

Lemma keyword_search_backs pg db user query threshold now limit :
  Forall (backed_by pg db user threshold now)
         (keyword_search ilike db user query threshold now limit).
Proof.
  apply eligible_backs. intros m Hm. apply in_take_order_by in Hm.
  apply filter_In in Hm. tauto.
Qed.

Lemma semantic_search_backs db user query threshold now limit memories :
  semantic_search get_embedding postgresql vector_distance vector_search_raises
    ilike db user query threshold now limit = Some memories ->
  Forall (backed_by postgresql db user threshold now) memories.
Proof.
  unfold semantic_search.
  destruct (get_embedding query) as [[|x q]|];
    try (intros [= <-]; apply keyword_search_backs).
  destruct postgresql eqn:Hpg;
    [|intros [= <-]; apply keyword_search_backs].
  destruct vector_search_raises; [discriminate|].
  match goal with
  | |- context [vector_dicts ?a ?b ?c] =>
      destruct (vector_dicts a b c) as [[|d ds]|] eqn:Hds
  end; [| |discriminate].
  - intros [= <-]. apply keyword_search_backs.
  - intros [= <-]. apply vector_dicts_backed in Hds.
    eapply List.Forall_impl; [|exact Hds].
    intros d' (m & Hin & Hid & Hc & Hcat & Hconf).
    unfold vector_rows in Hin. apply in_take_order_by in Hin.
    apply filter_In in Hin. destruct Hin as [Hin Hel].
    apply andb_prop in Hel. destruct Hel as [Hel Hthr].
    apply andb_prop in Hel. destruct Hel as [Huser Hact].
    apply String.eqb_eq in Huser.
    exists m. repeat split; auto. discriminate.
Qed.

(** X9.  A read that is not served from the cache returns entries of the
    user's own eligible rows only: behind every entry there is a row of
    the table that belongs to the user, is active and has a confidence at
    or above the threshold, and the entry shows that row's id, content,
    category and confidence.  On an engine other than PostgreSQL (no
    vector statement) the row is also unexpired. *)
Theorem read_returns_own_eligible_rows
    (db : Session) (cache : Cache) (now : Z) (user : string)
    (query : option string) (limit : nat) (threshold : float) :
  (if no_query query then cache_recent user cache else None) = None ->
  Forall
    (fun d =>
       exists m,
         In m (rows db) /\ user_id m = user /\ is_active m = true /\
         PrimFloat.leb threshold (confidence m) = true /\
         (postgresql = false -> unexpired now m = true) /\
         dict_id d = id m /\ dict_content d = content m /\
         dict_category d = category m /\ dict_confidence d = confidence m)
    (snd (get_relevant_memories get_embedding embedding_model postgresql
            vector_distance vector_search_raises ilike
            db cache now user query limit threshold)).
Proof.
  intros Hmiss. unfold get_relevant_memories. rewrite Hmiss. cbn [snd].
  change (Forall (backed_by postgresql db user threshold now)
            match query with
            | Some q =>
                if negb (Text.is_empty q) && embedding_model
                then
                  match
                    semantic_search get_embedding postgresql vector_distance
                      vector_search_raises ilike db user q threshold now limit
                  with
                  | Some memories => memories
                  | None => simple_search db user threshold now limit
                  end
                else recent_search db user threshold now limit
            | None => recent_search db user threshold now limit
            end).
  destruct query as [q|]; [|apply recent_search_backs].
  destruct (negb (Text.is_empty q) && embedding_model);
    [|apply recent_search_backs].
  destruct (semantic_search _ _ _ _ _ _ _ _ _ _ _) as [ds|] eqn:Hsem.
  - eapply semantic_search_backs; eauto.
  - apply simple_search_backs.
Qed.

(** X10.  A read never changes what a memory says: whatever the path, the
    table afterwards has the same rows in the same order with the same id,
    user, type, category, content, hash, embedding, confidence,
    importance, source, active flag, creation time and expiry; only access
    counts and the access and update times move. *)
Theorem read_keeps_stable_columns
    (db : Session) (cache : Cache) (now : Z) (user : string)
    (query : option string) (limit : nat) (threshold : float) :
  map stable_columns
      (rows (fst (fst (get_relevant_memories get_embedding embedding_model
                         postgresql vector_distance vector_search_raises ilike
                         db cache now user query limit threshold))))
  = map stable_columns (rows db).
Proof.
  unfold get_relevant_memories.
  destruct (if no_query query then cache_recent user cache else None);
    [reflexivity|].
  cbn [fst rows with_rows]. now apply map_update_access.
Qed.

End ReadProperties.

Lemma read_returns_own_eligible_rows_witness :
  exists (db : Session) (cache : Cache),
    (if no_query None then cache_recent "alice" cache else None) = None /\
    length (snd (get_relevant_memories_plain db cache 50 "alice" None 5 0.3%float))
      = 2%nat /\
    Forall
      (fun d => exists m, In m (rows db) /\ user_id m = "alice" /\ dict_id d = id m)
      (snd (get_relevant_memories_plain db cache 50 "alice" None 5 0.3%float)).
Proof.
  two_memories ltac:(fun d c =>
    exists d, c;
    assert (Hmiss : (if no_query None then cache_recent "alice" c else None) = None)
      by reflexivity;
    pose proof (read_returns_own_eligible_rows no_embedding_model false false
                  no_vector_distance false unused_ilike
                  d c 50 "alice" None 5 0.3%float Hmiss) as H).
  split; [reflexivity|]. split; [vm_compute; reflexivity|].
  eapply List.Forall_impl; [|exact H].
  intros d (m & Hin & Hu & _ & _ & _ & Hid & _). exists m. auto.
Defined.

(** ** Expiry *)


Section Expiry.

Variable get_embedding : string -> option (list float).
Variable embedding_model : bool.
Variable vector_distance : list float -> LongTermMemory -> option float.
Variable vector_search_raises : bool.
Variable ilike : string -> string -> bool.



End Expiry.



(** ** Writes followed by reads *)

Lemma cache_recent_set_recent user memories cache :
  cache_recent user (cache_set (RecentEntry user memories) cache) = Some memories.
Proof.
  induction cache as [|e cache IH]; simpl.
  - now rewrite String.eqb_refl.
  - destruct (bool_decide (entry_key e = RecentKey user)) eqn:Hk; simpl.
    + now rewrite String.eqb_refl.
    + destruct e as [u l|u i c t k f ts]; simpl; [|exact IH].
      destruct (String.eqb_spec u user) as [->|_]; [|exact IH].
      simpl in Hk. apply bool_decide_eq_false in Hk. congruence.
Qed.

Lemma cache_recent_set_memory user u mid c t k f ts cache :
  cache_recent user (cache_set (MemoryEntry u mid c t k f ts) cache)
  = cache_recent user cache.
Proof.
  induction cache as [|e cache IH]; simpl; [reflexivity|].
  destruct (bool_decide (entry_key e = MemoryKey u mid)) eqn:Hk; simpl.
  - destruct e as [u' l|]; simpl; [|reflexivity].
    apply bool_decide_eq_true in Hk. discriminate.
  - destruct e as [u' l|]; simpl; [|exact IH].
    destruct (String.eqb u' user); [reflexivity|exact IH].
Qed.

Lemma cache_set_length e cache :
  (length (cache_set e cache) <= length cache + 1)%nat.
Proof.
  induction cache as [|e' cache IH]; simpl; [lia|].
  destruct (bool_decide _); simpl; lia.
Qed.

Lemma cache_limit_small cache :
  (length cache <= 1000)%nat -> cache_limit cache = cache.
Proof.
  intros Hlen. unfold cache_limit.
  destruct (Z.ltb_spec 1000 (Z.of_nat (length cache))); [lia|reflexivity].
Qed.

Lemma lifespan_of_at_least_30 cat : 30 <= lifespan_of cat.
Proof.
  pose proof (lifespan_of_values cat) as H. simpl in H.
  destruct H as [H|[H|[H|[H|[H|[]]]]]]; lia.
Qed.

Lemma take_all {A} n (l : list A) : (length l <= n)%nat -> take n l = l.
Proof. apply firstn_all2. Qed.

Section WriteThenRead.

Variable get_embedding : string -> option (list float).
Variable embedding_model : bool.
Variable postgresql : bool.
Variable vector_distance : list float -> LongTermMemory -> option float.
Variable vector_search_raises : bool.
Variable ilike : string -> string -> bool.

(** X11.  A memory that a write creates with a confidence at or above the
    threshold can be read back for at least thirty days: a read without a
    query that is not served from the cache and whose limit covers the
    table returns its entry, at any time before [now + 30 days]. *)
Theorem fresh_memory_is_retrievable
    (db : Session) (cache : Cache) (now : Z)
    (user mtype text : string) (conf : float)
    (source cat : option string) (imp : float)
    (db' : Session) (cache' : Cache) (m : LongTermMemory)
    (cache'' : Cache) (later : Z) (limit : nat) (threshold : float) :
  find (same_key user (calculate_memory_hash user text)) (rows db) = None ->
  store_memory get_embedding db cache now user mtype text conf source cat imp
    = Ok (db', cache', m) ->
  PrimFloat.leb threshold conf = true ->
  later < now + timedelta_days 30 ->
  cache_recent user cache'' = None ->
  (length (rows db') <= limit)%nat ->
  In (_memory_to_dict m)
     (snd (get_relevant_memories get_embedding embedding_model postgresql
             vector_distance vector_search_raises ilike
             db' cache'' later user None limit threshold)).
Proof.
  intros Hnone Hstore Hconf Hlater Hmiss Hlimit.
  destruct (store_memory_insert _ _ _ _ _ _ _ _ _ _ _ _ Hnone Hstore)
    as (m' & [= -> -> ->] & _ & Hu & _ & _ & Hc & _ & _ & Hact & _ & _ & Hexp).
  unfold get_relevant_memories. cbn [no_query]. rewrite Hmiss. cbn [snd].
  unfold recent_search. apply in_map.
  assert (Hin : In m' (base_query
                         {| rows := rows db ++ [m'];
                            uuid_supply := S (uuid_supply db);
                            autoflush := autoflush db;
                            server_now := server_now db |} user threshold later)).
  { unfold base_query. apply filter_In. split.
    - simpl. apply in_or_app. right. now left.
    - unfold eligible, unexpired. rewrite Hu, Hact, Hc, Hconf, Hexp.
      rewrite String.eqb_refl. simpl.
      apply Z.ltb_lt. pose proof (lifespan_of_at_least_30 (category m')).
      unfold timedelta_days, day in *. lia. }
  rewrite take_all.
  - apply (Permutation_in _ (Permutation_sym (order_by_perm _ _))). exact Hin.
  - rewrite (Permutation_length (order_by_perm _ _)).
    unfold base_query. etransitivity; [apply List.filter_length_le|exact Hlimit].
Qed.

(** X12.  The list cached by a read without a query is never refreshed by
    a write.  After such a read (not itself served from the cache, on a
    cache with room for two more entries) and a write for any user that
    returns, every later read without a query for the first user returns
    the list of the first read again, whatever the time, the limit and the
    threshold, and changes nothing: a memory written in between does not
    show. *)
Theorem cached_read_hides_later_writes
    (db : Session) (cache : Cache) (now : Z) (user : string)
    (limit : nat) (threshold : float)
    (db1 : Session) (cache1 : Cache) (first : list MemoryDict)
    (now' : Z) (writer mtype text : string) (conf : float)
    (source cat : option string) (imp : float)
    (db2 : Session) (cache2 : Cache) (m : LongTermMemory)
    (now'' : Z) (limit' : nat) (threshold' : float) :
  cache_recent user cache = None ->
  (length cache + 2 <= 1000)%nat ->
  get_relevant_memories get_embedding embedding_model postgresql
    vector_distance vector_search_raises ilike
    db cache now user None limit threshold = (db1, cache1, first) ->
  store_memory get_embedding db1 cache1 now' writer mtype text conf source cat imp
    = Ok (db2, cache2, m) ->
  get_relevant_memories get_embedding embedding_model postgresql
    vector_distance vector_search_raises ilike
    db2 cache2 now'' user None limit' threshold' = (db2, cache2, first).
Proof.
  intros Hmiss Hroom Hread Hstore.
  unfold get_relevant_memories in Hread. cbn [no_query] in Hread.
  rewrite Hmiss in Hread. injection Hread as <- <- <-.
  set (first := recent_search db user threshold now limit) in *.
  assert (Hcached : cache_recent user cache2 = Some first).
  { unfold store_memory in Hstore.
    destruct (find _ _) as [existing|].
    - injection Hstore as <- <- <-. apply cache_recent_set_recent.
    - destruct (existsb _ _); [discriminate|].
      injection Hstore as <- <- <-.
      rewrite cache_limit_small.
      + rewrite cache_recent_set_memory. apply cache_recent_set_recent.
      + pose proof (cache_set_length (RecentEntry user first) cache).
        etransitivity; [apply cache_set_length|]. lia. }
  unfold get_relevant_memories. cbn [no_query]. now rewrite Hcached.
Qed.

End WriteThenRead.

Lemma fresh_memory_is_retrievable_witness :
  exists (db' : Session) (cache' : Cache) (m : LongTermMemory),
    store_memory no_embedding_model SessionLocal [] 1000
      "alice" "preference" "I love hiking" 0.9%float None None 0.5%float
      = Ok (db', cache', m) /\
    PrimFloat.leb 0.3 0.9 = true /\
    1000 + timedelta_days 29 < 1000 + timedelta_days 30 /\
    In (_memory_to_dict m)
       (snd (get_relevant_memories_plain db' [] (1000 + timedelta_days 29)
               "alice" None 5 0.3%float)).
Proof.
  run_store
    (store_memory no_embedding_model SessionLocal [] 1000
       "alice" "preference" "I love hiking" 0.9%float None None 0.5%float)
    ltac:(fun d c m =>
      exists d, c, m;
      assert (Hrun : store_memory no_embedding_model SessionLocal [] 1000
                       "alice" "preference" "I love hiking" 0.9%float None None
                       0.5%float = Ok (d, c, m))
        by (vm_compute; reflexivity);
      assert (Hlater : 1000 + timedelta_days 29 < 1000 + timedelta_days 30)
        by (unfold timedelta_days, day; lia);
      assert (Hlimit : (length (rows d) <= 5)%nat) by (simpl; lia);
      pose proof (fresh_memory_is_retrievable no_embedding_model false false
                    no_vector_distance false unused_ilike
                    SessionLocal [] 1000 "alice" "preference" "I love hiking"
                    0.9%float None None 0.5%float d c m
                    [] (1000 + timedelta_days 29) 5%nat 0.3%float
                    eq_refl Hrun eq_refl Hlater eq_refl Hlimit) as H).
  split; [exact Hrun|]. split; [reflexivity|]. split; [exact Hlater|exact H].
Defined.

Lemma cached_read_hides_later_writes_witness :
  exists (db : Session) (cache : Cache) db1 cache1 first db2 cache2 m,
    cache_recent "alice" cache = None /\
    (length cache + 2 <= 1000)%nat /\
    get_relevant_memories_plain db cache 50 "alice" None 5 0.3%float
      = (db1, cache1, first) /\
    store_memory no_embedding_model db1 cache1 60
      "alice" "fact" "I have a dog" 0.9%float None None 0.5%float
      = Ok (db2, cache2, m) /\
    length (rows db2) = 3%nat /\ length first = 2%nat /\
    get_relevant_memories_plain db2 cache2 70 "alice" None 10 0.3%float
      = (db2, cache2, first).
Proof.
  two_memories ltac:(fun d c =>
    let r := eval vm_compute in
      (get_relevant_memories_plain d c 50 "alice" None 5 0.3%float) in
    lazymatch r with
    | (?d1, ?c1, ?l) =>
        run_store
          (store_memory no_embedding_model d1 c1 60
             "alice" "fact" "I have a dog" 0.9%float None None 0.5%float)
          ltac:(fun d2 c2 m =>
            exists d, c, d1, c1, l, d2, c2, m;
            assert (Hmiss : cache_recent "alice" c = None) by reflexivity;
            assert (Hroom : (length c + 2 <= 1000)%nat) by (simpl; lia);
            assert (Hread : get_relevant_memories_plain d c 50 "alice" None 5
                              0.3%float = (d1, c1, l))
              by (vm_compute; reflexivity);
            assert (Hrun : store_memory no_embedding_model d1 c1 60
                             "alice" "fact" "I have a dog" 0.9%float None None
                             0.5%float = Ok (d2, c2, m))
              by (vm_compute; reflexivity);
            pose proof (cached_read_hides_later_writes no_embedding_model false
                          false no_vector_distance false unused_ilike
                          d c 50 "alice" 5%nat 0.3%float d1 c1 l
                          60 "alice" "fact" "I have a dog" 0.9%float None None
                          0.5%float d2 c2 m 70 10%nat 0.3%float
                          Hmiss Hroom Hread Hrun) as H)
    end).
  repeat (split; [first [assumption | reflexivity]|]). exact H.
Defined.

(** ** One turn of extraction *)

Lemma user_tuples_pass_the_gate text :
  Forall (fun t : Extracted => PrimFloat.ltb 0.4 (snd t) = true)
         (_analyze_text_for_memories text "user").
Proof.
  apply List.Forall_forall. intros [[category text'] conf] Hin.
  destruct (in_analyze_inv _ _ _ _ _ Hin) as (sentence & _ & _ & ->).
  simpl. unfold match_confidence.
  change (String.eqb "user" "user") with true. cbv iota.
  destruct (_ || _); reflexivity.
Qed.

Section ExtractionCounts.

Variable get_embedding : string -> option (list float).

Lemma store_unique_count db cache now user conversation todo n db' cache' n' :
  Forall (fun t : Extracted => PrimFloat.ltb 0.4 (snd t) = true) todo ->
  store_unique get_embedding db cache now user conversation todo n
    = Ok (db', cache', n') ->
  n' = n + Z.of_nat (length todo).
Proof.
  intros Hpass. revert db cache n.
  induction Hpass as [|[[mtype text] conf] todo Hgate _ IH]; intros db cache n; simpl.
  - intros [= _ _ <-]. lia.
  - simpl in Hgate. rewrite Hgate.
    destruct (store_memory _ _ _ _ _ _ _ _ _ _ _) as [[[db1 cache1] m]|e];
      [|discriminate].
    intros Hrest. apply IH in Hrest. lia.
Qed.

(** X13.  Every tuple extracted from the user's message passes the
    acceptance gate (its confidence is 0.9 or 0.6, both above 0.4): when
    the extract-and-store pass returns, the number it returns is the number
    of tuples the classifier emitted for the user message, each of them
    having been written or merged. *)
Theorem extraction_counts_every_user_tuple
    (db : Session) (cache : Cache) (now : Z)
    (user user_message ai_response : string) (conversation : option string)
    (db' : Session) (cache' : Cache) (stored_count : Z) :
  extract_and_store_memories get_embedding db cache now user
    user_message ai_response conversation = Ok (db', cache', stored_count) ->
  stored_count
  = Z.of_nat (length (_analyze_text_for_memories user_message "user")).
Proof.
  unfold extract_and_store_memories, memories_to_store.
  rewrite store_unique_app_rejected.
  - intros Hrun.
    apply (store_unique_count _ _ _ _ _ _ _ _ _ _
             (user_tuples_pass_the_gate user_message)) in Hrun.
    lia.
  - apply List.Forall_map.
    eapply List.Forall_impl; [|apply assistant_confidence].
    intros [[mtype text] conf]; simpl. intros ->. reflexivity.
Qed.

Lemma store_memory_growth db cache now user mtype text conf source cat imp
    db' cache' m :
  store_memory get_embedding db cache now user mtype text conf source cat imp
    = Ok (db', cache', m) ->
  (length (rows db') <= length (rows db) + 1)%nat /\
  (find (same_key user (calculate_memory_hash user text)) (rows db) <> None ->
   length (rows db') = length (rows db)).
Proof.
  intros Hstore.
  destruct (find (same_key user (calculate_memory_hash user text)) (rows db))
    as [existing|] eqn:Hfind.
  - rewrite (store_memory_merge _ _ _ _ _ _ _ _ _ _ _ existing Hfind) in Hstore.
    injection Hstore as <- <- <-. simpl. rewrite alter_first_length.
    split; [lia|reflexivity].
  - destruct (store_memory_insert _ _ _ _ _ _ _ _ _ _ _ _ Hfind Hstore)
      as (m' & [= -> -> ->] & _).
    simpl. rewrite length_app. simpl. split; [lia|congruence].
Qed.

Lemma store_unique_same_content text db cache now user conversation todo n
    db' cache' n' :
  Forall (fun t : Extracted => snd (fst t) = text) todo ->
  store_unique get_embedding db cache now user conversation todo n
    = Ok (db', cache', n') ->
  (length (rows db') <= length (rows db) + 1)%nat /\
  (find (same_key user (calculate_memory_hash user text)) (rows db) <> None ->
   length (rows db') = length (rows db)).
Proof.
  intros Hsame. revert db cache n.
  induction Hsame as [|[[mtype text'] conf] todo Htext _ IH]; intros db cache n; simpl.
  - intros [= <- _ _]. split; [lia|reflexivity].
  - simpl in Htext. subst text'.
    destruct (PrimFloat.ltb 0.4 conf); [|apply IH].
    destruct (store_memory _ _ _ _ _ _ _ _ _ _ _) as [[[db1 cache1] m]|e] eqn:Hstore;
      [|discriminate].
    intros Hrest.
    destruct (store_memory_growth _ _ _ _ _ _ _ _ _ _ _ _ _ Hstore) as [Hle Heq].
    pose proof (store_memory_then_found _ _ _ _ _ _ _ _ _ _ _ _ _ _ Hstore) as Hfound.
    destruct (IH _ _ _ Hrest) as [_ Hkeep].
    assert (Hlen : length (rows db') = length (rows db1))
      by (apply Hkeep; congruence).
    split; [lia|]. intros Hsome. rewrite Hlen. now apply Heq.
Qed.

Lemma store_unique_app db cache now user conversation todo1 todo2 n :
  store_unique get_embedding db cache now user conversation (todo1 ++ todo2) n =
  match store_unique get_embedding db cache now user conversation todo1 n with
  | Ok (db1, cache1, n1) =>
      store_unique get_embedding db1 cache1 now user conversation todo2 n1
  | Raise e => Raise e
  end.
Proof.
  revert db cache n.
  induction todo1 as [|[[mtype text] conf] todo1 IH]; intros db cache n; simpl.
  - reflexivity.
  - destruct (PrimFloat.ltb 0.4 conf); [|apply IH].
    destruct (store_memory _ _ _ _ _ _ _ _ _ _ _) as [[[db1 cache1] m]|e];
      [apply IH|reflexivity].
Qed.

Lemma store_unique_sentences source sentences db cache now user conversation n
    db' cache' n' :
  store_unique get_embedding db cache now user conversation
    (flat_map (sentence_memories memory_categories source) sentences) n
    = Ok (db', cache', n') ->
  (length (rows db') <= length (rows db) + length sentences)%nat.
Proof.
  revert db cache n.
  induction sentences as [|sentence sentences IH]; intros db cache n;
    cbn [flat_map length].
  - simpl. intros [= <- _ _]. lia.
  - rewrite store_unique_app.
    destruct (store_unique _ _ _ _ _ _ (sentence_memories _ _ _) _)
      as [[[db1 cache1] n1]|e] eqn:Hgroup; [|discriminate].
    intros Hrest. apply IH in Hrest.
    assert (Hsame : Forall (fun t : Extracted => snd (fst t) = Text.strip sentence)
                           (sentence_memories memory_categories source sentence)).
    { apply List.Forall_forall. intros t Ht. unfold sentence_memories in Ht.
      apply in_map_iff in Ht. destruct Ht as (entry & <- & _). reflexivity. }
    destruct (store_unique_same_content _ _ _ _ _ _ _ _ _ _ _ Hsame Hgroup) as [Hle _].
    lia.
Qed.

(** X14.  One turn adds at most one row per sentence of the user's
    message, however many tuples the classifier emits: the tuples of a
    sentence share its content, so after the first of them is written the
    others merge into the same record. *)
Theorem extraction_adds_at_most_one_row_per_sentence
    (db : Session) (cache : Cache) (now : Z)
    (user user_message ai_response : string) (conversation : option string)
    (db' : Session) (cache' : Cache) (stored_count : Z) :
  extract_and_store_memories get_embedding db cache now user
    user_message ai_response conversation = Ok (db', cache', stored_count) ->
  (length (rows db')
   <= length (rows db) + length (_split_into_sentences user_message))%nat.
Proof.
  unfold extract_and_store_memories, memories_to_store.
  rewrite store_unique_app_rejected.
  - rewrite analyze_closed_form. apply store_unique_sentences.
  - apply List.Forall_map.
    eapply List.Forall_impl; [|apply assistant_confidence].
    intros [[mtype text] conf]; simpl. intros ->. reflexivity.
Qed.

End ExtractionCounts.

(** One sentence with keywords of two categories: two tuples, one row. *)
Ltac run_extraction k :=
  let r := eval vm_compute in
    (extract_and_store_memories no_embedding_model SessionLocal [] 5 "alice"
       "I love hiking and feel happy." "I love that. I am happy for you!" None) in
  lazymatch r with
  | Ok (?d, ?c, ?n) =>
      assert (Hrun : extract_and_store_memories no_embedding_model SessionLocal []
                       5 "alice" "I love hiking and feel happy."
                       "I love that. I am happy for you!" None = Ok (d, c, n))
        by (vm_compute; reflexivity);
      k d c n
  end.

Lemma extraction_counts_every_user_tuple_witness :
  exists (db' : Session) (cache' : Cache),
    extract_and_store_memories no_embedding_model SessionLocal [] 5 "alice"
      "I love hiking and feel happy." "I love that. I am happy for you!" None
    = Ok (db', cache', 2) /\
    2 = Z.of_nat (length (_analyze_text_for_memories
                            "I love hiking and feel happy." "user")).
Proof.
  run_extraction ltac:(fun d c n =>
    exists d, c;
    pose proof (extraction_counts_every_user_tuple no_embedding_model
                  SessionLocal [] 5 "alice" "I love hiking and feel happy."
                  "I love that. I am happy for you!" None d c n Hrun) as H).
  split; [exact Hrun|exact H].
Defined.

Lemma extraction_adds_at_most_one_row_per_sentence_witness :
  exists (db' : Session) (cache' : Cache) (stored_count : Z),
    extract_and_store_memories no_embedding_model SessionLocal [] 5 "alice"
      "I love hiking and feel happy." "I love that. I am happy for you!" None
    = Ok (db', cache', stored_count) /\
    stored_count = 2 /\
    map access_count (rows db') = [2] /\
    (length (rows db')
     <= length (rows SessionLocal)
        + length (_split_into_sentences "I love hiking and feel happy."))%nat.
Proof.
  run_extraction ltac:(fun d c n =>
    exists d, c, n;
    pose proof (extraction_adds_at_most_one_row_per_sentence no_embedding_model
                  SessionLocal [] 5 "alice" "I love hiking and feel happy."
                  "I love that. I am happy for you!" None d c n Hrun) as H).
  split; [exact Hrun|]. split; [reflexivity|]. split; [reflexivity|exact H].
Defined.

(** ** The maintenance sweep *)

Lemma filter_split_length {A} (p : A -> bool) (l : list A) :
  (length (List.filter p l) + length (List.filter (fun x => negb (p x)) l)
   = length l)%nat.
Proof.
  induction l as [|x l IH]; simpl; [reflexivity|].
  destruct (p x); simpl; lia.
Qed.

Lemma filter_all {A} (p : A -> bool) (l : list A) :
  Forall (fun x => p x = true) l -> List.filter p l = l.
Proof.
  induction 1 as [|x l Hx _ IH]; simpl; [reflexivity|].
  rewrite Hx. congruence.
Qed.

Lemma filter_none {A} (p : A -> bool) (l : list A) :
  Forall (fun x => p x = false) l -> List.filter p l = [].
Proof.
  induction 1 as [|x l Hx _ IH]; simpl; [reflexivity|].
  rewrite Hx. exact IH.
Qed.

Lemma map_unchanged {A} (f : A -> A) (l : list A) :
  Forall (fun x => f x = x) l -> map f l = l.
Proof.
  induction 1 as [|x l Hx _ IH]; simpl; congruence.
Qed.

Lemma archive_if_old_settled cutoff now m :
  old_low_confidence cutoff (archive_if_old cutoff now m) = false.
Proof.
  unfold archive_if_old.
  destruct (old_low_confidence cutoff m) eqn:Hold; [|exact Hold].
  unfold old_low_confidence, archive. cbn [is_active].
  apply andb_false_r.
Qed.

Lemma archive_if_old_expired cutoff now m :
  expired_active now m = false ->
  expired_active now (archive_if_old cutoff now m) = false.
Proof.
  unfold archive_if_old.
  destruct (old_low_confidence cutoff m); [|tauto].
  intros _. unfold expired_active, archive. cbn [expires_at is_active].
  destruct (expires_at m); [apply andb_false_r|reflexivity].
Qed.

(** What the sweep leaves is settled: no row is in reach of either of its
    two queries. *)
Lemma swept_rows_settled db now days_old :
  Forall (fun m => old_low_confidence (now - timedelta_days days_old) m = false /\
                   expired_active now m = false)
         (rows (fst (cleanup_old_memories db now days_old))).
Proof.
  rewrite cleanup_rows. apply List.Forall_forall. intros m Hm.
  destruct (autoflush db).
  - apply filter_In in Hm. destruct Hm as [Hm Hexp].
    apply in_map_iff in Hm. destruct Hm as (m0 & <- & _).
    split; [apply archive_if_old_settled|].
    now apply negb_true_iff in Hexp.
  - apply in_map_iff in Hm. destruct Hm as (m0 & <- & Hm0).
    apply filter_In in Hm0. destruct Hm0 as [_ Hexp].
    split; [apply archive_if_old_settled|].
    apply archive_if_old_expired. now apply negb_true_iff in Hexp.
Qed.

(** X15.  The sweep accounts for every row: the rows it leaves and the
    number it reports as deleted add up to the rows it found, and the
    number it reports as archived is at most the number of rows it found.
    This holds whether or not the session autoflushes. *)
Theorem sweep_accounts_for_every_row (db : Session) (now days_old : Z) :
  Z.of_nat (length (rows (fst (cleanup_old_memories db now days_old))))
    + snd (snd (cleanup_old_memories db now days_old))
  = Z.of_nat (length (rows db)) /\
  0 <= fst (snd (cleanup_old_memories db now days_old))
    <= Z.of_nat (length (rows db)).
Proof.
  split.
  - rewrite cleanup_rows. unfold cleanup_old_memories. cbn [fst snd].
    destruct (autoflush db).
    + pose proof (filter_split_length (expired_active now)
        (map (archive_if_old (now - timedelta_days days_old) now) (rows db))) as H.
      rewrite length_map in H. lia.
    + rewrite length_map.
      pose proof (filter_split_length (expired_active now) (rows db)) as H. lia.
  - unfold cleanup_old_memories. cbn [fst snd].
    pose proof (filter_split_length
      (old_low_confidence (now - timedelta_days days_old)) (rows db)) as H.
    lia.
Qed.

(** X16.  A sweep leaves nothing for a second sweep run at the same time
    with the same age limit: it reports no record archived and none
    deleted, and the table stays as the first sweep left it. *)
Theorem second_sweep_finds_nothing (db : Session) (now days_old : Z) :
  cleanup_old_memories (fst (cleanup_old_memories db now days_old)) now days_old
  = (fst (cleanup_old_memories db now days_old), (0, 0)).
Proof.
  pose proof (swept_rows_settled db now days_old) as Hsettled.
  destruct (cleanup_old_memories db now days_old) as [db1 counts] eqn:Hfirst.
  cbn [fst] in *.
  assert (Hold : Forall (fun m => old_low_confidence
                                    (now - timedelta_days days_old) m = false)
                        (rows db1))
    by (eapply List.Forall_impl; [|exact Hsettled]; simpl; tauto).
  assert (Hexp : Forall (fun m => expired_active now m = false) (rows db1))
    by (eapply List.Forall_impl; [|exact Hsettled]; simpl; tauto).
  assert (Hheld : map (archive_if_old (now - timedelta_days days_old) now) (rows db1)
                  = rows db1).
  { apply map_unchanged. eapply List.Forall_impl; [|exact Hold].
    intros m Hm. unfold archive_if_old. now rewrite Hm. }
  assert (Hkept : rows (fst (cleanup_old_memories db1 now days_old)) = rows db1).
  { rewrite cleanup_rows, Hheld.
    assert (Hfilter : List.filter (fun m => negb (expired_active now m)) (rows db1)
                      = rows db1).
    { apply filter_all. eapply List.Forall_impl; [|exact Hexp].
      intros m Hm. simpl. now rewrite Hm. }
    rewrite Hfilter, Hheld. now destruct (autoflush db1). }
  unfold cleanup_old_memories in *. cbn [fst rows with_rows] in Hkept.
  rewrite Hkept, Hheld.
  rewrite (filter_none _ _ Hold).
  replace (if autoflush db1 then rows db1 else rows db1) with (rows db1)
    by now destruct (autoflush db1).
  rewrite (filter_none _ _ Hexp).
  destruct db1; reflexivity.
Qed.

(** X17.  The sweep spares what its two filters do not select: a row that
    the archiving filter (active, confidence below 0.3, last update before
    the cutoff) and the expiry filter (active, expiry before now) both
    leave out is in the table after the sweep, unchanged.  In particular a
    record that is already inactive is never deleted by the sweep. *)
Theorem sweep_spares_unselected_rows (db : Session) (now days_old : Z)
    (m : LongTermMemory) :
  In m (rows db) ->
  old_low_confidence (now - timedelta_days days_old) m = false ->
  expired_active now m = false ->
  In m (rows (fst (cleanup_old_memories db now days_old))).
Proof.
  intros Hin Hold Hexp. rewrite cleanup_rows.
  assert (Hsame : archive_if_old (now - timedelta_days days_old) now m = m)
    by (unfold archive_if_old; now rewrite Hold).
  destruct (autoflush db).
  - apply filter_In. split; [|now rewrite Hexp].
    apply in_map_iff. now exists m.
  - apply in_map_iff. exists m. split; [exact Hsame|].
    apply filter_In. split; [exact Hin|now rewrite Hexp].
Qed.

Lemma sweep_spares_unselected_rows_witness :
  exists (db : Session) (m : LongTermMemory),
    In m (rows db) /\
    content m = "I love hiking" /\
    old_low_confidence (50 - timedelta_days 90) m = false /\
    expired_active 50 m = false /\
    In m (rows (fst (cleanup_old_memories db 50 90))).
Proof.
  two_memories ltac:(fun d c =>
    let r := eval vm_compute in (rows d) in
    lazymatch r with
    | ?m :: _ =>
        exists d, m;
        assert (Hin : In m (rows d)) by (vm_compute; left; reflexivity);
        assert (Hold : old_low_confidence (50 - timedelta_days 90) m = false)
          by (vm_compute; reflexivity);
        assert (Hexp : expired_active 50 m = false) by (vm_compute; reflexivity);
        pose proof (sweep_spares_unselected_rows d 50 90 m Hin Hold Hexp) as H
    end).
  split; [exact Hin|]. split; [reflexivity|]. split; [exact Hold|].
  split; [exact Hexp|exact H].
Defined.

(** ** Persona settings *)

Lemma filter_alter_first_other {A} (q p : A -> bool) (f : A -> A) l :
  (forall x, p x = true -> q x = false /\ q (f x) = false) ->
  List.filter q (alter_first p f l) = List.filter q l.
Proof.
  intros Hq. induction l as [|y l IH]; simpl; [reflexivity|].
  destruct (p y) eqn:Hy; simpl.
  - destruct (Hq y Hy) as [-> ->]. reflexivity.
  - rewrite IH. reflexivity.
Qed.

Lemma is_persona_of_other user other s :
  other <> user -> is_persona_of user s = true -> is_persona_of other s = false.
Proof.
  unfold is_persona_of. intros Hne Hs.
  apply String.eqb_eq in Hs. apply String.eqb_neq. congruence.
Qed.

Section PersonaUpdates.

Variable list_of_set : list string -> list string.

(** X19.  An update of one user's settings that returns leaves the rows
    of every other user as they were, whatever the history says. *)
Theorem persona_update_leaves_other_users
    (table : list PersonaSettings) (user other : string)
    (history : list HistoryEntry)
    (table' : list PersonaSettings) (settings' : PersonaSettings) :
  update_persona_from_conversation list_of_set table user history
    = Ok (table', settings') ->
  other <> user ->
  List.filter (is_persona_of other) table'
  = List.filter (is_persona_of other) table.
Proof.
  intros Hrun Hne.
  destruct (update_persona_ok _ _ _ _ _ _ Hrun)
    as (settings & _ & _ & -> & Howner).
  apply filter_alter_first_other. intros s Hs. split.
  - now apply (is_persona_of_other user).
  - now apply (is_persona_of_other user).
Qed.

(** X20.  An update that returns is read back: a later call of
    [get_persona_settings] for the same user, on the table the update
    left, returns exactly the settings the update returned. *)
Theorem persona_update_is_read_back
    (table : list PersonaSettings) (user : string)
    (history : list HistoryEntry)
    (table' : list PersonaSettings) (settings' : PersonaSettings) :
  update_persona_from_conversation list_of_set table user history
    = Ok (table', settings') ->
  get_persona_settings table' user = Ok settings'.
Proof.
  intros Hrun.
  destruct (update_persona_ok _ _ _ _ _ _ Hrun)
    as (settings & Hfind & Hadapt & -> & Howner).
  apply get_persona_settings_ok.
  exact (find_alter_first _ (fun _ => settings') _ _ Hfind Howner).
Qed.

End PersonaUpdates.

(** Two stored users; the history of 21 messages about code moves the
    trust of "alice" from 95 to 100. *)
Ltac run_update k :=
  let r := eval vm_compute in
    (update_persona_from_conversation (List.nodup String.string_dec)
       [ {| persona_user_id := "bob"; preferred_tone := "formal";
            communication_style := "balanced"; topics_of_interest := ["life"];
            dislikes := []; trust_level := 40 |};
         {| persona_user_id := "alice"; preferred_tone := "casual";
            communication_style := "balanced"; topics_of_interest := ["life"];
            dislikes := []; trust_level := 95 |} ]
       "alice"
       (repeat {| h_role := Some "user"; h_content := Some "I write code";
                  h_sentiment := None |} 21)) in
  lazymatch r with
  | Ok (?t, ?s) =>
      assert (Hrun :
        update_persona_from_conversation (List.nodup String.string_dec)
          [ {| persona_user_id := "bob"; preferred_tone := "formal";
               communication_style := "balanced"; topics_of_interest := ["life"];
               dislikes := []; trust_level := 40 |};
            {| persona_user_id := "alice"; preferred_tone := "casual";
               communication_style := "balanced"; topics_of_interest := ["life"];
               dislikes := []; trust_level := 95 |} ]
          "alice"
          (repeat {| h_role := Some "user"; h_content := Some "I write code";
                     h_sentiment := None |} 21) = Ok (t, s))
        by (vm_compute; reflexivity);
      k t s
  end.

Lemma persona_update_leaves_other_users_witness :
  exists table' settings',
    update_persona_from_conversation (List.nodup String.string_dec)
      [ {| persona_user_id := "bob"; preferred_tone := "formal";
           communication_style := "balanced"; topics_of_interest := ["life"];
           dislikes := []; trust_level := 40 |};
        {| persona_user_id := "alice"; preferred_tone := "casual";
           communication_style := "balanced"; topics_of_interest := ["life"];
           dislikes := []; trust_level := 95 |} ]
      "alice"
      (repeat {| h_role := Some "user"; h_content := Some "I write code";
                 h_sentiment := None |} 21)
    = Ok (table', settings') /\
    "bob" <> "alice" /\
    trust_level settings' = 100 /\
    List.filter (is_persona_of "bob") table'
    = [ {| persona_user_id := "bob"; preferred_tone := "formal";
           communication_style := "balanced"; topics_of_interest := ["life"];
           dislikes := []; trust_level := 40 |} ].
Proof.
  assert (Hne : "bob" <> "alice") by discriminate.
  run_update ltac:(fun t s =>
    exists t, s;
    pose proof (persona_update_leaves_other_users (List.nodup String.string_dec)
                  _ "alice" "bob" _ t s Hrun Hne) as H).
  split; [exact Hrun|]. split; [exact Hne|]. split; [reflexivity|].
  rewrite H. reflexivity.
Defined.

Lemma persona_update_is_read_back_witness :
  exists table' settings',
    update_persona_from_conversation (List.nodup String.string_dec)
      [ {| persona_user_id := "bob"; preferred_tone := "formal";
           communication_style := "balanced"; topics_of_interest := ["life"];
           dislikes := []; trust_level := 40 |};
        {| persona_user_id := "alice"; preferred_tone := "casual";
           communication_style := "balanced"; topics_of_interest := ["life"];
           dislikes := []; trust_level := 95 |} ]
      "alice"
      (repeat {| h_role := Some "user"; h_content := Some "I write code";
                 h_sentiment := None |} 21)
    = Ok (table', settings') /\
    trust_level settings' = 100 /\
    get_persona_settings table' "alice" = Ok settings'.
Proof.
  run_update ltac:(fun t s =>
    exists t, s;
    pose proof (persona_update_is_read_back (List.nodup String.string_dec)
                  _ "alice" _ t s Hrun) as H).
  split; [exact Hrun|]. split; [reflexivity|exact H].
Defined.

(** ** Prompt compression *)

Lemma split_char_nonempty sep s : Text.split_char sep s <> [].
Proof.
  destruct s as [|c s]; simpl; [discriminate|].
  destruct (Ascii.eqb c sep); [discriminate|].
  destruct (Text.split_char sep s); discriminate.
Qed.

Lemma join_cons2 sep p q ps :
  Text.join sep (p :: q :: ps) = p +:+ sep +:+ Text.join sep (q :: ps).
Proof. reflexivity. Qed.

Lemma join_split_char sep s :
  Text.join (String sep "") (Text.split_char sep s) = s.
Proof.
  induction s as [|c s IH]; [reflexivity|].
  cbn [Text.split_char].
  pose proof (split_char_nonempty sep s) as Hne.
  destruct (Text.split_char sep s) as [|p ps]; [contradiction|].
  destruct (Ascii.eqb_spec c sep) as [->|_].
  - rewrite join_cons2, IH. reflexivity.
  - cbn [Text.push]. destruct ps as [|q ps].
    + simpl in *. congruence.
    + rewrite join_cons2. rewrite join_cons2 in IH. rewrite <- IH. reflexivity.
Qed.

Lemma split_char_no_sep sep a :
  all_chars (fun c => negb (Ascii.eqb c sep)) a = true ->
  Text.split_char sep a = [a].
Proof.
  induction a as [|c a IH]; simpl; [reflexivity|].
  intros H. apply andb_true_iff in H. destruct H as [Hc Ha].
  apply negb_true_iff in Hc. rewrite Hc, (IH Ha). reflexivity.
Qed.

Lemma split_char_app sep a b :
  all_chars (fun c => negb (Ascii.eqb c sep)) a = true ->
  Text.split_char sep (a +:+ String sep b) = a :: Text.split_char sep b.
Proof.
  induction a as [|c a IH]; simpl.
  - intros _. now rewrite Ascii.eqb_refl.
  - intros H. apply andb_true_iff in H. destruct H as [Hc Ha].
    apply negb_true_iff in Hc. rewrite Hc, (IH Ha). reflexivity.
Qed.

Lemma split_char_join sep ls :
  ls <> [] ->
  Forall (fun l => all_chars (fun c => negb (Ascii.eqb c sep)) l = true) ls ->
  Text.split_char sep (Text.join (String sep "") ls) = ls.
Proof.
  intros Hne Hls. induction Hls as [|a ls Ha Hls IH]; [contradiction|].
  destruct ls as [|b ls].
  - simpl. now apply split_char_no_sep.
  - rewrite join_cons2.
    change (String sep "" +:+ Text.join (String sep "") (b :: ls))
      with (String sep (Text.join (String sep "") (b :: ls))).
    rewrite (split_char_app _ _ _ Ha), IH; [reflexivity|discriminate].
Qed.

Lemma split_char_pieces sep s :
  Forall (fun l => all_chars (fun c => negb (Ascii.eqb c sep)) l = true)
         (Text.split_char sep s).
Proof.
  induction s as [|c s IH]; simpl; [repeat constructor|].
  destruct (Ascii.eqb c sep) eqn:Hc; [constructor; [reflexivity|exact IH]|].
  destruct IH as [|p ps Hp Hps]; simpl.
  - repeat constructor. simpl. now rewrite Hc.
  - constructor; [|exact Hps]. simpl. now rewrite Hc, Hp.
Qed.

Lemma prefix_app n a b :
  String.prefix n a = true -> String.prefix n (a +:+ b) = true.
Proof.
  revert a. induction n as [|c n IH]; intros a;
    [intros _; destruct (a +:+ b); reflexivity|].
  destruct a as [|d a]; simpl; [discriminate|].
  destruct (ascii_dec c d); [apply IH|discriminate].
Qed.

Lemma contains_app_l n a b :
  Text.contains n a = true -> Text.contains n (a +:+ b) = true.
Proof.
  induction a as [|d a IH]; cbn [Text.contains]; intros H.
  - rewrite orb_false_r in H.
    destruct n; [now destruct b|discriminate].
  - apply orb_true_iff in H. change (String d a +:+ b) with (String d (a +:+ b)).
    cbn [Text.contains]. apply orb_true_iff. destruct H as [H|H].
    + left. now apply (prefix_app n (String d a) b).
    + right. now apply IH.
Qed.

Lemma contains_app_r n a b :
  Text.contains n b = true -> Text.contains n (a +:+ b) = true.
Proof.
  intros H. induction a as [|d a IH]; [exact H|].
  change (String d a +:+ b) with (String d (a +:+ b)).
  cbn [Text.contains]. rewrite IH. apply orb_true_r.
Qed.

Lemma contains_join n sep ls line :
  In line ls -> Text.contains n line = true ->
  Text.contains n (Text.join sep ls) = true.
Proof.
  intros Hin Hline. induction ls as [|a ls IH]; [contradiction|].
  destruct ls as [|b ls].
  - destruct Hin as [->|[]]. exact Hline.
  - rewrite join_cons2. destruct Hin as [->|Hin].
    + now apply contains_app_l.
    + apply contains_app_r, contains_app_r. now apply IH.
Qed.

Lemma compress_lines_acc rest started compressed :
  PromptEnhancer.compress_lines rest started compressed
  = compressed ++ PromptEnhancer.compress_lines rest started [].
Proof.
  revert started compressed.
  induction rest as [|line rest IH]; intros started compressed;
    cbn [PromptEnhancer.compress_lines].
  - now rewrite app_nil_r.
  - destruct (Text.contains "WHAT YOU KNOW ABOUT THE USER:" line).
    { rewrite IH, (IH _ ([] ++ [line])), <- app_assoc. reflexivity. }
    destruct (started && Text.startswith (Text.strip line) "-").
    + destruct (_ || _); [|apply IH].
      rewrite IH, (IH _ ([] ++ [line])), <- app_assoc. reflexivity.
    + rewrite IH, (IH _ ([] ++ [line])), <- app_assoc. reflexivity.
Qed.

(** One step of the loop, with the accumulator taken out. *)
Lemma compress_lines_cons line rest started :
  PromptEnhancer.compress_lines (line :: rest) started [] =
  if Text.contains "WHAT YOU KNOW ABOUT THE USER:" line then
    line :: PromptEnhancer.compress_lines rest true []
  else if started && Text.startswith (Text.strip line) "-" then
    if Text.contains "(confidence: 0.8" line || Text.contains "(confidence: 0.9" line
    then line :: PromptEnhancer.compress_lines rest started []
    else PromptEnhancer.compress_lines rest started []
  else line :: PromptEnhancer.compress_lines rest started [].
Proof.
  cbn [PromptEnhancer.compress_lines].
  destruct (Text.contains "WHAT YOU KNOW ABOUT THE USER:" line);
    [now rewrite compress_lines_acc|].
  destruct (started && Text.startswith (Text.strip line) "-").
  - destruct (_ || _); [now rewrite compress_lines_acc|reflexivity].
  - now rewrite compress_lines_acc.
Qed.

Lemma compress_lines_idempotent rest started :
  PromptEnhancer.compress_lines
    (PromptEnhancer.compress_lines rest started []) started []
  = PromptEnhancer.compress_lines rest started [].
Proof.
  revert started. induction rest as [|line rest IH]; intros started;
    [reflexivity|].
  rewrite (compress_lines_cons line rest).
  destruct (Text.contains "WHAT YOU KNOW ABOUT THE USER:" line) eqn:Hhead.
  { rewrite compress_lines_cons, Hhead, IH. reflexivity. }
  destruct (started && Text.startswith (Text.strip line) "-") eqn:Hdash.
  - destruct (_ || _) eqn:Hmark; [|apply IH].
    rewrite compress_lines_cons, Hhead, Hdash, Hmark, IH. reflexivity.
  - rewrite compress_lines_cons, Hhead, Hdash, IH. reflexivity.
Qed.

Lemma compress_lines_Forall (P : string -> Prop) rest started :
  Forall P rest -> Forall P (PromptEnhancer.compress_lines rest started []).
Proof.
  intros Hrest. revert started.
  induction Hrest as [|line rest Hline _ IH]; intros started; [constructor|].
  rewrite compress_lines_cons.
  destruct (Text.contains _ line); [constructor; auto|].
  destruct (started && _); [destruct (_ || _)|]; auto.
Qed.

Lemma compress_lines_first line rest :
  PromptEnhancer.compress_lines (line :: rest) false [] <> [].
Proof.
  rewrite compress_lines_cons.
  destruct (Text.contains _ line); [discriminate|].
  cbn [andb]. discriminate.
Qed.

Lemma compress_lines_no_header rest :
  Forall (fun line => Text.contains "WHAT YOU KNOW ABOUT THE USER:" line = false)
         rest ->
  PromptEnhancer.compress_lines rest false [] = rest.
Proof.
  induction 1 as [|line rest Hline _ IH]; [reflexivity|].
  rewrite compress_lines_cons, Hline. cbn [andb]. congruence.
Qed.

Lemma compress_lines_keeps_other_lines rest started :
  List.filter (fun line => negb (Text.startswith (Text.strip line) "-"))
    (PromptEnhancer.compress_lines rest started [])
  = List.filter (fun line => negb (Text.startswith (Text.strip line) "-")) rest.
Proof.
  revert started. induction rest as [|line rest IH]; intros started;
    [reflexivity|].
  rewrite compress_lines_cons. cbn [List.filter].
  destruct (Text.contains _ line); [cbn [List.filter]; now rewrite IH|].
  destruct (Text.startswith (Text.strip line) "-") eqn:Hdash.
  - destruct started; cbn [andb negb].
    + destruct (_ || _); [cbn [List.filter]; rewrite Hdash|]; apply IH.
    + cbn [List.filter]. rewrite Hdash. apply IH.
  - rewrite andb_false_r. cbn [List.filter negb]. rewrite Hdash. cbn [negb].
    now rewrite IH.
Qed.

(** The lines of a compressed prompt are the lines the loop kept. *)
Lemma compressed_prompt_lines prompt :
  Text.split_char (ascii_of_nat 10) (PromptEnhancer._compress_prompt prompt)
  = PromptEnhancer.compress_lines
      (Text.split_char (ascii_of_nat 10) prompt) false [].
Proof.
  unfold PromptEnhancer._compress_prompt, PromptEnhancer.lines, Text.nl.
  apply split_char_join.
  - pose proof (split_char_nonempty (ascii_of_nat 10) prompt) as Hne.
    destruct (Text.split_char (ascii_of_nat 10) prompt) as [|line rest];
      [contradiction|apply compress_lines_first].
  - apply compress_lines_Forall, split_char_pieces.
Qed.

(** X21.  A prompt in which the memory header does not occur is returned
    by the compression exactly as it was given, whatever its length: the
    pass has nothing it can remove from the persona, the conversation
    history or the current message. *)
Theorem compression_without_memory_header_is_identity (prompt : string) :
  Text.contains "WHAT YOU KNOW ABOUT THE USER:" prompt = false ->
  PromptEnhancer._compress_prompt prompt = prompt.
Proof.
  intros Hnone.
  unfold PromptEnhancer._compress_prompt, PromptEnhancer.lines, Text.nl.
  rewrite compress_lines_no_header; [apply join_split_char|].
  apply List.Forall_forall. intros line Hline.
  destruct (Text.contains "WHAT YOU KNOW ABOUT THE USER:" line) eqn:Hc;
    [|reflexivity].
  pose proof (contains_join _ (String (ascii_of_nat 10) "") _ _ Hline Hc) as H.
  rewrite join_split_char in H. congruence.
Qed.

Lemma compression_without_memory_header_is_identity_witness :
  Text.contains "WHAT YOU KNOW ABOUT THE USER:"
    (PromptEnhancer.full_prompt "10:00 AM" "- how are you?" []
       PromptEnhancer.default_persona
       [ {| h_role := Some "user"; h_content := Some "- hi"; h_sentiment := None |} ])
  = false /\
  PromptEnhancer._compress_prompt
    (PromptEnhancer.full_prompt "10:00 AM" "- how are you?" []
       PromptEnhancer.default_persona
       [ {| h_role := Some "user"; h_content := Some "- hi"; h_sentiment := None |} ])
  = PromptEnhancer.full_prompt "10:00 AM" "- how are you?" []
       PromptEnhancer.default_persona
       [ {| h_role := Some "user"; h_content := Some "- hi"; h_sentiment := None |} ].
Proof.
  assert (Hnone :
    Text.contains "WHAT YOU KNOW ABOUT THE USER:"
      (PromptEnhancer.full_prompt "10:00 AM" "- how are you?" []
         PromptEnhancer.default_persona
         [ {| h_role := Some "user"; h_content := Some "- hi";
              h_sentiment := None |} ]) = false)
    by (vm_compute; reflexivity).
  split; [exact Hnone|].
  exact (compression_without_memory_header_is_identity _ Hnone).
Defined.

(** X22.  Compression is idempotent: compressing a compressed prompt
    changes nothing. *)
Theorem compression_is_idempotent (prompt : string) :
  PromptEnhancer._compress_prompt (PromptEnhancer._compress_prompt prompt)
  = PromptEnhancer._compress_prompt prompt.
Proof.
  unfold PromptEnhancer._compress_prompt at 1.
  rewrite compressed_prompt_lines, compress_lines_idempotent.
  reflexivity.
Qed.

(** X23.  Compression removes nothing but lines that start with a dash
    (after leading white space): the other lines of the prompt come out
    as they went in, all of them and in the same order. *)
Theorem compression_keeps_every_other_line (prompt : string) :
  List.filter (fun line => negb (Text.startswith (Text.strip line) "-"))
    (Text.split_char (ascii_of_nat 10) (PromptEnhancer._compress_prompt prompt))
  = List.filter (fun line => negb (Text.startswith (Text.strip line) "-"))
      (Text.split_char (ascii_of_nat 10) prompt).
Proof.
  rewrite compressed_prompt_lines. apply compress_lines_keeps_other_lines.
Qed.

(** ** The stores of the two chat handlers *)

Lemma substring_length_le n s : (String.length (String.substring 0 n s) <= n)%nat.
Proof.
  revert s. induction n as [|n IH]; intros [|c s]; simpl; try lia.
  specialize (IH s). lia.
Qed.

Lemma append_length a b :
  String.length (a +:+ b) = (String.length a + String.length b)%nat.
Proof. induction a as [|c a IH]; simpl; [reflexivity|now rewrite IH]. Qed.

Lemma last_n_length {A} n (l : list A) : (length (Text.last_n n l) <= n)%nat.
Proof. unfold Text.last_n. rewrite length_drop. lia. Qed.

Lemma ai_backend_store groq_client clock user_memories request :
  fst (AiBackend.chat groq_client clock user_memories request)
  = <[Api.user_id request :=
        let memories := default [] (user_memories !! Api.user_id request) in
        if Api.more_than_three_words (Api.message request) then
          let appended :=
            memories ++ [Text.slice_to 100 (Api.message request) +:+ "..."] in
          if 20 <? Z.of_nat (length appended) then Text.last_n 20 appended
          else appended
        else memories]> user_memories.
Proof.
  unfold AiBackend.chat.
  destruct groq_client as [groq|]; [destruct (groq _)|]; reflexivity.
Qed.

(** X24.  The store of [ai_backend] stays within its bounds: if every
    user has at most 20 entries of at most 103 characters, the same holds
    after a turn, whatever the request and whether or not the generation
    call succeeded. *)
Theorem ai_backend_store_stays_bounded
    (groq_client : option (string -> Api.Completion)) (clock : Api.Clock)
    (user_memories : gmap string (list string)) (request : Api.ChatRequest) :
  bounded_store user_memories ->
  bounded_store (fst (AiBackend.chat groq_client clock user_memories request)).
Proof.
  intros Hbound user memories. rewrite ai_backend_store.
  destruct (decide (Api.user_id request = user)) as [<-|Hne];
    [|rewrite lookup_insert_ne by exact Hne; apply Hbound].
  rewrite lookup_insert_eq. intros [= <-]. cbv zeta.
  assert (Hold : (length (default [] (user_memories !! Api.user_id request)) <= 20)%nat /\
                 Forall (fun entry => (String.length entry <= 103)%nat)
                        (default [] (user_memories !! Api.user_id request))).
  { destruct (user_memories !! Api.user_id request) as [l|] eqn:Hl; simpl.
    - exact (Hbound _ _ Hl).
    - split; [lia|constructor]. }
  destruct Hold as [Hlen Hentries].
  set (memories := default [] (user_memories !! Api.user_id request)) in *.
  destruct (Api.more_than_three_words (Api.message request));
    [|split; assumption].
  assert (Happended :
    Forall (fun entry => (String.length entry <= 103)%nat)
      (memories ++ [Text.slice_to 100 (Api.message request) +:+ "..."])).
  { apply List.Forall_app. split; [exact Hentries|].
    constructor; [|constructor].
    rewrite append_length. unfold Text.slice_to.
    pose proof (substring_length_le 100 (Api.message request)). simpl. lia. }
  destruct (Z.ltb_spec 20 (Z.of_nat (length
    (memories ++ [Text.slice_to 100 (Api.message request) +:+ "..."]))))
    as [Hlong|Hshort].
  - split; [apply last_n_length|]. unfold Text.last_n. now apply Forall_drop.
  - split; [lia|exact Happended].
Qed.

Lemma ai_backend_store_stays_bounded_witness :
  bounded_store (<["alice" := repeat "I really love hiking a lot..." 20]> ∅) /\
  bounded_store
    (fst (AiBackend.chat None
            {| Api.isoformat := "2026-01-01T10:00:00";
               Api.timestamp_text := "1767261600.0" |}
            (<["alice" := repeat "I really love hiking a lot..." 20]> ∅)
            {| Api.user_id := "alice";
               Api.message := "I also like long walks";
               Api.session_id := None |})).
Proof.
  assert (Hbound :
    bounded_store (<["alice" := repeat "I really love hiking a lot..." 20]> ∅)).
  { intros user memories.
    destruct (decide ("alice" = user)) as [<-|Hne].
    - rewrite lookup_insert_eq. intros [= <-].
      split; [simpl; lia|]. repeat constructor; simpl; lia.
    - rewrite lookup_insert_ne by exact Hne. rewrite lookup_empty. discriminate. }
  split; [exact Hbound|].
  exact (ai_backend_store_stays_bounded None _ _ _ Hbound).
Defined.

(** X25.  The tone [ai_backend] answers with is always one of the four
    tones of its table, paired with the emotion it reports: the default of
    the table lookup, "friendly", is never used for a detected emotion. *)
Theorem ai_backend_tone_is_mapped (text : string) :
  In (AiBackend.detect_emotion text,
      AiBackend.determine_tone (AiBackend.detect_emotion text))
     [ ("joy", "cheerful and enthusiastic");
       ("sadness", "empathetic and supportive");
       ("fear", "reassuring and gentle");
       ("neutral", "friendly and curious") ] /\
  AiBackend.determine_tone (AiBackend.detect_emotion text) <> "friendly".
Proof.
  unfold AiBackend.detect_emotion.
  destruct (Text.any_in _ _); [split; [simpl; tauto|discriminate]|].
  destruct (Text.any_in _ _); [split; [simpl; tauto|discriminate]|].
  destruct (Text.any_in _ _); split; simpl; try tauto; discriminate.
Qed.

Lemma any_in_more words more text :
  Text.any_in words text = true -> Text.any_in (words ++ more) text = true.
Proof.
  unfold Text.any_in. rewrite existsb_app. intros ->. reflexivity.
Qed.

(** X26.  The detector of [ai_backend] extends the one of
    [fixed_backend]: a message in which [ai_backend] detects no emotion is
    neutral for [fixed_backend] too, which then answers in its "friendly"
    tone. *)
Theorem neutral_for_ai_backend_is_neutral_for_fixed_backend (text : string) :
  AiBackend.detect_emotion text = "neutral" ->
  FixedBackend.detect (Text.lower text) = ("neutral", "friendly").
Proof.
  unfold AiBackend.detect_emotion, FixedBackend.detect.
  destruct (Text.any_in ["happy"; "joy"; "love"; "great"] (Text.lower text))
    eqn:Hjoy.
  { pose proof (any_in_more _ ["excited"; "wonderful"] _ Hjoy) as H.
    cbn [app] in H. rewrite H. discriminate. }
  destruct (Text.any_in ["sad"; "upset"; "angry"; "bad"] (Text.lower text))
    eqn:Hsad; [|reflexivity].
  pose proof (any_in_more _ ["terrible"; "depressed"] _ Hsad) as H.
  cbn [app] in H. rewrite H. clear Hjoy Hsad H.
  destruct (Text.any_in _ _); discriminate.
Qed.

Lemma neutral_for_ai_backend_is_neutral_for_fixed_backend_witness :
  AiBackend.detect_emotion "Where is the station?" = "neutral" /\
  FixedBackend.detect (Text.lower "Where is the station?")
  = ("neutral", "friendly").
Proof.
  assert (H : AiBackend.detect_emotion "Where is the station?" = "neutral")
    by (vm_compute; reflexivity).
  split; [exact H|].
  exact (neutral_for_ai_backend_is_neutral_for_fixed_backend _ H).
Defined.

Lemma fixed_backend_users groq clock st request :
  exists u,
    FixedBackend.users_db (fst (FixedBackend.chat groq clock st request))
      !! Api.user_id request = Some u /\
    FixedBackend.conversations u
    = match FixedBackend.users_db st !! Api.user_id request with
      | Some u0 => FixedBackend.conversations u0
      | None => 0
      end
      + match groq (FixedBackend.prompt
                      (default [] (FixedBackend.memories_db st !! Api.user_id request))
                      (fst (FixedBackend.detect (Text.lower (Api.message request))))
                      (snd (FixedBackend.detect (Text.lower (Api.message request))))
                      request) with
        | Api.Completed _ => 1
        | Api.Failed => 0
        end.
Proof.
  unfold FixedBackend.chat.
  destruct (FixedBackend.detect (Text.lower (Api.message request)))
    as [emotion tone].
  cbn [fst snd].
  destruct (groq _) as [response_text|]; cbn [fst FixedBackend.users_db].
  - rewrite lookup_alter_eq.
    destruct (FixedBackend.users_db st !! Api.user_id request) as [u0|] eqn:Hu.
    + rewrite Hu. eexists. split; [reflexivity|]. reflexivity.
    + rewrite lookup_insert_eq. eexists. split; [reflexivity|]. reflexivity.
  - destruct (FixedBackend.users_db st !! Api.user_id request) as [u0|] eqn:Hu.
    + exists u0. split; [exact Hu|lia].
    + rewrite lookup_insert_eq. eexists. split; [reflexivity|]. reflexivity.
Qed.

Lemma fixed_backend_users_other groq clock st request user :
  Api.user_id request <> user ->
  FixedBackend.users_db (fst (FixedBackend.chat groq clock st request)) !! user
  = FixedBackend.users_db st !! user.
Proof.
  intros Hne. unfold FixedBackend.chat.
  destruct (FixedBackend.detect (Text.lower (Api.message request)))
    as [emotion tone].
  destruct (groq _) as [response_text|]; cbn [fst FixedBackend.users_db].
  - rewrite lookup_alter_ne by exact Hne.
    destruct (FixedBackend.users_db st !! Api.user_id request);
      [reflexivity|now rewrite lookup_insert_ne].
  - destruct (FixedBackend.users_db st !! Api.user_id request);
      [reflexivity|now rewrite lookup_insert_ne].
Qed.

Lemma fixed_backend_memories groq clock st request :
  FixedBackend.memories_db (fst (FixedBackend.chat groq clock st request))
  = match groq (FixedBackend.prompt
                  (default [] (FixedBackend.memories_db st !! Api.user_id request))
                  (fst (FixedBackend.detect (Text.lower (Api.message request))))
                  (snd (FixedBackend.detect (Text.lower (Api.message request))))
                  request) with
    | Api.Completed _ =>
        <[Api.user_id request :=
            let memories :=
              default [] (FixedBackend.memories_db st !! Api.user_id request) in
            if Api.more_than_three_words (Api.message request) then
              memories ++
              [ {| FixedBackend.content := Text.slice_to 100 (Api.message request);
                   FixedBackend.type := "conversation";
                   FixedBackend.memory_timestamp := Api.isoformat clock |} ]
            else memories]> (FixedBackend.memories_db st)
    | Api.Failed => FixedBackend.memories_db st
    end.
Proof.
  unfold FixedBackend.chat.
  destruct (FixedBackend.detect (Text.lower (Api.message request)))
    as [emotion tone].
  cbn [fst snd]. destruct (groq _); reflexivity.
Qed.

(** X27.  The two dictionaries of [fixed_backend] stay in agreement over
    a turn, whether the generation call completes or fails: counters stay
    non-negative, every user with a list of memories is registered, holds
    no more memories than conversations were counted, and no stored
    content is longer than 100 characters. *)
Theorem fixed_backend_stays_consistent
    (groq : string -> Api.Completion) (clock : Api.Clock)
    (st : FixedBackend.State) (request : Api.ChatRequest) :
  consistent st ->
  consistent (fst (FixedBackend.chat groq clock st request)).
Proof.
  intros [Hcount Hmem].
  destruct (fixed_backend_users groq clock st request) as (u' & Hu' & Hconv).
  assert (Hge : 0 <= FixedBackend.conversations u').
  { rewrite Hconv.
    destruct (FixedBackend.users_db st !! Api.user_id request) as [u0|] eqn:Hu0;
      [specialize (Hcount _ _ Hu0)|]; destruct (groq _); lia. }
  split.
  - intros user u Hu.
    destruct (decide (Api.user_id request = user)) as [<-|Hne].
    + congruence.
    + rewrite fixed_backend_users_other in Hu by exact Hne. eauto.
  - intros user memories. rewrite fixed_backend_memories.
    destruct (decide (Api.user_id request = user)) as [<-|Hne].
    + destruct (groq _) as [response_text|].
      * rewrite lookup_insert_eq. intros [= <-]. cbv zeta.
        assert (Hold :
          Forall (fun m => (String.length (FixedBackend.content m) <= 100)%nat)
                 (default [] (FixedBackend.memories_db st !! Api.user_id request)) /\
          Z.of_nat (length (default []
                      (FixedBackend.memories_db st !! Api.user_id request))) + 1
          <= FixedBackend.conversations u').
        { destruct (FixedBackend.memories_db st !! Api.user_id request)
            as [l|] eqn:Hl; simpl.
          - destruct (Hmem _ _ Hl) as (Hlen & u0 & Hu0 & Hle).
            rewrite Hu0 in Hconv. split; [exact Hlen|lia].
          - split; [constructor|].
            destruct (FixedBackend.users_db st !! Api.user_id request)
              as [u0|] eqn:Hu0; [specialize (Hcount _ _ Hu0)|]; lia. }
        destruct Hold as [Hlen Hle].
        destruct (Api.more_than_three_words (Api.message request)).
        -- split.
           ++ apply List.Forall_app. split; [exact Hlen|].
              constructor; [|constructor]. apply substring_length_le.
           ++ exists u'. split; [exact Hu'|].
              rewrite length_app. simpl. lia.
        -- split; [exact Hlen|]. exists u'. split; [exact Hu'|lia].
      * intros Hl. destruct (Hmem _ _ Hl) as (Hlen & u0 & Hu0 & Hle).
        split; [exact Hlen|]. exists u'. split; [exact Hu'|].
        rewrite Hu0 in Hconv. lia.
    + intros Hl.
      assert (Hl' : FixedBackend.memories_db st !! user = Some memories).
      { destruct (groq _); [now rewrite lookup_insert_ne in Hl|exact Hl]. }
      destruct (Hmem _ _ Hl') as (Hlen & u0 & Hu0 & Hle).
      split; [exact Hlen|]. exists u0. split; [|exact Hle].
      now rewrite fixed_backend_users_other.
Qed.

Lemma fixed_backend_stays_consistent_witness :
  consistent {| FixedBackend.users_db := ∅; FixedBackend.memories_db := ∅ |} /\
  consistent
    (fst (FixedBackend.chat (fun _ => Api.Completed "That sounds lovely!")
            {| Api.isoformat := "2026-01-01T10:00:00";
               Api.timestamp_text := "1767261600.0" |}
            {| FixedBackend.users_db := ∅; FixedBackend.memories_db := ∅ |}
            {| Api.user_id := "alice";
               Api.message := "I really love hiking in the mountains";
               Api.session_id := None |})).
Proof.
  assert (Hempty :
    consistent {| FixedBackend.users_db := ∅; FixedBackend.memories_db := ∅ |}).
  { split; intros user x; simpl; rewrite lookup_empty; discriminate. }
  split; [exact Hempty|].
  exact (fixed_backend_stays_consistent _ _ _ _ Hempty).
Defined.

(** ** The history a prompt is built from *)

Lemma last_n_app {A} n (old recent : list A) :
  (n <= length recent)%nat ->
  Text.last_n n (old ++ recent) = Text.last_n n recent.
Proof.
  intros Hn. unfold Text.last_n. rewrite length_app.
  replace (length old + length recent - n)%nat
    with (length old + (length recent - n))%nat by lia.
  apply drop_app_add.
Qed.

Lemma calculate_mood_window old recent :
  (5 <= length recent)%nat ->
  PromptEnhancer._calculate_mood (old ++ recent)
  = PromptEnhancer._calculate_mood recent.
Proof.
  intros Hn. destruct recent as [|r recent]; [simpl in Hn; lia|].
  unfold PromptEnhancer._calculate_mood.
  rewrite <- (last_n_app 5 old (r :: recent) Hn).
  now destruct old.
Qed.

Lemma history_section_window old recent :
  (6 <= length recent)%nat ->
  PromptEnhancer.history_section (old ++ recent)
  = PromptEnhancer.history_section recent.
Proof.
  intros Hn. destruct recent as [|r recent]; [simpl in Hn; lia|].
  unfold PromptEnhancer.history_section.
  rewrite <- (last_n_app 6 old (r :: recent) Hn).
  now destruct old.
Qed.

Lemma context_section_mood time_of_day user_message persona history :
  PromptEnhancer.context_section time_of_day user_message persona history
  = PromptEnhancer.lines
      [ "";
        "CURRENT SITUATION:";
        "- User emotion: " +:+ PromptEnhancer._detect_context user_message;
        "- Time of day: " +:+ time_of_day;
        "- Conversation mood: " +:+ PromptEnhancer._calculate_mood history;
        "";
        "CURRENT MESSAGE FROM USER:";
        Text.dquote +:+ user_message +:+ Text.dquote;
        "";
        "YOUR RESPONSE (as " +:+ get_or "Alex" (PromptEnhancer.name persona) +:+ "):";
        "        " ].
Proof. now destruct history. Qed.

(** X28.  Only the recent history shapes a prompt: once the history holds
    six messages or more, whatever came before the last six changes
    neither the history section nor the conversation mood, so the prompt
    built is the same as for the last six messages alone (or for any
    longer tail of the history). *)
Theorem prompt_uses_only_recent_history
    (time_of_day user_message : string) (memories : list MemoryDict)
    (persona : PromptEnhancer.Persona) (old recent : list HistoryEntry) :
  (6 <= length recent)%nat ->
  PromptEnhancer.build_prompt time_of_day user_message memories persona
    (old ++ recent)
  = PromptEnhancer.build_prompt time_of_day user_message memories persona recent.
Proof.
  intros Hn.
  unfold PromptEnhancer.build_prompt, PromptEnhancer.full_prompt.
  rewrite !context_section_mood.
  rewrite history_section_window by exact Hn.
  rewrite calculate_mood_window by lia.
  reflexivity.
Qed.

Lemma prompt_uses_only_recent_history_witness :
  (6 <= length (repeat {| h_role := Some "user"; h_content := Some "I am fine";
                          h_sentiment := Some "positive" |} 6))%nat /\
  PromptEnhancer.build_prompt "10:00 AM" "hello" [] PromptEnhancer.default_persona
    ([ {| h_role := Some "user"; h_content := Some "I feel awful";
          h_sentiment := Some "negative" |} ]
     ++ repeat {| h_role := Some "user"; h_content := Some "I am fine";
                  h_sentiment := Some "positive" |} 6)
  = PromptEnhancer.build_prompt "10:00 AM" "hello" [] PromptEnhancer.default_persona
      (repeat {| h_role := Some "user"; h_content := Some "I am fine";
                 h_sentiment := Some "positive" |} 6).
Proof.
  assert (Hn : (6 <= length (repeat {| h_role := Some "user";
                                       h_content := Some "I am fine";
                                       h_sentiment := Some "positive" |} 6))%nat)
    by (simpl; lia).
  split; [exact Hn|].
  exact (prompt_uses_only_recent_history _ _ _ _ _ _ Hn).
Defined.
